(** * ha-binday: the extraction, classification and time-normalisation
      pipeline of [getbins_headless.py]

    The development embeds the pure core of the scraper:
    [get_waste_group], [is_date], [parse_collection_date],
    [format_time_until_next], [calculate_time_differences],
    [parse_collection_table] and [get_bin_type_column_prefix].

    Modelling conventions.
    - Python [str] values are [string]s over 8-bit characters; the model
      covers text made of ASCII code points.  A character is white space
      when [str.isspace] says so on that range (codes 9-13, 28-32), which
      is also what [\s] matches in [re]; [str.lower] acts on [A-Z] only.
    - Python [int] is [Z]; [//] is [Z.div] and [%] is [Z.modulo].
    - [None] is [None]; a dictionary with a fixed set of possible keys is
      a record of optional fields (the insertion order of the keys is
      determined by which of them are present).
    - Exceptions are explicit: a computation that can raise returns an
      [outcome]. *)

From Stdlib Require Import List String Ascii ZArith Lia Bool Arith DecimalString.
Import ListNotations.

#[local] Open Scope string_scope.
#[local] Open Scope Z_scope.

Set Default Goal Selector "!".

(* ================================================================== *)
(** ** Python string primitives *)

Module PyStr.

(** [str.isspace] on one ASCII character. *)
Definition is_space (c : ascii) : bool :=
  let n := nat_of_ascii c in
  ((9 <=? n) && (n <=? 13))%nat || ((28 <=? n) && (n <=? 32))%nat.

Definition is_digit (c : ascii) : bool :=
  let n := nat_of_ascii c in ((48 <=? n) && (n <=? 57))%nat.

Definition is_upper (c : ascii) : bool :=
  let n := nat_of_ascii c in ((65 <=? n) && (n <=? 90))%nat.

Definition lower_char (c : ascii) : ascii :=
  if is_upper c then ascii_of_nat (nat_of_ascii c + 32) else c.

(** [s.lower()] *)
Fixpoint lower (s : string) : string :=
  match s with
  | EmptyString => EmptyString
  | String c t => String (lower_char c) (lower t)
  end.

(** [s.startswith(p)] *)
Fixpoint startswith (p s : string) : bool :=
  match p, s with
  | EmptyString, _ => true
  | String _ _, EmptyString => false
  | String a p', String b s' => Ascii.eqb a b && startswith p' s'
  end.

(** [needle in hay] *)
Fixpoint contains (needle hay : string) : bool :=
  startswith needle hay ||
  match hay with
  | EmptyString => false
  | String _ t => contains needle t
  end.

(** Truthiness of a string: [bool(s)]. *)
Definition nonempty (s : string) : bool :=
  match s with EmptyString => false | String _ _ => true end.

(** Truthiness of an optional string: [None] and [""] are both falsy. *)
Definition truthy (o : option string) : bool :=
  match o with None => false | Some s => nonempty s end.

(** [s.lstrip()] *)
Fixpoint lstrip (s : string) : string :=
  match s with
  | EmptyString => EmptyString
  | String c t => if is_space c then lstrip t else s
  end.

(** [s.rstrip()] *)
Fixpoint rstrip (s : string) : string :=
  match s with
  | EmptyString => EmptyString
  | String c t =>
      match rstrip t with
      | EmptyString => if is_space c then EmptyString else String c EmptyString
      | r => String c r
      end
  end.

(** [s.strip()] *)
Definition strip (s : string) : string := rstrip (lstrip s).

(** [sep.join(l)] *)
Fixpoint join (sep : string) (l : list string) : string :=
  match l with
  | [] => EmptyString
  | [x] => x
  | x :: t => x ++ sep ++ join sep t
  end.

(** [s.split()] with no argument: the maximal runs of characters that
    are not white space.  [cur] is the run read so far. *)
Fixpoint split_ws_aux (cur : string) (s : string) : list string :=
  match s with
  | EmptyString => if nonempty cur then [cur] else []
  | String c t =>
      if is_space c
      then (if nonempty cur then cur :: split_ws_aux EmptyString t
            else split_ws_aux EmptyString t)
      else split_ws_aux (cur ++ String c EmptyString) t
  end.

Definition split_ws (s : string) : list string := split_ws_aux EmptyString s.

(** [s.split(" | ")]: cut at every occurrence of the three-character
    separator, scanning from the left. *)
Fixpoint split_bar_aux (cur : string) (s : string) : list string :=
  match s with
  | EmptyString => [cur]
  | String c t =>
      if startswith " | " s
      then match t with
           | String _ (String _ rest) => cur :: split_bar_aux EmptyString rest
           | _ => [cur]
           end
      else split_bar_aux (cur ++ String c EmptyString) t
  end.

Definition split_bar (s : string) : list string := split_bar_aux EmptyString s.

(** [s.split(',', 1)[-1]]: what follows the first comma, or the whole
    string when it has none. *)
Fixpoint find_after_comma (s : string) : option string :=
  match s with
  | EmptyString => None
  | String c t => if Ascii.eqb c "," then Some t else find_after_comma t
  end.

Definition after_first_comma (s : string) : string :=
  match find_after_comma s with Some t => t | None => s end.

End PyStr.

Import PyStr.

(* ================================================================== *)
(** ** Classification of labels *)

(** What [get_waste_group] returns when it is not [None]: a string, or
    a list of strings. *)
Inductive waste_group : Type :=
  | Group (s : string)
  | Groups (l : list string).

Definition green_box_groups : waste_group :=
  Groups ["Plastics & Metals (green box)"; "Glass & Paper (green box)"].

Definition get_waste_group (collection_type : string) : option waste_group :=
  if negb (nonempty collection_type) then None else
  let collection_type_lower := lower collection_type in
  if contains "black" collection_type_lower && contains "rubbish" collection_type_lower
  then Some (Group "General Rubbish (black bin)")
  else if contains "blue" collection_type_lower &&
          (contains "cardboard" collection_type_lower || contains "bag" collection_type_lower)
  then Some (Group "Cardboard (blue bag/box)")
  else if contains "food" collection_type_lower || contains "caddy" collection_type_lower
  then Some (Group "Food Waste (caddy)")
  else if contains "green" collection_type_lower && contains "recycling" collection_type_lower
  then Some green_box_groups
  else if contains "garden" collection_type_lower && contains "waste" collection_type_lower
  then Some (Group "Garden Waste (garden bin subscription)")
  else None.

Definition get_bin_type_column_prefix (collection_type : string) : option string :=
  if negb (nonempty collection_type) then None else
  let collection_type_lower := lower collection_type in
  if contains "black" collection_type_lower && contains "rubbish" collection_type_lower
  then Some "black_rubbish_140l"
  else if contains "blue" collection_type_lower &&
          (contains "cardboard" collection_type_lower || contains "bag" collection_type_lower)
  then Some "blue_cardboard_bag"
  else if contains "food" collection_type_lower || contains "caddy" collection_type_lower
  then Some "black_food_waste"
  else if contains "garden" collection_type_lower && contains "waste" collection_type_lower
  then Some "green_garden_bin"
  else if contains "green" collection_type_lower && contains "recycling" collection_type_lower
  then Some "green_recycling_box"
  else None.

(** The rule table as the specification words it: an ordered list of
    (condition, waste group, storage key) rows over the lower-cased
    label, the first matching row deciding both results. *)
Module RuleTable.

Record rule : Type := {
  applies : string -> bool;
  rule_group : waste_group;
  rule_key : string
}.

Definition black_rubbish : rule :=
  {| applies := fun l => contains "black" l && contains "rubbish" l;
     rule_group := Group "General Rubbish (black bin)";
     rule_key := "black_rubbish_140l" |}.

Definition blue_cardboard : rule :=
  {| applies := fun l => contains "blue" l && (contains "cardboard" l || contains "bag" l);
     rule_group := Group "Cardboard (blue bag/box)";
     rule_key := "blue_cardboard_bag" |}.

Definition food_caddy : rule :=
  {| applies := fun l => contains "food" l || contains "caddy" l;
     rule_group := Group "Food Waste (caddy)";
     rule_key := "black_food_waste" |}.

Definition green_recycling : rule :=
  {| applies := fun l => contains "green" l && contains "recycling" l;
     rule_group := green_box_groups;
     rule_key := "green_recycling_box" |}.

Definition garden_waste : rule :=
  {| applies := fun l => contains "garden" l && contains "waste" l;
     rule_group := Group "Garden Waste (garden bin subscription)";
     rule_key := "green_garden_bin" |}.

Definition rules : list rule :=
  [black_rubbish; blue_cardboard; food_caddy; green_recycling; garden_waste].

Fixpoint first_match (rs : list rule) (l : string) : option rule :=
  match rs with
  | [] => None
  | r :: rs' => if applies r l then Some r else first_match rs' l
  end.

(** One of the three rules listed before the green-recycling rule applies. *)
Definition earlier (l : string) : bool :=
  applies black_rubbish l || applies blue_cardboard l || applies food_caddy l.

(** The green-recycling and the garden-waste conditions both hold and no
    earlier rule applies. *)
Definition overlap_only (l : string) : bool :=
  negb (earlier l) && applies green_recycling l && applies garden_waste l.

(** [classify label]: the (waste group, storage key) pair of the table. *)
Definition classify (label : string) : option waste_group * option string :=
  match first_match rules (lower label) with
  | Some r => (Some (rule_group r), Some (rule_key r))
  | None => (None, None)
  end.

End RuleTable.

(* ================================================================== *)
(** ** Exceptions *)

(** The exception classes that occur in the modelled code. *)
Inductive exn : Type :=
  | ValueError
  | AttributeError
  | ZoneInfoNotFoundError.

(** The result of running code that can raise. *)
Inductive outcome (A : Type) : Type :=
  | Return (a : A)
  | Raise (e : exn).

Arguments Return {A} a.
Arguments Raise {A} e.

(** [try: body  except <classes>: handler] *)
Definition try_except {A : Type} (body : outcome A) (classes : exn -> bool)
    (handler : outcome A) : outcome A :=
  match body with
  | Return a => Return a
  | Raise e => if classes e then handler else Raise e
  end.

(** [except Exception] *)
Definition any_Exception (e : exn) : bool := true.

(** [except (ValueError, AttributeError)] *)
Definition ValueError_or_AttributeError (e : exn) : bool :=
  match e with
  | ValueError | AttributeError => true
  | ZoneInfoNotFoundError => false
  end.

(* ================================================================== *)
(** ** Dates and times *)

(** A time zone object, identified by its key. *)
Definition zone : Type := string.

(** A [datetime] object; [tzinfo = None] for a naive one. *)
Record datetime : Type := mkdt {
  year : Z; month : Z; day : Z;
  hour : Z; minute : Z; second : Z; microsecond : Z;
  tzinfo : option zone
}.

(** A [timedelta] object, normalised as the constructor leaves it. *)
Record timedelta : Type := mktd {
  td_days : Z; td_seconds : Z; td_microseconds : Z
}.

Definition is_leap (y : Z) : bool :=
  (y mod 4 =? 0) && (negb (y mod 100 =? 0) || (y mod 400 =? 0)).

Definition days_in_month (y m : Z) : Z :=
  if m =? 2 then (if is_leap y then 29 else 28)
  else if (m =? 4) || (m =? 6) || (m =? 9) || (m =? 11) then 30
  else 31.

(** Days before January 1st of year [y]. *)
Definition days_before_year (y : Z) : Z :=
  let y' := y - 1 in y' * 365 + y' / 4 - y' / 100 + y' / 400.

(** Days in year [y] before the first day of month [m]. *)
Definition days_before_month (y m : Z) : Z :=
  nth (Z.to_nat m) [0; 0; 31; 59; 90; 120; 151; 181; 212; 243; 273; 304; 334] 0
  + (if (2 <? m) && is_leap y then 1 else 0).

(** [date.toordinal()]: 0001-01-01 is day 1. *)
Definition toordinal (d : datetime) : Z :=
  days_before_year (year d) + days_before_month (year d) (month d) + day d.

(** The invariant of every [datetime] object. *)
Definition valid_datetime (d : datetime) : Prop :=
  1 <= year d <= 9999 /\ 1 <= month d <= 12 /\
  1 <= day d <= days_in_month (year d) (month d) /\
  0 <= hour d <= 23 /\ 0 <= minute d <= 59 /\ 0 <= second d <= 59 /\
  0 <= microsecond d <= 999999.

(** Comparison of two datetimes that carry the same [tzinfo] object:
    the field tuples are compared lexicographically. *)
Fixpoint lex_compare (a b : list Z) : comparison :=
  match a, b with
  | x :: a', y :: b' =>
      match x ?= y with Eq => lex_compare a' b' | c => c end
  | [], [] => Eq
  | [], _ :: _ => Lt
  | _ :: _, [] => Gt
  end.

Definition fields (d : datetime) : list Z :=
  [year d; month d; day d; hour d; minute d; second d; microsecond d].

Definition dt_compare (a b : datetime) : comparison :=
  lex_compare (fields a) (fields b).

(** [a >= b] *)
Definition dt_ge (a b : datetime) : bool :=
  match dt_compare a b with Lt => false | _ => true end.

(** [a <= b] *)
Definition dt_le (a b : datetime) : bool :=
  match dt_compare a b with Gt => false | _ => true end.

(** [timedelta(days, seconds, microseconds)]: the normalising constructor. *)
Definition mk_timedelta (days seconds microseconds : Z) : timedelta :=
  let total := (days * 86400 + seconds) * 1000000 + microseconds in
  {| td_days := total / 86400000000;
     td_seconds := (total mod 86400000000) / 1000000;
     td_microseconds := total mod 1000000 |}.

(** [a - b] for two datetimes with the same [tzinfo] object. *)
Definition dt_sub (a b : datetime) : timedelta :=
  let secs1 := second a + minute a * 60 + hour a * 3600 in
  let secs2 := second b + minute b * 60 + hour b * 3600 in
  mk_timedelta (toordinal a - toordinal b) (secs1 - secs2)
               (microsecond a - microsecond b).

(** The numerator of [td.total_seconds()], in microseconds. *)
Definition total_microseconds (td : timedelta) : Z :=
  (td_days td * 86400 + td_seconds td) * 1000000 + td_microseconds td.

(** [int(td.total_seconds() / 60)].  The two floating-point quotients
    are taken as exact; [int] truncates towards zero. *)
Definition total_minutes (td : timedelta) : Z :=
  Z.quot (total_microseconds td) 60000000.

(* ------------------------------------------------------------------ *)
(** *** [datetime.strptime(date_part, "%d %B %Y")] *)

Definition digit_val (c : ascii) : Z := Z.of_nat (nat_of_ascii c) - 48.

Definition in_range (lo hi : ascii) (c : ascii) : bool :=
  ((nat_of_ascii lo <=? nat_of_ascii c) && (nat_of_ascii c <=? nat_of_ascii hi))%nat.

(** An alternative of the [%d] group: the value read and what follows. *)
Definition day_alt : Type := string -> option (Z * string).

(** [3[0-1]] *)
Definition day_alt_3x : day_alt := fun s =>
  match s with
  | String "3" (String c r) =>
      if in_range "0" "1" c then Some (30 + digit_val c, r) else None
  | _ => None
  end.

(** [[1-2]\d] *)
Definition day_alt_12x : day_alt := fun s =>
  match s with
  | String a (String c r) =>
      if in_range "1" "2" a && is_digit c
      then Some (10 * digit_val a + digit_val c, r) else None
  | _ => None
  end.

(** [0[1-9]] *)
Definition day_alt_0x : day_alt := fun s =>
  match s with
  | String "0" (String c r) =>
      if in_range "1" "9" c then Some (digit_val c, r) else None
  | _ => None
  end.

(** [[1-9]] *)
Definition day_alt_x : day_alt := fun s =>
  match s with
  | String c r => if in_range "1" "9" c then Some (digit_val c, r) else None
  | _ => None
  end.

(** [ [1-9]] *)
Definition day_alt_sp_x : day_alt := fun s =>
  match s with
  | String " " (String c r) =>
      if in_range "1" "9" c then Some (digit_val c, r) else None
  | _ => None
  end.

Definition day_alts : list day_alt :=
  [day_alt_3x; day_alt_12x; day_alt_0x; day_alt_x; day_alt_sp_x].

(** [\s+]: at least one white-space character, then all that follow.
    (What comes next in the pattern never starts with white space, so
    giving characters back cannot help the match.) *)
Definition skip_spaces1 (s : string) : option string :=
  match s with
  | String c t => if is_space c then Some (lstrip t) else None
  | EmptyString => None
  end.

Definition month_names : list string :=
  ["january"; "february"; "march"; "april"; "may"; "june"; "july";
   "august"; "september"; "october"; "november"; "december"].

Fixpoint drop (n : nat) (s : string) : string :=
  match n, s with
  | O, _ => s
  | S n', String _ t => drop n' t
  | S _, EmptyString => EmptyString
  end.

(** The [%B] group, matched ignoring case: the month number and what
    follows the name.  No month name is a prefix of another. *)
Fixpoint match_month_from (names : list string) (idx : Z) (s : string)
    : option (Z * string) :=
  match names with
  | [] => None
  | n :: names' =>
      if startswith n (lower s) then Some (idx, drop (String.length n) s)
      else match_month_from names' (idx + 1) s
  end.

Definition match_month (s : string) : option (Z * string) :=
  match_month_from month_names 1 s.

(** The [%Y] group, [\d\d\d\d]. *)
Definition match_year (s : string) : option (Z * string) :=
  match s with
  | String a (String b (String c (String d r))) =>
      if is_digit a && is_digit b && is_digit c && is_digit d
      then Some (1000 * digit_val a + 100 * digit_val b
                 + 10 * digit_val c + digit_val d, r)
      else None
  | _ => None
  end.

(** What follows the [%d] group in the pattern: [\s+%B\s+%Y]. *)
Definition match_after_day (s : string) : option (Z * Z * string) :=
  match skip_spaces1 s with
  | None => None
  | Some s1 =>
      match match_month s1 with
      | None => None
      | Some (m, s2) =>
          match skip_spaces1 s2 with
          | None => None
          | Some s3 =>
              match match_year s3 with
              | None => None
              | Some (y, s4) => Some (m, y, s4)
              end
          end
      end
  end.

(** The regular-expression match from the start of the string: the
    alternatives of [%d] are tried in order, and the first one after
    which the rest of the pattern matches is taken.  Returns day, month,
    year and the unconsumed text. *)
Fixpoint regex_match (alts : list day_alt) (s : string)
    : option (Z * Z * Z * string) :=
  match alts with
  | [] => None
  | alt :: alts' =>
      match alt s with
      | Some (d, r) =>
          match match_after_day r with
          | Some (m, y, rest) => Some (d, m, y, rest)
          | None => regex_match alts' s
          end
      | None => regex_match alts' s
      end
  end.

(** [datetime.strptime(s, "%d %B %Y")]: [ValueError] when the pattern
    does not match, when text remains after the match, or when the
    fields do not form a date. *)
Definition strptime (s : string) : outcome datetime :=
  match regex_match day_alts s with
  | None => Raise ValueError
  | Some (d, m, y, rest) =>
      if nonempty rest then Raise ValueError
      else if (1 <=? y) && (y <=? 9999) && (1 <=? d) && (d <=? days_in_month y m)
      then Return (mkdt y m d 0 0 0 0 None)
      else Raise ValueError
  end.

(** [dt.replace(hour=7, minute=0, second=0, microsecond=0)] *)
Definition at_seven (d : datetime) : datetime :=
  mkdt (year d) (month d) (day d) 7 0 0 0 (tzinfo d).

(** [dt.replace(tzinfo=tz)] *)
Definition with_tz (d : datetime) (tz : zone) : datetime :=
  mkdt (year d) (month d) (day d) (hour d) (minute d) (second d)
       (microsecond d) (Some tz).

(** [is_date(val)]: the value contains an English weekday name. *)
Definition weekdays : list string :=
  ["Monday"; "Tuesday"; "Wednesday"; "Thursday"; "Friday"; "Saturday"; "Sunday"].

Definition is_date (val : option string) : bool :=
  match val with
  | None => false
  | Some v => if negb (nonempty v) then false
              else existsb (fun day => contains day v) weekdays
  end.

(** [str(n)] as an f-string renders an integer. *)
Definition str_of_int (n : Z) : string := NilZero.string_of_int (Z.to_int n).

(** [l.append(x)] *)
Definition list_append {A : Type} (l : list A) (x : A) : list A := List.app l [x].

Definition format_time_until_next (days minutes : Z) : string :=
  if minutes <? 0 then "Collection time has passed" else
  let total_minutes := minutes in
  let hours := total_minutes / 60 in
  let remaining_minutes := total_minutes mod 60 in
  let hours := if 0 <? days then hours - days * 24 else hours in
  let parts := [] in
  let parts :=
    if 0 <? days
    then (if days =? 1 then list_append parts "1 day"
          else list_append parts (str_of_int days ++ " days"))
    else parts in
  let parts :=
    if 0 <? hours
    then (if hours =? 1 then list_append parts "1 hour"
          else list_append parts (str_of_int hours ++ " hours"))
    else parts in
  let parts :=
    if 0 <? remaining_minutes
    then (if remaining_minutes =? 1 then list_append parts "1 minute"
          else list_append parts (str_of_int remaining_minutes ++ " minutes"))
    else parts in
  match parts with
  | [] => "Less than 1 minute"
  | [p0] => p0
  | [p0; p1] => p0 ++ " and " ++ p1
  | _ => join ", " (removelast parts) ++ " and " ++ last parts ""
  end.

(** The duration formatter as the specification words it. *)
Module DurationSpec.

Definition plural (n : Z) (unit : string) : string :=
  if n =? 1 then "1 " ++ unit else str_of_int n ++ " " ++ unit ++ "s".

(** The present (strictly positive) components, in the order days,
    hours, minutes. *)
Definition components (days total_minutes : Z) : list string :=
  let hours := total_minutes / 60 - days * 24 in
  let remaining_minutes := total_minutes mod 60 in
  List.app (if 0 <? days then [plural days "day"] else [])
   (List.app (if 0 <? hours then [plural hours "hour"] else [])
      (if 0 <? remaining_minutes then [plural remaining_minutes "minute"] else [])).

Definition join_components (parts : list string) : string :=
  match parts with
  | [] => "Less than 1 minute"
  | [a] => a
  | [a; b] => a ++ " and " ++ b
  | [a; b; c] => a ++ ", " ++ b ++ " and " ++ c
  | _ => join ", " (removelast parts) ++ " and " ++ last parts ""
  end.

Definition format_duration (days total_minutes : Z) : string :=
  join_components (components days total_minutes).

End DurationSpec.

(** The result dictionary of [calculate_time_differences]. *)
Record time_diffs : Type := mkdiffs {
  days_until_next : option Z;
  minutes_until_next : option Z;
  time_until_next_text : option string;
  days_since_last : option Z;
  minutes_since_last : option Z
}.

(** One element of the list [parse_collection_table] returns. *)
Record item : Type := mkitem {
  collection_type : option string;
  waste_group_of : option waste_group;
  next_collection : option string;
  last_collection : option string;
  diffs : time_diffs
}.

Definition empty_diffs : time_diffs := mkdiffs None None None None None.

Definition diffs_empty (d : time_diffs) : bool :=
  match d with
  | mkdiffs None None None None None => true
  | _ => false
  end.

(** [not collection_item]: the dictionary has no key. *)
Definition item_empty (i : item) : bool :=
  match i with
  | mkitem None None None None d => diffs_empty d
  | _ => false
  end.

(** Truthiness of what [get_waste_group] returns. *)
Definition group_truthy (g : option waste_group) : bool :=
  match g with
  | None => false
  | Some (Group s) => nonempty s
  | Some (Groups l) => match l with [] => false | _ => true end
  end.

(* ------------------------------------------------------------------ *)
(** *** The part of the document the parser looks at *)

(** A cell is given by its text nodes, in document order. *)
Definition text_nodes : Type := list string.

(** [tag.get_text(separator=sep, strip=True)]: every text node is
    stripped, the empty ones are left out, the rest is joined. *)
Definition get_text (sep : string) (nodes : text_nodes) : string :=
  join sep (filter nonempty (map strip nodes)).

(** A [<tr>]: [row.find('th')] and [row.find_all('td')]. *)
Record tr : Type := mktr {
  row_th : option text_nodes;
  row_tds : list text_nodes
}.

(** The first [<table>]: the [<th>] cells of [table.find('thead')] and
    the [<tr>] rows of [table.find('tbody')]. *)
Record table : Type := mktable {
  thead : option (list text_nodes);
  tbody : option (list tr)
}.

(** The column indices found in the header row. *)
Record columns : Type := mkcols {
  next_col_idx : option nat;
  last_col_idx : option nat;
  collection_type_idx : option nat
}.

(** [for i, header in enumerate(headers): ...] *)
Fixpoint scan_headers (i : nat) (headers : list string) (c : columns) : columns :=
  match headers with
  | [] => c
  | header :: rest =>
      let c' :=
        if contains "Next collection" header
        then mkcols (Some i) (last_col_idx c) (collection_type_idx c)
        else if contains "Last collection" header
        then mkcols (next_col_idx c) (Some i) (collection_type_idx c)
        else if contains "Collection" header && nonempty header
        then mkcols (next_col_idx c) (last_col_idx c) (Some i)
        else c in
      scan_headers (S i) rest c'
  end.

Definition find_columns (t : table) : columns :=
  let headers :=
    match thead t with
    | Some ths => map (get_text "") ths
    | None => []
    end in
  scan_headers 0 headers (mkcols None None None).

(** [values[i] if values[i] else None], for [i < len(values)]. *)
Definition value_at (values : list string) (i : nat) : option string :=
  match nth_error values i with
  | Some v => if nonempty v then Some v else None
  | None => None
  end.

(** The collection type of a row, before white space is collapsed. *)
Definition raw_collection_type (c : columns) (row : tr) (values : list string)
    : option string :=
  match row_th row with
  | Some nodes => Some (get_text " | " nodes)
  | None =>
      match collection_type_idx c with
      | Some i =>
          if (i <? List.length values)%nat
          then let val := value_at values i in
               if truthy val && negb (is_date val) then val else None
          else match values with
               | v0 :: _ =>
                   if nonempty v0 && negb (is_date (Some v0)) then Some v0 else None
               | [] => None
               end
      | None =>
          match values with
          | v0 :: _ =>
              if nonempty v0 && negb (is_date (Some v0)) then Some v0 else None
          | [] => None
          end
      end
  end.

(** [' '.join(collection_type.split())], applied when the type is truthy. *)
Definition collapse (o : option string) : option string :=
  match o with
  | Some s => if nonempty s then Some (join " " (split_ws s)) else o
  | None => None
  end.

Definition resolve_collection_type (c : columns) (row : tr) (values : list string)
    : option string :=
  collapse (raw_collection_type c row values).

(** The date found through a header index. *)
Definition date_at (idx : option nat) (values : list string) : option string :=
  match idx with
  | Some i =>
      if (i <? List.length values)%nat
      then let val := value_at values i in
           if truthy val && is_date val then val else None
      else None
  | None => None
  end.

Definition date_values_of (values : list string) : list string :=
  filter (fun val => nonempty val && is_date (Some val)) values.

Definition resolve_next (c : columns) (values : list string) : option string :=
  let next := date_at (next_col_idx c) values in
  if negb (truthy next)
  then match date_values_of values with
       | d0 :: _ => Some d0
       | [] => next
       end
  else next.

Definition resolve_last (c : columns) (values : list string) : option string :=
  let last := date_at (last_col_idx c) values in
  if negb (truthy last)
  then match date_values_of values with
       | _ :: d1 :: _ => Some d1
       | _ => last
       end
  else last.

(** [x if x else <key absent>] *)
Definition if_truthy (o : option string) : option string :=
  if truthy o then o else None.

(** [[ct.strip() for ct in collection_type.split(" | ")]] *)
Definition individual_types (collection_type : string) : list string :=
  map strip (split_bar collection_type).

(* ------------------------------------------------------------------ *)
(** *** Code that raises and reads the clock *)

(** A computation that may raise and that reads the wall clock: the
    state is the number of readings made so far. *)
Definition M (A : Type) : Type := nat -> outcome (A * nat).

Definition ret {A : Type} (a : A) : M A := fun k => Return (a, k).

Definition bind {A B : Type} (m : M A) (f : A -> M B) : M B :=
  fun k =>
    match m k with
    | Return (a, k') => f a k'
    | Raise e => Raise e
    end.

Definition lift {A : Type} (o : outcome A) : M A :=
  fun k =>
    match o with
    | Return a => Return (a, k)
    | Raise e => Raise e
    end.

Declare Scope py_scope.
Delimit Scope py_scope with py.
Notation "x <- m ;; k" := (bind m (fun x => k))
  (at level 61, m at next level, right associativity) : py_scope.

(** The value a computation returns when started with no reading made. *)
Definition run {A : Type} (m : M A) : outcome A :=
  match m O with
  | Return (a, _) => Return a
  | Raise e => Raise e
  end.

Section Scraper.

(** [zoneinfo.ZoneInfo]: the zone object for a key, or an exception. *)
Variable ZoneInfo : string -> outcome zone.

(** The module-level constant [TIMEZONE]. *)
Variable TIMEZONE : string.

(** The wall clock: [clock k] is what the [k]-th call of
    [datetime.now(tz)] reads, as local time in the zone asked for. *)
Variable clock : nat -> datetime.

(** [BeautifulSoup(html, 'html.parser').find('table')], reduced to the
    cells the parser reads. *)
Variable find_table : string -> option table.

(** [try: tz = ZoneInfo(TIMEZONE)  except Exception: tz = ZoneInfo("Europe/London")] *)
Definition configured_zone : outcome zone :=
  try_except (ZoneInfo TIMEZONE) any_Exception (ZoneInfo "Europe/London").

Definition parse_collection_date (date_str : option string)
    : outcome (option datetime) :=
  match date_str with
  | None => Return None
  | Some s =>
      if negb (nonempty s) then Return None else
      try_except
        (let date_part := strip (after_first_comma s) in
         match strptime date_part with
         | Raise e => Raise e
         | Return dt =>
             let dt := at_seven dt in
             match configured_zone with
             | Raise e => Raise e
             | Return tz => Return (Some (with_tz dt tz))
             end
         end)
        ValueError_or_AttributeError
        (Return None)
  end.

(** [datetime.now(tz)] *)
Definition datetime_now (tz : zone) : M datetime :=
  fun k => Return (with_tz (clock k) tz, S k).

#[local] Open Scope py_scope.

Definition calculate_time_differences
    (next_collection_str last_collection_str : option string) : M time_diffs :=
  let result := empty_diffs in
  tz <- lift configured_zone ;;
  now <- datetime_now tz ;;
  result <-
    (if truthy next_collection_str then
       next_dt <- lift (parse_collection_date next_collection_str) ;;
       match next_dt with
       | Some next_dt =>
           if dt_ge next_dt now then
             let delta := dt_sub next_dt now in
             let days := td_days delta in
             let minutes := total_minutes delta in
             ret (mkdiffs (Some days) (Some minutes)
                          (Some (format_time_until_next days minutes))
                          (days_since_last result) (minutes_since_last result))
           else
             ret (mkdiffs (Some 0) (Some 0) (Some "Collection time has passed")
                          (days_since_last result) (minutes_since_last result))
       | None => ret result
       end
     else ret result) ;;
  result <-
    (if truthy last_collection_str then
       last_dt <- lift (parse_collection_date last_collection_str) ;;
       match last_dt with
       | Some last_dt =>
           if dt_le last_dt now then
             let delta := dt_sub now last_dt in
             let days := td_days delta in
             let minutes := total_minutes delta in
             ret (mkdiffs (days_until_next result) (minutes_until_next result)
                          (time_until_next_text result)
                          (Some days) (Some minutes))
           else
             ret (mkdiffs (days_until_next result) (minutes_until_next result)
                          (time_until_next_text result)
                          (Some 0) (Some 0))
       | None => ret result
       end
     else ret result) ;;
  ret result.

(** The loop over the individual types of a composite label. *)
Fixpoint split_items (types : list string)
    (next_collection last_collection : option string) : M (list item) :=
  match types with
  | [] => ret []
  | individual_type :: rest =>
      if nonempty individual_type then
        let waste_group := get_waste_group individual_type in
        time_diffs <- calculate_time_differences next_collection last_collection ;;
        let item :=
          mkitem (Some individual_type)
                 (if group_truthy waste_group then waste_group else None)
                 (if_truthy next_collection) (if_truthy last_collection)
                 time_diffs in
        items <- split_items rest next_collection last_collection ;;
        ret (item :: items)
      else split_items rest next_collection last_collection
  end.

(** The body of the loop over the rows: the items one row appends. *)
Definition parse_row (c : columns) (row : tr) : M (list item) :=
  let values := map (get_text "") (row_tds row) in
  let collection_type := resolve_collection_type c row values in
  let next_collection := resolve_next c values in
  let last_collection := resolve_last c values in
  match collection_type with
  | Some ct =>
      if nonempty ct && contains " | " ct then
        split_items (individual_types ct) next_collection last_collection
      else
        let waste_group := if nonempty ct then get_waste_group ct else None in
        time_diffs <- calculate_time_differences next_collection last_collection ;;
        let collection_item :=
          mkitem (if_truthy collection_type)
                 (if group_truthy waste_group then waste_group else None)
                 (if_truthy next_collection) (if_truthy last_collection)
                 time_diffs in
        ret (if item_empty collection_item then [] else [collection_item])
  | None =>
      time_diffs <- calculate_time_differences next_collection last_collection ;;
      let collection_item :=
        mkitem None None
               (if_truthy next_collection) (if_truthy last_collection)
               time_diffs in
      ret (if item_empty collection_item then [] else [collection_item])
  end.

Fixpoint parse_rows (c : columns) (rows : list tr) : M (list item) :=
  match rows with
  | [] => ret []
  | row :: rest =>
      items <- parse_row c row ;;
      collections <- parse_rows c rest ;;
      ret (List.app items collections)
  end.

Definition parse_collection_table (html : string) : M (list item) :=
  match find_table html with
  | None => ret []
  | Some t =>
      let c := find_columns t in
      match tbody t with
      | None => ret []
      | Some rows => parse_rows c rows
      end
  end.

End Scraper.

(* ================================================================== *)
(** ** Auxiliary definitions for the statements *)

(** What [calculate_time_differences] puts in its result for a given
    reading [now] of the clock and the two parsed dates. *)
Definition diffs_at (now : datetime) (next_dt last_dt : option datetime)
    : time_diffs :=
  let until :=
    match next_dt with
    | Some n =>
        if dt_ge n now then
          let delta := dt_sub n now in
          (Some (td_days delta), Some (total_minutes delta),
           Some (format_time_until_next (td_days delta) (total_minutes delta)))
        else (Some 0, Some 0, Some "Collection time has passed")
    | None => (None, None, None)
    end in
  let since :=
    match last_dt with
    | Some l =>
        if dt_le l now then
          let delta := dt_sub now l in
          (Some (td_days delta), Some (total_minutes delta))
        else (Some 0, Some 0)
    | None => (None, None)
    end in
  mkdiffs (fst (fst until)) (snd (fst until)) (snd until) (fst since) (snd since).

(** The date a raw string stands for, [None] when it does not parse. *)
Definition parsed_date (ZoneInfo : string -> outcome zone) (TIMEZONE : string)
    (date_str : option string) : option datetime :=
  match parse_collection_date ZoneInfo TIMEZONE date_str with
  | Return r => r
  | Raise _ => None
  end.

(** A raw date string the parser cannot turn into a date: absent, empty,
    or rejected by [strptime]. *)
Definition unparseable (date_str : option string) : Prop :=
  match date_str with
  | None => True
  | Some s =>
      s = EmptyString \/ exists e, strptime (strip (after_first_comma s)) = Raise e
  end.

(** An optional integer field is absent or not negative. *)
Definition nonneg (o : option Z) : Prop :=
  match o with Some n => 0 <= n | None => True end.

Definition nonneg_diffs (d : time_diffs) : Prop :=
  nonneg (days_until_next d) /\ nonneg (minutes_until_next d) /\
  nonneg (days_since_last d) /\ nonneg (minutes_since_last d).

(** What every item made from a row with data cells [values] looks like,
    when both dates have been resolved and the zone is [tz]. *)
Definition row_item (ZoneInfo : string -> outcome zone) (TIMEZONE : string)
    (clock : nat -> datetime) (tz : zone)
    (c : columns) (values : list string) (it : item) : Prop :=
  next_collection it = if_truthy (resolve_next c values) /\
  last_collection it = if_truthy (resolve_last c values) /\
  (exists j, diffs it
     = diffs_at (with_tz (clock j) tz)
                (parsed_date ZoneInfo TIMEZONE (resolve_next c values))
                (parsed_date ZoneInfo TIMEZONE (resolve_last c values))) /\
  ((exists s, collection_type it = Some s /\ nonempty s = true /\
              waste_group_of it = get_waste_group s) \/
   (collection_type it = None /\ waste_group_of it = None /\
    item_empty it = false)).

(** An item has a non-empty collection type. *)
Definition typed (it : item) : Prop :=
  exists s, collection_type it = Some s /\ s <> EmptyString.

(** An item without a collection type: it has no waste group either,
    and its next collection is a cell that looks like a date. *)
Definition untyped_dated (it : item) : Prop :=
  collection_type it = None /\ waste_group_of it = None /\
  exists d, next_collection it = Some d /\ is_date (Some d) = true.

(** The label of a row as the specification words it, with the fall
    through from the mapped cell to the first cell. *)
Module LabelSpec.

Definition usable (cell : option string) : option string :=
  match cell with
  | Some v => if nonempty v && negb (is_date (Some v)) then Some v else None
  | None => None
  end.

Definition resolve (c : columns) (row : tr) (values : list string)
    : option string :=
  match row_th row with
  | Some nodes => Some (get_text " | " nodes)
  | None =>
      let mapped :=
        match collection_type_idx c with
        | Some i => usable (nth_error values i)
        | None => None
        end in
      match mapped with
      | Some v => Some v
      | None => usable (nth_error values 0)
      end
  end.

End LabelSpec.

(* ================================================================== *)
(** ** Sample inputs *)

Module Samples.

(** A system whose time-zone database holds the two keys below. *)
Definition tzdata (key : string) : outcome zone :=
  if String.eqb key "Europe/London" || String.eqb key "UTC"
  then Return key else Raise ZoneInfoNotFoundError.

(** A clock that reads the same time at every call. *)
Definition steady (now : datetime) : nat -> datetime := fun _ => now.

Definition sunday_noon : datetime := mkdt 2025 11 16 12 0 0 0 None.

(** A clock that passes 07:00 on 16 November 2025 between its first
    and its second reading. *)
Definition ticking (k : nat) : datetime :=
  match k with
  | O => mkdt 2025 11 16 6 59 59 999999 None
  | S _ => mkdt 2025 11 16 7 0 0 (Z.of_nat k) None
  end.

Definition dates_only_html : string :=
  "<table><tbody><tr><td>Monday, 17 November 2025</td></tr></tbody></table>".

Definition dates_only_table : table :=
  mktable None (Some [mktr None [["Monday, 17 November 2025"]]]).

Definition composite_html : string :=
  "<table><tbody><tr><th>Black Rubbish Bin<br/>Blue Cardboard Bag</th><td>Monday, 17 November 2025</td></tr></tbody></table>".

Definition composite_row : tr :=
  mktr (Some ["Black Rubbish Bin"; "Blue Cardboard Bag"])
       [["Monday, 17 November 2025"]].

Definition composite_table : table := mktable None (Some [composite_row]).

Definition empty_type_html : string :=
  "<table><thead><tr><th>Bin</th><th>Collection type</th></tr></thead><tbody><tr><td>Black Rubbish Bin</td><td></td></tr></tbody></table>".

Definition empty_type_row : tr := mktr None [["Black Rubbish Bin"]; []].

Definition empty_type_table : table :=
  mktable (Some [["Bin"]; ["Collection type"]]) (Some [empty_type_row]).

(** The tables [html.parser] builds for the sample pages. *)
Definition find_table (html : string) : option table :=
  if String.eqb html dates_only_html then Some dates_only_table
  else if String.eqb html composite_html then Some composite_table
  else if String.eqb html empty_type_html then Some empty_type_table
  else None.

End Samples.

(* ================================================================== *)
(** ** Storing the collections *)

(** A Python dictionary with string keys, in insertion order. *)
Definition dict (V : Type) : Type := list (string * V).

(** [d[k] = v]: an existing key keeps its place. *)
Fixpoint dict_set {V : Type} (d : dict V) (k : string) (v : V) : dict V :=
  match d with
  | [] => [(k, v)]
  | (k', v') :: d' =>
      if String.eqb k' k then (k, v) :: d' else (k', v') :: dict_set d' k v
  end.

(** [d.get(k)] for a dictionary whose values may be [None]: [None] for
    a missing key too. *)
Fixpoint dict_get {V : Type} (d : dict (option V)) (k : string) : option V :=
  match d with
  | [] => None
  | (k', v') :: d' => if String.eqb k' k then v' else dict_get d' k
  end.

(** [x in l] for a list of strings. *)
Definition str_in (x : string) (l : list string) : bool :=
  existsb (String.eqb x) l.

(** A parameter of the SQL statement. *)
Inductive sql_value : Type :=
  | SqlText (s : string)
  | SqlTimestamp (d : datetime)
  | SqlNull.

(** How the driver passes an optional datetime. *)
Definition sql_of_date (o : option datetime) : sql_value :=
  match o with Some d => SqlTimestamp d | None => SqlNull end.

(** What [store_collections] hands to [cursor.execute] (the statement
    text is made of the first, third and fourth lists). *)
Record statement : Type := mkstmt {
  st_columns : list string;
  st_values : list sql_value;
  st_placeholders : list string;
  st_update_parts : list string
}.

(** The bin types the second loop of [store_collections] goes through. *)
Definition bin_prefixes : list string :=
  ["black_rubbish_140l"; "blue_cardboard_bag"; "black_food_waste";
   "green_garden_bin"; "green_recycling_box"].

Definition last_col_of (column_prefix : string) : string :=
  column_prefix ++ "_last_collection".

Definition next_col_of (column_prefix : string) : string :=
  column_prefix ++ "_next_collection".

(** The second loop: two columns per bin type. *)
Fixpoint add_bin_columns (prefixes : list string)
    (update_fields : dict (option datetime)) (st : statement) : statement :=
  match prefixes with
  | [] => st
  | column_prefix :: rest =>
      let last_col := last_col_of column_prefix in
      let next_col := next_col_of column_prefix in
      add_bin_columns rest update_fields
        (mkstmt
           (list_append (list_append (st_columns st) last_col) next_col)
           (list_append
              (list_append (st_values st)
                 (sql_of_date (dict_get update_fields last_col)))
              (sql_of_date (dict_get update_fields next_col)))
           (list_append (list_append (st_placeholders st) "%s") "%s")
           (list_append
              (list_append (st_update_parts st)
                 (last_col ++ " = EXCLUDED." ++ last_col))
              (next_col ++ " = EXCLUDED." ++ next_col)))
  end.

(** The text of the statement, as the f-string builds it. *)
Definition newline : string := String (ascii_of_nat 10) EmptyString.

Definition sql_text (st : statement) : string :=
  newline ++ "        INSERT INTO collections (" ++ join ", " (st_columns st) ++ ")"
  ++ newline ++ "        VALUES (" ++ join ", " (st_placeholders st) ++ ")"
  ++ newline ++ "        ON CONFLICT (address) DO UPDATE SET"
  ++ newline ++ "            " ++ join ", " (st_update_parts st)
  ++ newline ++ "    ".

Section Store.

Variable ZoneInfo : string -> outcome zone.
Variable TIMEZONE : string.
Variable clock : nat -> datetime.

(** The date a stored column gets from a raw string: the strings
    "unknown" and "n/a" (in any case) are not parsed. *)
Definition stored_date (date_str : option string) : outcome (option datetime) :=
  match date_str with
  | Some str =>
      if nonempty str && negb (str_in (lower str) ["unknown"; "n/a"; ""])
      then parse_collection_date ZoneInfo TIMEZONE date_str
      else Return None
  | None => Return None
  end.

(** One turn of the first loop of [store_collections]. *)
Definition store_step (update_fields : dict (option datetime)) (collection : item)
    : outcome (dict (option datetime)) :=
  match collection_type collection with
  | None => Return update_fields
  | Some collection_type_name =>
      if negb (nonempty collection_type_name) then Return update_fields else
      match get_bin_type_column_prefix collection_type_name with
      | None => Return update_fields
      | Some column_prefix =>
          if negb (nonempty column_prefix) then Return update_fields else
          match stored_date (next_collection collection) with
          | Raise e => Raise e
          | Return next_collection_dt =>
              match stored_date (last_collection collection) with
              | Raise e => Raise e
              | Return last_collection_dt =>
                  Return
                    (dict_set
                       (dict_set update_fields (last_col_of column_prefix)
                          last_collection_dt)
                       (next_col_of column_prefix) next_collection_dt)
              end
          end
      end
  end.

Fixpoint store_loop (update_fields : dict (option datetime))
    (collections_data : list item) : outcome (dict (option datetime)) :=
  match collections_data with
  | [] => Return update_fields
  | collection :: rest =>
      match store_step update_fields collection with
      | Raise e => Raise e
      | Return update_fields' => store_loop update_fields' rest
      end
  end.

#[local] Open Scope py_scope.

(** [store_collections(conn, address, postcode, collections_data)]: the
    statement executed on the connection. *)
Definition store_collections (address : string) (collections_data : list item)
    : M statement :=
  tz <- lift (configured_zone ZoneInfo TIMEZONE) ;;
  site_last_checked <- datetime_now clock tz ;;
  update_fields <- lift (store_loop [] collections_data) ;;
  ret (add_bin_columns bin_prefixes update_fields
         (mkstmt ["address"; "site_last_checked"]
                 [SqlText address; SqlTimestamp site_last_checked]
                 ["%s"; "%s"]
                 ["site_last_checked = EXCLUDED.site_last_checked"])).

End Store.

(* ================================================================== *)
(** ** Further auxiliary definitions *)

(** A system with no time-zone database at all. *)
Definition no_tzdata (key : string) : outcome zone := Raise ZoneInfoNotFoundError.

(** The first character is not white space. *)
Definition begins_nonspace (s : string) : bool :=
  match s with
  | String c _ => negb (is_space c)
  | EmptyString => false
  end.

(** The last character is not white space. *)
Fixpoint ends_nonspace (s : string) : bool :=
  match s with
  | EmptyString => false
  | String c EmptyString => negb (is_space c)
  | String _ t => ends_nonspace t
  end.

(** Every white-space character is a plain space that is followed by a
    character that is not white space. *)
Fixpoint well_spaced (s : string) : bool :=
  match s with
  | EmptyString => true
  | String c t =>
      (if is_space c then Ascii.eqb c " " && begins_nonspace t else true)
      && well_spaced t
  end.

(** No character is white space. *)
Fixpoint space_free (s : string) : bool :=
  match s with
  | EmptyString => true
  | String c t => negb (is_space c) && space_free t
  end.

(** White space collapsed to single spaces: none at either end, and
    every white-space character a plain space between two others. *)
Definition collapsed (s : string) : bool :=
  begins_nonspace s && ends_nonspace s && well_spaced s.

(** A word: not empty and free of white space. *)
Definition is_word (s : string) : bool := nonempty s && space_free s.

(** The decimal digit [n], for [0 <= n <= 9]. *)
Definition digit_char (n : Z) : ascii := ascii_of_nat (48 + Z.to_nat n).

(** A year written with four digits. *)
Definition four_digits (y : Z) : string :=
  String (digit_char (y / 1000))
    (String (digit_char (y / 100 mod 10))
       (String (digit_char (y / 10 mod 10))
          (String (digit_char (y mod 10)) EmptyString))).

Definition month_titles : list string :=
  ["January"; "February"; "March"; "April"; "May"; "June"; "July";
   "August"; "September"; "October"; "November"; "December"].

(** A date as the council's page writes it, after any text that has no
    comma: ["<prefix>, <day> <Month> <year>"]. *)
Definition render_date (prefix : string) (y m d : Z) : string :=
  prefix ++ ", " ++ str_of_int d ++ " "
  ++ nth (Z.to_nat (m - 1)) month_titles EmptyString ++ " " ++ four_digits y.

(** The date [store_collections] keeps for a raw string, [None] when
    the string is skipped or does not parse. *)
Definition stored_value (ZoneInfo : string -> outcome zone) (TIMEZONE : string)
    (date_str : option string) : option datetime :=
  match stored_date ZoneInfo TIMEZONE date_str with
  | Return r => r
  | Raise _ => None
  end.

(** What the dictionary of [store_collections] holds for each bin type,
    given the last item seen for it. *)
Definition holds (ZoneInfo : string -> outcome zone) (TIMEZONE : string)
    (update_fields : dict (option datetime))
    (seen : string -> option item) : Prop :=
  forall p, In p bin_prefixes ->
    dict_get update_fields (last_col_of p)
      = match seen p with
        | Some it => stored_value ZoneInfo TIMEZONE (last_collection it)
        | None => None
        end /\
    dict_get update_fields (next_col_of p)
      = match seen p with
        | Some it => stored_value ZoneInfo TIMEZONE (next_collection it)
        | None => None
        end.

(** The item is recognised as bin type [column_prefix]. *)
Definition recognised_as (column_prefix : string) (it : item) : bool :=
  match collection_type it with
  | Some name =>
      nonempty name &&
      match get_bin_type_column_prefix name with
      | Some q => String.eqb q column_prefix
      | None => false
      end
  | None => false
  end.

(** The last item of the list recognised as [column_prefix]. *)
Definition last_recognised (column_prefix : string) (items : list item)
    : option item :=
  fold_left (fun acc it => if recognised_as column_prefix it then Some it else acc)
            items None.

(** The two parameters sent for a bin type: those of the last item
    recognised as that type, or two NULLs. *)
Definition sent_pair (ZoneInfo : string -> outcome zone) (TIMEZONE : string)
    (items : list item) (column_prefix : string) : list sql_value :=
  match last_recognised column_prefix items with
  | Some it =>
      [sql_of_date (stored_value ZoneInfo TIMEZONE (last_collection it));
       sql_of_date (stored_value ZoneInfo TIMEZONE (next_collection it))]
  | None => [SqlNull; SqlNull]
  end.

(** The index of the last element that satisfies [p]. *)
Fixpoint last_index_where (p : string -> bool) (l : list string) : option nat :=
  match l with
  | [] => None
  | h :: t =>
      match last_index_where p t with
      | Some j => Some (S j)
      | None => if p h then Some O else None
      end
  end.

(** An index found in the rest of the header row, counted from [i], or
    else the one found before. *)
Definition shift (i : nat) (found : option nat) (before : option nat)
    : option nat :=
  match found with Some j => Some (i + j)%nat | None => before end.

(** The header texts of a table. *)
Definition header_texts (t : table) : list string :=
  match thead t with
  | Some ths => map (get_text "") ths
  | None => []
  end.

(** The three kinds of header cell the column scan tells apart. *)
Definition is_next_header (h : string) : bool := contains "Next collection" h.

Definition is_last_header (h : string) : bool :=
  negb (contains "Next collection" h) && contains "Last collection" h.

Definition is_type_header (h : string) : bool :=
  negb (contains "Next collection" h) && negb (contains "Last collection" h)
  && contains "Collection" h.

(** Every rule condition of the classifier, as one test. *)
Definition recognised (l : string) : bool :=
  existsb (fun r => RuleTable.applies r l) RuleTable.rules.

(* ================================================================== *)
(** * Properties *)

(** ** Strings *)

Lemma append_assoc (a b c : string) : (a ++ b) ++ c = a ++ (b ++ c).
Proof. induction a as [|x a IH]; simpl; [reflexivity | now rewrite IH]. Qed.

Lemma nonempty_true_iff (s : string) : nonempty s = true <-> s <> EmptyString.
Proof. destruct s; simpl; split; congruence. Qed.

Lemma startswith_empty (s : string) : startswith EmptyString s = true.
Proof. now destruct s. Qed.

Lemma find_after_comma_app (p r : string) :
  contains "," p = false -> find_after_comma (p ++ String "," r) = Some r.
Proof.
  induction p as [|c p IH]; intros H.
  - reflexivity.
  - cbn [contains startswith] in H.
    apply orb_false_iff in H. destruct H as [H1 H2].
    replace (startswith EmptyString p) with true in H1
      by (symmetry; apply startswith_empty).
    rewrite andb_true_r in H1.
    cbn [append find_after_comma].
    rewrite Ascii.eqb_sym, H1. now apply IH.
Qed.

Lemma after_first_comma_app (p r : string) :
  contains "," p = false -> after_first_comma (p ++ String "," r) = r.
Proof. intros H. unfold after_first_comma. now rewrite find_after_comma_app. Qed.

Lemma weekday_no_comma (w : string) : In w weekdays -> contains "," w = false.
Proof.
  unfold weekdays. cbn [In]. intros H.
  repeat (destruct H as [<-|H]; [reflexivity|]). contradiction.
Qed.

Lemma weekday_nonempty (w r : string) :
  In w weekdays -> nonempty (w ++ r) = true.
Proof.
  unfold weekdays. cbn [In]. intros H.
  repeat (destruct H as [<-|H]; [reflexivity|]). contradiction.
Qed.

(** ** Classification *)

Lemma lower_nonempty (a b : string) : lower a = lower b -> nonempty a = nonempty b.
Proof. destruct a, b; simpl; congruence. Qed.

Lemma get_waste_group_table (label : string) :
  get_waste_group label = fst (RuleTable.classify label).
Proof.
  unfold get_waste_group, RuleTable.classify, RuleTable.rules, RuleTable.first_match.
  destruct label as [|c t]; [reflexivity|].
  cbn [nonempty negb].
  cbn [RuleTable.applies RuleTable.black_rubbish RuleTable.blue_cardboard
       RuleTable.food_caddy RuleTable.green_recycling RuleTable.garden_waste].
  repeat match goal with
  | |- context [if ?b then _ else _] => destruct b eqn:?; try reflexivity
  end.
Qed.

Lemma get_bin_type_column_prefix_table (label : string) :
  RuleTable.overlap_only (lower label) = false ->
  get_bin_type_column_prefix label = snd (RuleTable.classify label).
Proof.
  unfold get_bin_type_column_prefix, RuleTable.classify, RuleTable.rules,
    RuleTable.first_match, RuleTable.overlap_only, RuleTable.earlier.
  destruct label as [|c t]; [reflexivity|].
  cbn [nonempty negb].
  cbn [RuleTable.applies RuleTable.black_rubbish RuleTable.blue_cardboard
       RuleTable.food_caddy RuleTable.green_recycling RuleTable.garden_waste].
  set (l := lower (String c t)).
  destruct (contains "black" l && contains "rubbish" l); [reflexivity|].
  destruct (contains "blue" l && (contains "cardboard" l || contains "bag" l));
    [reflexivity|].
  destruct (contains "food" l || contains "caddy" l); [reflexivity|].
  destruct (contains "green" l && contains "recycling" l),
    (contains "garden" l && contains "waste" l); cbn; congruence.
Qed.

Lemma green_recycling_first (label : string) :
  RuleTable.applies RuleTable.green_recycling (lower label) = true ->
  RuleTable.earlier (lower label) = false ->
  get_waste_group label = Some green_box_groups /\
  (RuleTable.applies RuleTable.garden_waste (lower label) = false ->
   get_bin_type_column_prefix label = Some "green_recycling_box").
Proof.
  unfold get_waste_group, get_bin_type_column_prefix, RuleTable.earlier.
  cbn [RuleTable.applies RuleTable.black_rubbish RuleTable.blue_cardboard
       RuleTable.food_caddy RuleTable.green_recycling RuleTable.garden_waste].
  destruct label as [|c t]; [discriminate|].
  cbn [nonempty negb]. set (l := lower (String c t)).
  intros Hg He.
  apply orb_false_iff in He. destruct He as [He H3].
  apply orb_false_iff in He. destruct He as [H1 H2].
  rewrite H1, H2, H3, Hg. split; [reflexivity|].
  now intros ->.
Qed.

Lemma classification_ignores_case (a b : string) :
  lower a = lower b ->
  get_waste_group a = get_waste_group b /\
  get_bin_type_column_prefix a = get_bin_type_column_prefix b.
Proof.
  intros H. unfold get_waste_group, get_bin_type_column_prefix.
  now rewrite (lower_nonempty a b H), H.
Qed.

(** C2 (as amended).  [get_waste_group] evaluates the five rules of the
    table on the lower-cased label, in the listed order, the first match
    deciding; [get_bin_type_column_prefix] returns the key of that same
    row for every label except those on which the green-recycling and the
    garden-waste conditions both hold and no earlier rule does (about
    which nothing is said here); both results depend on the label only up
    to letter case.  A label that contains "green" and "recycling" and
    matches none of the three earlier rules gets the two-element green-box
    group, and, when it does not also contain "garden" and "waste", the
    key green_recycling_box. *)
Theorem classification_follows_table (label : string) :
  get_waste_group label = fst (RuleTable.classify label) /\
  (RuleTable.overlap_only (lower label) = false ->
   get_bin_type_column_prefix label = snd (RuleTable.classify label)) /\
  (forall other, lower other = lower label ->
     get_waste_group other = get_waste_group label /\
     get_bin_type_column_prefix other = get_bin_type_column_prefix label) /\
  (contains "green" (lower label) = true ->
   contains "recycling" (lower label) = true ->
   RuleTable.earlier (lower label) = false ->
   get_waste_group label = Some green_box_groups /\
   (contains "garden" (lower label) && contains "waste" (lower label) = false ->
    get_bin_type_column_prefix label = Some "green_recycling_box")).
Proof.
  split; [apply get_waste_group_table|].
  split; [apply get_bin_type_column_prefix_table|].
  split; [intros other H; now apply classification_ignores_case|].
  intros Hg Hr He. apply green_recycling_first; [|exact He].
  cbn [RuleTable.applies RuleTable.green_recycling]. now rewrite Hg, Hr.
Qed.

Lemma classification_follows_table_witness :
  get_waste_group "Green Recycling Box" = Some green_box_groups /\
  get_bin_type_column_prefix "Green Recycling Box" = Some "green_recycling_box" /\
  get_bin_type_column_prefix "Green Recycling Box"
    = snd (RuleTable.classify "Green Recycling Box") /\
  get_waste_group "GREEN recycling BOX" = get_waste_group "Green Recycling Box".
Proof.
  destruct (classification_follows_table "Green Recycling Box")
    as (_ & Hkey & Hcase & Hgreen).
  destruct (Hgreen eq_refl eq_refl eq_refl) as [Hg Hk].
  split; [exact Hg|].
  split; [exact (Hk eq_refl)|].
  split; [exact (Hkey eq_refl)|].
  exact (proj1 (Hcase "GREEN recycling BOX" eq_refl)).
Defined.

(** C2, the claim as stated fails: a label that contains "green" and
    "recycling" and also "food" is classified by the earlier food rule,
    in both functions. *)
Lemma green_recycling_not_always_green_box :
  contains "green" (lower "Green Recycling Box and Food Caddy") = true /\
  contains "recycling" (lower "Green Recycling Box and Food Caddy") = true /\
  get_bin_type_column_prefix "Green Recycling Box and Food Caddy"
    = Some "black_food_waste" /\
  get_waste_group "Green Recycling Box and Food Caddy"
    = Some (Group "Food Waste (caddy)").
Proof. repeat split. Qed.

(** The two functions test the green-recycling and the garden-waste
    conditions in opposite orders: on a label that satisfies both, the
    waste group and the column prefix come from different rows. *)
Lemma green_and_garden_disagree :
  get_waste_group "Green Recycling Box, Garden Waste Bin" = Some green_box_groups /\
  get_bin_type_column_prefix "Green Recycling Box, Garden Waste Bin"
    = Some "green_garden_bin".
Proof. split; reflexivity. Qed.

(** C10.  [get_waste_group] returns [None] exactly when
    [get_bin_type_column_prefix] does. *)
Theorem unrecognised_agree (label : string) :
  get_waste_group label = None <-> get_bin_type_column_prefix label = None.
Proof.
  unfold get_waste_group, get_bin_type_column_prefix.
  destruct (negb (nonempty label)); [tauto|].
  cbv zeta. set (l := lower label).
  destruct (contains "black" l && contains "rubbish" l); [split; discriminate|].
  destruct (contains "blue" l && (contains "cardboard" l || contains "bag" l));
    [split; discriminate|].
  destruct (contains "food" l || contains "caddy" l); [split; discriminate|].
  destruct (contains "green" l && contains "recycling" l),
    (contains "garden" l && contains "waste" l);
    split; (discriminate || reflexivity).
Qed.

(** ** The duration formatter *)

Lemma format_time_until_next_spec (days total_minutes : Z) :
  0 <= days -> 0 <= total_minutes ->
  format_time_until_next days total_minutes
    = DurationSpec.format_duration days total_minutes.
Proof.
  intros Hd Hm.
  unfold format_time_until_next, DurationSpec.format_duration, DurationSpec.components.
  destruct (total_minutes <? 0) eqn:Hneg; [apply Z.ltb_lt in Hneg; lia|].
  cbv zeta.
  assert (Hh : (if 0 <? days then total_minutes / 60 - days * 24
                else total_minutes / 60)
               = total_minutes / 60 - days * 24).
  { destruct (0 <? days) eqn:E; [reflexivity|].
    apply Z.ltb_ge in E. replace days with 0 by lia. lia. }
  rewrite Hh. clear Hh.
  set (hours := total_minutes / 60 - days * 24).
  set (rm := total_minutes mod 60).
  unfold DurationSpec.plural, list_append.
  destruct (0 <? days), (days =? 1), (0 <? hours), (hours =? 1),
    (0 <? rm), (rm =? 1);
    cbn [List.app DurationSpec.join_components removelast last join];
    rewrite ?append_assoc; reflexivity.
Qed.

(** C7.  For [days >= 0] and [total_minutes >= 0] the formatter returns
    what the specification describes: with
    [hours = total_minutes / 60 - days * 24] and
    [remaining_minutes = total_minutes mod 60], the strictly positive
    components in the order days, hours, minutes, in singular or plural
    form, joined as "Less than 1 minute", "A", "A and B" or
    "A, B and C"; and the three boundary values of the specification. *)
Theorem format_time_until_next_correct (days total_minutes : Z) :
  0 <= days -> 0 <= total_minutes ->
  format_time_until_next days total_minutes
    = DurationSpec.format_duration days total_minutes /\
  format_time_until_next 0 0 = "Less than 1 minute" /\
  format_time_until_next 1 1440 = "1 day" /\
  format_time_until_next 2 (2 * 1440 + 5 * 60 + 30)
    = "2 days, 5 hours and 30 minutes".
Proof.
  intros Hd Hm. split; [now apply format_time_until_next_spec|].
  repeat split; reflexivity.
Qed.

Lemma format_time_until_next_correct_witness :
  format_time_until_next 0 61 = DurationSpec.format_duration 0 61 /\
  format_time_until_next 0 61 = "1 hour and 1 minute".
Proof.
  split.
  - apply (format_time_until_next_correct 0 61); lia.
  - reflexivity.
Defined.

(** ** The calendar *)

Ltac eval_closed :=
  repeat match goal with
  | |- context [nth ?n ?l ?d] =>
      let v := eval vm_compute in (nth n l d) in change (nth n l d) with v
  | |- context [if ?b then _ else _] =>
      let v := eval vm_compute in b in change b with v; cbv iota
  end.

Lemma year_length (y : Z) :
  days_before_year (y + 1) - days_before_year y = if is_leap y then 366 else 365.
Proof.
  unfold days_before_year, is_leap.
  replace (y + 1 - 1) with y by lia.
  destruct (y mod 4 =? 0) eqn:E4, (y mod 100 =? 0) eqn:E100,
    (y mod 400 =? 0) eqn:E400;
    cbn [andb orb negb];
    rewrite ?Z.eqb_eq, ?Z.eqb_neq in *;
    Z.div_mod_to_equations; lia.
Qed.

Lemma days_before_year_mono (y1 y2 : Z) :
  y1 <= y2 -> days_before_year y1 <= days_before_year y2.
Proof.
  intros H. unfold days_before_year. Z.div_mod_to_equations. lia.
Qed.

Lemma month_cases (m : Z) :
  1 <= m <= 12 ->
  m = 1 \/ m = 2 \/ m = 3 \/ m = 4 \/ m = 5 \/ m = 6 \/
  m = 7 \/ m = 8 \/ m = 9 \/ m = 10 \/ m = 11 \/ m = 12.
Proof. lia. Qed.

Lemma day_of_year_bound (y m d : Z) :
  1 <= m <= 12 -> 1 <= d <= days_in_month y m ->
  1 <= days_before_month y m + d <= if is_leap y then 366 else 365.
Proof.
  intros Hm. apply month_cases in Hm.
  unfold days_before_month, days_in_month.
  destruct (is_leap y);
    repeat (destruct Hm as [->|Hm]; [eval_closed; lia|]);
    subst; eval_closed; lia.
Qed.

Lemma month_start_mono (y m1 m2 : Z) :
  1 <= m1 -> m1 < m2 <= 12 ->
  days_before_month y m1 + days_in_month y m1 <= days_before_month y m2.
Proof.
  intros H1 H2.
  assert (Hc1 : 1 <= m1 <= 12) by lia.
  assert (Hc2 : 1 <= m2 <= 12) by lia.
  apply month_cases in Hc1, Hc2.
  unfold days_before_month, days_in_month.
  destruct (is_leap y);
    repeat (destruct Hc1 as [->|Hc1]); repeat (destruct Hc2 as [->|Hc2]);
    subst; eval_closed; lia.
Qed.

Lemma mk_timedelta_total (d s u : Z) :
  total_microseconds (mk_timedelta d s u) = (d * 86400 + s) * 1000000 + u.
Proof.
  unfold total_microseconds, mk_timedelta.
  cbn [td_days td_seconds td_microseconds].
  set (t := (d * 86400 + s) * 1000000 + u).
  Z.div_mod_to_equations. lia.
Qed.

(** On valid datetimes, being not earlier in the field order means a
    difference that is not negative. *)
Lemma dt_sub_nonneg (a b : datetime) :
  valid_datetime a -> valid_datetime b -> dt_compare a b <> Lt ->
  0 <= total_microseconds (dt_sub a b).
Proof.
  intros (Hya & Hma & Hda & Hha & Hmia & Hsa & Hua)
         (Hyb & Hmb & Hdb & Hhb & Hmib & Hsb & Hub) Hc.
  unfold dt_sub. rewrite mk_timedelta_total. unfold toordinal.
  unfold dt_compare, fields in Hc. cbn [lex_compare] in Hc.
  pose proof (day_of_year_bound (year a) (month a) (day a) Hma Hda) as Ba.
  pose proof (day_of_year_bound (year b) (month b) (day b) Hmb Hdb) as Bb.
  pose proof (year_length (year b)) as Lb.
  destruct (Z.compare_spec (year a) (year b)) as [Ey|Ly|Gy]; [|congruence|].
  2:{ pose proof (days_before_year_mono (year b + 1) (year a) ltac:(lia)).
      destruct (is_leap (year a)), (is_leap (year b)); lia. }
  rewrite Ey in *.
  destruct (Z.compare_spec (month a) (month b)) as [Em|Lm|Gm]; [|congruence|].
  2:{ pose proof (month_start_mono (year b) (month b) (month a)
                    ltac:(lia) ltac:(lia)). lia. }
  rewrite Em in *.
  destruct (Z.compare_spec (day a) (day b)) as [Ed|Ld|Gd]; [|congruence|lia].
  destruct (Z.compare_spec (hour a) (hour b)) as [Eh|Lh|Gh]; [|congruence|lia].
  destruct (Z.compare_spec (minute a) (minute b)) as [Emi|Lmi|Gmi];
    [|congruence|lia].
  destruct (Z.compare_spec (second a) (second b)) as [Es|Ls|Gs];
    [|congruence|lia].
  destruct (Z.compare_spec (microsecond a) (microsecond b)) as [Eu|Lu|Gu];
    [|congruence|lia].
  lia.
Qed.

Lemma dt_sub_days_minutes_nonneg (a b : datetime) :
  valid_datetime a -> valid_datetime b -> dt_compare a b <> Lt ->
  0 <= td_days (dt_sub a b) /\ 0 <= total_minutes (dt_sub a b).
Proof.
  intros Ha Hb Hc. pose proof (dt_sub_nonneg a b Ha Hb Hc) as H.
  split.
  - unfold dt_sub in *. rewrite mk_timedelta_total in H.
    unfold mk_timedelta. cbn [td_days].
    apply Z.div_pos; lia.
  - unfold total_minutes. apply Z.quot_pos; lia.
Qed.

Lemma lex_compare_antisym (a b : list Z) :
  lex_compare b a = CompOpp (lex_compare a b).
Proof.
  revert b. induction a as [|x a IH]; intros [|y b]; cbn; try reflexivity.
  rewrite (Z.compare_antisym x y).
  destruct (x ?= y); cbn; auto.
Qed.

Lemma dt_compare_antisym (a b : datetime) :
  dt_compare b a = CompOpp (dt_compare a b).
Proof. apply lex_compare_antisym. Qed.

(** ** The date parser *)

Lemma strptime_raises_ValueError (s : string) (e : exn) :
  strptime s = Raise e -> e = ValueError.
Proof.
  unfold strptime.
  destruct (regex_match day_alts s) as [[[[d m] y] rest]|]; [|congruence].
  destruct (nonempty rest); [congruence|].
  destruct ((1 <=? y) && (y <=? 9999) && (1 <=? d) && (d <=? days_in_month y m));
    congruence.
Qed.

Lemma match_month_range (s r : string) (m : Z) :
  match_month s = Some (m, r) -> 1 <= m <= 12.
Proof.
  unfold match_month, month_names. cbn [match_month_from].
  repeat (destruct (startswith _ (lower s)); [intros [= <- _]; lia|]).
  discriminate.
Qed.

Lemma match_after_day_month (s rest : string) (m y : Z) :
  match_after_day s = Some (m, y, rest) -> 1 <= m <= 12.
Proof.
  unfold match_after_day.
  destruct (skip_spaces1 s) as [s1|]; [|discriminate].
  destruct (match_month s1) as [[m' s2]|] eqn:Hm; [|discriminate].
  destruct (skip_spaces1 s2) as [s3|]; [|discriminate].
  destruct (match_year s3) as [[y' s4]|]; [|discriminate].
  intros [= <- _ _]. eapply match_month_range; eauto.
Qed.

Lemma regex_match_month (alts : list day_alt) (s rest : string) (d m y : Z) :
  regex_match alts s = Some (d, m, y, rest) -> 1 <= m <= 12.
Proof.
  induction alts as [|alt alts IH]; cbn [regex_match]; [discriminate|].
  destruct (alt s) as [[d' r]|]; [|exact IH].
  destruct (match_after_day r) as [[[m' y'] rest']|] eqn:Ha; [|exact IH].
  intros [= _ <- _ _]. eapply match_after_day_month; eauto.
Qed.

Lemma strptime_valid (s : string) (dt : datetime) :
  strptime s = Return dt ->
  valid_datetime (at_seven dt) /\ tzinfo dt = None.
Proof.
  unfold strptime.
  destruct (regex_match day_alts s) as [[[[d m] y] rest]|] eqn:Hr; [|discriminate].
  destruct (nonempty rest); [discriminate|].
  destruct ((1 <=? y) && (y <=? 9999) && (1 <=? d) && (d <=? days_in_month y m))
    eqn:Hv; [|discriminate].
  intros [= <-]. apply regex_match_month in Hr.
  repeat (apply andb_true_iff in Hv; destruct Hv as [Hv ?]).
  repeat match goal with
  | H : (_ <=? _) = true |- _ => apply Z.leb_le in H
  end.
  unfold valid_datetime, at_seven. cbn. split; [lia | reflexivity].
Qed.

Section DateFacts.
Variable ZoneInfo : string -> outcome zone.
Variable TIMEZONE : string.

Lemma parse_collection_date_sound (date_str : option string) (dt : datetime) :
  parse_collection_date ZoneInfo TIMEZONE date_str = Return (Some dt) ->
  exists s d0 tz,
    date_str = Some s /\ nonempty s = true /\
    strptime (strip (after_first_comma s)) = Return d0 /\
    configured_zone ZoneInfo TIMEZONE = Return tz /\
    dt = with_tz (at_seven d0) tz.
Proof.
  unfold parse_collection_date.
  destruct date_str as [s|]; [|discriminate].
  destruct (nonempty s) eqn:Hs; cbn [negb]; [|discriminate].
  cbv zeta.
  destruct (strptime (strip (after_first_comma s))) as [d0|e] eqn:Hp.
  - destruct (configured_zone ZoneInfo TIMEZONE) as [tz|e] eqn:Hz; cbn.
    + intros [= <-]. exists s, d0, tz. auto.
    + destruct (ValueError_or_AttributeError e); discriminate.
  - cbn. destruct (ValueError_or_AttributeError e); discriminate.
Qed.

Lemma parse_collection_date_at_seven (date_str : option string) (dt : datetime) :
  parse_collection_date ZoneInfo TIMEZONE date_str = Return (Some dt) ->
  hour dt = 7 /\ minute dt = 0 /\ second dt = 0 /\ microsecond dt = 0.
Proof.
  intros H. apply parse_collection_date_sound in H.
  destruct H as (s & d0 & tz & _ & _ & _ & _ & ->). cbn. auto.
Qed.

Lemma parse_collection_date_valid (date_str : option string) (dt : datetime) :
  parse_collection_date ZoneInfo TIMEZONE date_str = Return (Some dt) ->
  valid_datetime dt.
Proof.
  intros H. apply parse_collection_date_sound in H.
  destruct H as (s & d0 & tz & _ & _ & Hp & _ & ->).
  apply strptime_valid in Hp. exact (proj1 Hp).
Qed.

Lemma parse_collection_date_unparseable (date_str : option string) :
  unparseable date_str ->
  parse_collection_date ZoneInfo TIMEZONE date_str = Return None.
Proof.
  unfold unparseable, parse_collection_date.
  destruct date_str as [s|]; [|reflexivity].
  intros [->|[e He]]; [reflexivity|].
  destruct (nonempty s); cbn [negb]; [|reflexivity].
  cbv zeta. rewrite He.
  apply strptime_raises_ValueError in He. subst e. reflexivity.
Qed.

Lemma parse_collection_date_weekday (w1 w2 rest : string) :
  In w1 weekdays -> In w2 weekdays ->
  parse_collection_date ZoneInfo TIMEZONE (Some (w1 ++ String "," rest))
  = parse_collection_date ZoneInfo TIMEZONE (Some (w2 ++ String "," rest)).
Proof.
  intros H1 H2. unfold parse_collection_date.
  rewrite (weekday_nonempty w1 _ H1), (weekday_nonempty w2 _ H2).
  cbv zeta.
  rewrite (after_first_comma_app w1 rest (weekday_no_comma w1 H1)).
  rewrite (after_first_comma_app w2 rest (weekday_no_comma w2 H2)).
  reflexivity.
Qed.

Lemma parse_collection_date_sample (z : zone) :
  ZoneInfo "Europe/London" = Return z ->
  parse_collection_date ZoneInfo "Europe/London" (Some "Monday, 17 November 2025")
  = Return (Some (mkdt 2025 11 17 7 0 0 0 (Some z))).
Proof.
  intros H. unfold parse_collection_date, configured_zone. rewrite H. reflexivity.
Qed.

End DateFacts.

(** ** The rows of the table *)

Lemma group_truthy_get_waste_group (s : string) :
  (if group_truthy (get_waste_group s) then get_waste_group s else None)
  = get_waste_group s.
Proof.
  unfold get_waste_group.
  repeat match goal with
  | |- context [if ?b then _ else _] =>
      match b with
      | group_truthy _ => fail 1
      | _ => destruct b
      end
  end; reflexivity.
Qed.

Lemma value_at_spec (values : list string) (i : nat) (v : string) :
  value_at values i = Some v -> In v values /\ nonempty v = true.
Proof.
  unfold value_at. destruct (nth_error values i) as [x|] eqn:H; [|discriminate].
  destruct (nonempty x) eqn:Hx; [|discriminate].
  intros [= <-]. split; [eapply nth_error_In; eauto | exact Hx].
Qed.

Lemma date_at_spec (idx : option nat) (values : list string) (d : string) :
  date_at idx values = Some d ->
  In d values /\ nonempty d = true /\ is_date (Some d) = true.
Proof.
  unfold date_at. destruct idx as [i|]; [|discriminate].
  destruct (i <? List.length values)%nat; [|discriminate].
  destruct (value_at values i) as [v|] eqn:Hv; [|discriminate].
  cbn [truthy]. destruct (nonempty v && is_date (Some v)) eqn:Hb; [|discriminate].
  intros [= <-]. apply andb_true_iff in Hb. destruct Hb as [Hn Hd].
  apply value_at_spec in Hv. tauto.
Qed.

Lemma date_values_of_spec (values : list string) (d : string) :
  In d (date_values_of values) <->
  In d values /\ nonempty d = true /\ is_date (Some d) = true.
Proof.
  unfold date_values_of. rewrite filter_In, andb_true_iff. tauto.
Qed.

Lemma resolve_next_is_date (c : columns) (values : list string) (d : string) :
  resolve_next c values = Some d ->
  nonempty d = true /\ is_date (Some d) = true.
Proof.
  unfold resolve_next.
  destruct (date_at (next_col_idx c) values) as [x|] eqn:Hx.
  - apply date_at_spec in Hx. destruct Hx as (_ & Hn & Hd).
    cbn [truthy]. rewrite Hn. cbn [negb]. now intros [= <-].
  - cbn [truthy negb].
    destruct (date_values_of values) as [|d0 l] eqn:Hl; [discriminate|].
    intros [= <-].
    assert (Hin : In d0 (date_values_of values)) by (rewrite Hl; now left).
    apply date_values_of_spec in Hin. tauto.
Qed.

Lemma resolve_last_needs_next (c : columns) (values : list string) :
  truthy (resolve_next c values) = false ->
  truthy (resolve_last c values) = false.
Proof.
  unfold resolve_next, resolve_last.
  destruct (date_at (next_col_idx c) values) as [x|] eqn:Hx.
  { apply date_at_spec in Hx. destruct Hx as (_ & Hn & _).
    cbn [truthy]. rewrite Hn. cbn [negb truthy]. now rewrite Hn. }
  cbn [truthy negb].
  destruct (date_values_of values) as [|d0 l] eqn:Hl.
  - intros _.
    destruct (date_at (last_col_idx c) values) as [y|] eqn:Hy; [|reflexivity].
    apply date_at_spec in Hy.
    assert (Hin : In y (date_values_of values)) by now apply date_values_of_spec.
    rewrite Hl in Hin. contradiction.
  - cbn [truthy].
    assert (Hin : In d0 (date_values_of values)) by (rewrite Hl; now left).
    apply date_values_of_spec in Hin. destruct Hin as (_ & Hn & _).
    now rewrite Hn.
Qed.

Section PipelineFacts.
Variable ZoneInfo : string -> outcome zone.
Variable TIMEZONE : string.
Variable clock : nat -> datetime.
Variable find_table : string -> option table.
Variable tz : zone.
Hypothesis zone_ok : configured_zone ZoneInfo TIMEZONE = Return tz.

Lemma parse_collection_date_parsed (date_str : option string) :
  parse_collection_date ZoneInfo TIMEZONE date_str
  = Return (parsed_date ZoneInfo TIMEZONE date_str).
Proof.
  unfold parsed_date, parse_collection_date.
  destruct date_str as [s|]; [|reflexivity].
  destruct (nonempty s); cbn [negb]; [|reflexivity].
  cbv zeta. rewrite zone_ok.
  destruct (strptime (strip (after_first_comma s))) as [d0|e] eqn:Hp;
    [reflexivity|].
  apply strptime_raises_ValueError in Hp. subst e. reflexivity.
Qed.

(** The parsed date carries the zone object the clock is read in, so
    the two are compared and subtracted field by field. *)
Lemma parsed_date_tzinfo (date_str : option string) (dt : datetime) (k : nat) :
  parsed_date ZoneInfo TIMEZONE date_str = Some dt ->
  tzinfo dt = tzinfo (with_tz (clock k) tz).
Proof.
  intros H.
  pose proof (parse_collection_date_parsed date_str) as Hp. rewrite H in Hp.
  apply parse_collection_date_sound in Hp.
  destruct Hp as (s & d0 & tz' & _ & _ & _ & Hz & ->).
  rewrite zone_ok in Hz. injection Hz as <-. reflexivity.
Qed.

Lemma parsed_date_falsy (date_str : option string) :
  truthy date_str = false -> parsed_date ZoneInfo TIMEZONE date_str = None.
Proof.
  unfold parsed_date, parse_collection_date, truthy.
  destruct date_str as [s|]; [|reflexivity].
  now intros ->.
Qed.

Lemma calculate_time_differences_eq (next last : option string) (k : nat) :
  calculate_time_differences ZoneInfo TIMEZONE clock next last k
  = Return (diffs_at (with_tz (clock k) tz)
                     (parsed_date ZoneInfo TIMEZONE next)
                     (parsed_date ZoneInfo TIMEZONE last), S k).
Proof.
  unfold calculate_time_differences, bind, lift, datetime_now, ret, diffs_at.
  rewrite zone_ok.
  destruct (truthy next) eqn:Tn, (truthy last) eqn:Tl;
    rewrite ?parse_collection_date_parsed;
    rewrite ?(parsed_date_falsy next Tn), ?(parsed_date_falsy last Tl);
    repeat match goal with
    | |- context [match parsed_date ?a ?b ?c with _ => _ end] =>
        destruct (parsed_date a b c)
    | |- context [if dt_ge ?a ?b then _ else _] => destruct (dt_ge a b)
    | |- context [if dt_le ?a ?b then _ else _] => destruct (dt_le a b)
    end; reflexivity.
Qed.


Lemma split_items_spec (next last : option string) (types : list string) :
  forall k, exists items,
    split_items ZoneInfo TIMEZONE clock types next last k
      = Return (items, (k + List.length (filter nonempty types))%nat) /\
    map collection_type items = map Some (filter nonempty types) /\
    (forall i it, nth_error items i = Some it ->
       next_collection it = if_truthy next /\
       last_collection it = if_truthy last /\
       (exists s, collection_type it = Some s /\ waste_group_of it = get_waste_group s) /\
       diffs it = diffs_at (with_tz (clock (k + i)%nat) tz) (parsed_date ZoneInfo TIMEZONE next) (parsed_date ZoneInfo TIMEZONE last)).
Proof.
  induction types as [|t types IH]; intros k.
  - exists []. cbn. rewrite Nat.add_0_r. split; [reflexivity|].
    split; [reflexivity|]. intros [|i] it; discriminate.
  - cbn [split_items filter].
    destruct (nonempty t) eqn:Ht.
    + unfold bind at 1. rewrite calculate_time_differences_eq.
      unfold bind at 1.
      destruct (IH (S k)) as (items & Hrun & Hmap & Hnth).
      rewrite Hrun. unfold ret.
      eexists. split.
      { cbn [List.length]. rewrite Nat.add_succ_r. reflexivity. }
      split; [cbn [map collection_type]; now rewrite Hmap|].
      intros [|i] it H.
      * cbn in H. injection H as <-. cbn. rewrite Nat.add_0_r.
        repeat split; try reflexivity.
        exists t. split; [reflexivity|]. apply group_truthy_get_waste_group.
      * cbn in H. rewrite Nat.add_succ_r. apply (Hnth i it H).
    + apply IH.
Qed.

Lemma diffs_at_none (now : datetime) : diffs_at now None None = empty_diffs.
Proof. reflexivity. Qed.

Lemma filter_nonempty_In (l : list string) (s : string) :
  In s (filter nonempty l) -> nonempty s = true.
Proof. intros H. apply filter_In in H. tauto. Qed.

Lemma parse_row_spec (c : columns) (row : tr) (k : nat) :
  exists items k',
    parse_row ZoneInfo TIMEZONE clock c row k = Return (items, k') /\
    Forall (row_item ZoneInfo TIMEZONE clock tz c (map (get_text "") (row_tds row))) items.
Proof.
  unfold parse_row. cbv zeta.
  set (values := map (get_text "") (row_tds row)).
  set (next := resolve_next c values).
  set (last := resolve_last c values).
  destruct (resolve_collection_type c row values) as [ct|] eqn:Hct.
  - destruct (nonempty ct && contains " | " ct) eqn:Hsplit.
    + destruct (split_items_spec next last (individual_types ct) k)
        as (items & Hrun & Hmap & Hnth).
      exists items, (k + List.length (filter nonempty (individual_types ct)))%nat.
      split; [exact Hrun|].
      apply Forall_forall. intros it Hin.
      apply In_nth_error in Hin. destruct Hin as [i Hi].
      destruct (Hnth i it Hi) as (Hn & Hl & (s & Hs & Hg) & Hd).
      unfold row_item. fold values next last.
      split; [exact Hn|]. split; [exact Hl|].
      split; [eexists; exact Hd|].
      left. exists s. split; [exact Hs|]. split; [|exact Hg].
      apply (filter_nonempty_In (individual_types ct)).
      assert (Hin : In (collection_type it) (map collection_type items))
        by (apply in_map; eapply nth_error_In; eauto).
      rewrite Hmap, Hs in Hin. apply in_map_iff in Hin.
      destruct Hin as (x & [= ->] & Hx). exact Hx.
    + unfold bind. rewrite calculate_time_differences_eq. unfold ret.
      eexists. eexists. split; [reflexivity|].
      destruct (nonempty ct) eqn:Hne.
      * change (if_truthy (Some ct)) with (if nonempty ct then Some ct else None).
        rewrite Hne.
        rewrite group_truthy_get_waste_group. cbn [item_empty].
        constructor; [|constructor].
        unfold row_item. fold values next last. cbn.
        split; [reflexivity|]. split; [reflexivity|].
        split; [eexists; reflexivity|].
        left. exists ct. auto.
      * change (if_truthy (Some ct)) with (if nonempty ct then Some ct else None).
        rewrite Hne. cbn [group_truthy].
        match goal with
        | |- Forall _ (if item_empty ?i then _ else _) =>
            destruct (item_empty i) eqn:He
        end; constructor; [|constructor].
        unfold row_item. fold values next last. cbn.
        split; [reflexivity|]. split; [reflexivity|].
        split; [eexists; reflexivity|].
        right. auto.
  - unfold bind. rewrite calculate_time_differences_eq. unfold ret.
    eexists. eexists. split; [reflexivity|].
    match goal with
    | |- Forall _ (if item_empty ?i then _ else _) =>
        destruct (item_empty i) eqn:He
    end; constructor; [|constructor].
    unfold row_item. fold values next last. cbn.
    split; [reflexivity|]. split; [reflexivity|].
    split; [eexists; reflexivity|].
    right. auto.
Qed.

Lemma parse_rows_spec (P : item -> Prop) (c : columns) (rows : list tr) :
  (forall row it, In row rows ->
     row_item ZoneInfo TIMEZONE clock tz c (map (get_text "") (row_tds row)) it -> P it) ->
  forall k, exists out k',
    parse_rows ZoneInfo TIMEZONE clock c rows k = Return (out, k') /\
    Forall P out.
Proof.
  induction rows as [|row rows IH]; intros HP k.
  - exists [], k. split; [reflexivity | constructor].
  - cbn [parse_rows]. unfold bind at 1.
    destruct (parse_row_spec c row k) as (items & k1 & Hrow & Hitems).
    rewrite Hrow. unfold bind at 1.
    destruct (IH (fun r it Hin => HP r it (or_intror Hin)) k1)
      as (out & k2 & Hrest & Hout).
    rewrite Hrest. unfold ret.
    exists (List.app items out), k2. split; [reflexivity|].
    apply Forall_app. split; [|exact Hout].
    eapply Forall_impl; [|exact Hitems].
    intros it. apply HP. now left.
Qed.

Lemma parse_collection_table_spec (P : item -> Prop) (html : string) :
  (forall c values it, row_item ZoneInfo TIMEZONE clock tz c values it -> P it) ->
  forall k, exists out k',
    parse_collection_table ZoneInfo TIMEZONE clock find_table html k
      = Return (out, k') /\
    Forall P out.
Proof.
  intros HP k. unfold parse_collection_table.
  destruct (find_table html) as [t|].
  - destruct (tbody t) as [rows|].
    + apply parse_rows_spec. intros row it _. apply HP.
    + exists [], k. split; [reflexivity | constructor].
  - exists [], k. split; [reflexivity | constructor].
Qed.

Lemma row_item_typed_or_dated (c : columns) (values : list string) (it : item) :
  row_item ZoneInfo TIMEZONE clock tz c values it -> typed it \/ untyped_dated it.
Proof.
  intros (Hn & Hl & (j & Hd) & [(s & Hs & Hne & Hg)|(Hc & Hg & He)]).
  - left. exists s. split; [exact Hs|]. now apply nonempty_true_iff.
  - right. split; [exact Hc|]. split; [exact Hg|].
    destruct (truthy (resolve_next c values)) eqn:Tn.
    + unfold if_truthy in Hn. rewrite Tn in Hn.
      destruct (resolve_next c values) as [d|] eqn:Hr; [|discriminate].
      exists d. split; [exact Hn|]. now apply (resolve_next_is_date c values).
    + exfalso.
      pose proof (resolve_last_needs_next c values Tn) as Tl.
      unfold if_truthy in Hn, Hl. rewrite Tn in Hn. rewrite Tl in Hl.
      rewrite (parsed_date_falsy _ Tn), (parsed_date_falsy _ Tl) in Hd.
      destruct it as [ct wg nx la d]. cbn in *. subst.
      discriminate.
Qed.

End PipelineFacts.

(** ** Time differences *)

Lemma diffs_at_nonneg (now : datetime) (next_dt last_dt : option datetime) :
  valid_datetime now ->
  (forall n, next_dt = Some n -> valid_datetime n) ->
  (forall l, last_dt = Some l -> valid_datetime l) ->
  nonneg_diffs (diffs_at now next_dt last_dt).
Proof.
  intros Hnow Hn Hl. unfold nonneg_diffs, diffs_at.
  assert (Hnext :
    forall n, next_dt = Some n -> dt_ge n now = true ->
      0 <= td_days (dt_sub n now) /\ 0 <= total_minutes (dt_sub n now)).
  { intros n E G. apply dt_sub_days_minutes_nonneg; auto.
    unfold dt_ge in G. destruct (dt_compare n now); congruence. }
  assert (Hlast :
    forall l, last_dt = Some l -> dt_le l now = true ->
      0 <= td_days (dt_sub now l) /\ 0 <= total_minutes (dt_sub now l)).
  { intros l E G. apply dt_sub_days_minutes_nonneg; auto.
    unfold dt_le in G. rewrite dt_compare_antisym.
    destruct (dt_compare l now); cbn; congruence. }
  destruct next_dt as [n|]; [destruct (dt_ge n now) eqn:G|];
    (destruct last_dt as [l|]; [destruct (dt_le l now) eqn:G'|]);
    cbn; repeat split;
    try lia; try apply (Hnext n eq_refl G); try apply (Hlast l eq_refl G').
Qed.

Lemma diffs_at_past (now n : datetime) (last_dt : option datetime) :
  dt_compare n now = Lt ->
  let d := diffs_at now (Some n) last_dt in
  days_until_next d = Some 0 /\ minutes_until_next d = Some 0 /\
  time_until_next_text d = Some "Collection time has passed".
Proof.
  intros H. unfold diffs_at, dt_ge. rewrite H. cbn. auto.
Qed.

Lemma diffs_at_future (now l : datetime) (next_dt : option datetime) :
  dt_compare l now = Gt ->
  let d := diffs_at now next_dt (Some l) in
  days_since_last d = Some 0 /\ minutes_since_last d = Some 0.
Proof.
  intros H. unfold diffs_at, dt_le. rewrite H. cbn. auto.
Qed.

Section ClockFacts.
Variable ZoneInfo : string -> outcome zone.
Variable TIMEZONE : string.
Variable find_table : string -> option table.
Variables clock1 clock2 : nat -> datetime.
Hypothesis same_readings : forall k, clock1 k = clock2 k.

Lemma calculate_time_differences_ext (next last : option string) (k : nat) :
  calculate_time_differences ZoneInfo TIMEZONE clock1 next last k
  = calculate_time_differences ZoneInfo TIMEZONE clock2 next last k.
Proof.
  unfold calculate_time_differences, bind, datetime_now.
  destruct (lift (configured_zone ZoneInfo TIMEZONE) k) as [[tz k']|e];
    [|reflexivity].
  now rewrite same_readings.
Qed.

Lemma split_items_ext (next last : option string) (types : list string) :
  forall k,
    split_items ZoneInfo TIMEZONE clock1 types next last k
    = split_items ZoneInfo TIMEZONE clock2 types next last k.
Proof.
  induction types as [|t types IH]; intros k; [reflexivity|].
  cbn [split_items]. destruct (nonempty t); [|apply IH].
  unfold bind at 1 3. rewrite calculate_time_differences_ext.
  destruct (calculate_time_differences _ _ clock2 next last k) as [[d k']|e];
    [|reflexivity].
  unfold bind. now rewrite IH.
Qed.

Lemma parse_row_ext (c : columns) (row : tr) (k : nat) :
  parse_row ZoneInfo TIMEZONE clock1 c row k
  = parse_row ZoneInfo TIMEZONE clock2 c row k.
Proof.
  unfold parse_row. cbv zeta.
  destruct (resolve_collection_type _ _ _) as [ct|].
  - destruct (nonempty ct && contains " | " ct); [apply split_items_ext|].
    unfold bind. now rewrite calculate_time_differences_ext.
  - unfold bind. now rewrite calculate_time_differences_ext.
Qed.

Lemma parse_rows_ext (c : columns) (rows : list tr) :
  forall k,
    parse_rows ZoneInfo TIMEZONE clock1 c rows k
    = parse_rows ZoneInfo TIMEZONE clock2 c rows k.
Proof.
  induction rows as [|row rows IH]; intros k; [reflexivity|].
  cbn [parse_rows]. unfold bind at 1 3. rewrite parse_row_ext.
  destruct (parse_row _ _ clock2 c row k) as [[items k']|e]; [|reflexivity].
  unfold bind. now rewrite IH.
Qed.

Lemma parse_collection_table_ext (html : string) (k : nat) :
  parse_collection_table ZoneInfo TIMEZONE clock1 find_table html k
  = parse_collection_table ZoneInfo TIMEZONE clock2 find_table html k.
Proof.
  unfold parse_collection_table.
  destruct (find_table html) as [t|]; [|reflexivity].
  destruct (tbody t) as [rows|]; [|reflexivity].
  apply parse_rows_ext.
Qed.

End ClockFacts.

(** ** Resolution of the dates of a row *)

Lemma date_at_no_dates (idx : option nat) (values : list string) :
  date_values_of values = [] -> date_at idx values = None.
Proof.
  intros H. destruct (date_at idx values) as [d|] eqn:Hd; [|reflexivity].
  apply date_at_spec in Hd.
  assert (Hin : In d (date_values_of values)) by now apply date_values_of_spec.
  rewrite H in Hin. contradiction.
Qed.

Lemma resolve_no_dates (c : columns) (values : list string) :
  date_values_of values = [] ->
  resolve_next c values = None /\ resolve_last c values = None.
Proof.
  intros H. unfold resolve_next, resolve_last.
  rewrite !date_at_no_dates by exact H. rewrite H. auto.
Qed.

Lemma resolve_next_some_date (c : columns) (values : list string) :
  date_values_of values <> [] -> truthy (resolve_next c values) = true.
Proof.
  intros H. unfold resolve_next.
  destruct (date_at (next_col_idx c) values) as [x|] eqn:Hx.
  - apply date_at_spec in Hx. destruct Hx as (_ & Hn & _).
    cbn [truthy]. rewrite Hn. cbn [negb truthy]. exact Hn.
  - cbn [truthy negb].
    destruct (date_values_of values) as [|d0 l] eqn:Hl; [congruence|].
    assert (Hin : In d0 (date_values_of values)) by (rewrite Hl; now left).
    apply date_values_of_spec in Hin. cbn [truthy]. tauto.
Qed.

(** ** Items and their collection type *)

Lemma untyped_row (ZoneInfo : string -> outcome zone) (TIMEZONE : string)
    (clock : nat -> datetime) (tz : zone) (c : columns) (row : tr) (k : nat) :
  configured_zone ZoneInfo TIMEZONE = Return tz ->
  let values := map (get_text "") (row_tds row) in
  truthy (resolve_collection_type c row values) = false ->
  parse_row ZoneInfo TIMEZONE clock c row k
  = Return
      (let it :=
         mkitem None None (if_truthy (resolve_next c values))
           (if_truthy (resolve_last c values))
           (diffs_at (with_tz (clock k) tz)
              (parsed_date ZoneInfo TIMEZONE (resolve_next c values))
              (parsed_date ZoneInfo TIMEZONE (resolve_last c values))) in
       if item_empty it then [] else [it], S k).
Proof.
  intros Hz values Ht. unfold parse_row. cbv zeta. fold values.
  destruct (resolve_collection_type c row values) as [ct|] eqn:Hct.
  - cbn [truthy] in Ht. rewrite Ht. cbn [andb].
    unfold bind. rewrite (calculate_time_differences_eq _ _ _ _ Hz).
    unfold ret. change (if_truthy (Some ct)) with (if nonempty ct then Some ct else None).
    rewrite Ht. reflexivity.
  - unfold bind. rewrite (calculate_time_differences_eq _ _ _ _ Hz).
    reflexivity.
Qed.

(** C1 (as amended).  When the zone resolves, the table parser returns,
    and every item of its result either has a non-empty collection type,
    or has no collection type and no waste group and carries as its next
    collection a cell that looks like a date.  A row whose collection
    type is not resolved (or is empty) contributes nothing when none of
    its cells looks like a date, and otherwise contributes exactly one
    item, which has no collection type. *)
Theorem items_typed_or_dated (ZoneInfo : string -> outcome zone)
    (TIMEZONE : string) (clock : nat -> datetime)
    (find_table : string -> option table) (tz : zone) :
  configured_zone ZoneInfo TIMEZONE = Return tz ->
  (forall html k, exists out k',
     parse_collection_table ZoneInfo TIMEZONE clock find_table html k
       = Return (out, k') /\
     Forall (fun it => typed it \/ untyped_dated it) out) /\
  (forall c row k,
     let values := map (get_text "") (row_tds row) in
     truthy (resolve_collection_type c row values) = false ->
     (date_values_of values = [] ->
      parse_row ZoneInfo TIMEZONE clock c row k = Return ([], S k)) /\
     (date_values_of values <> [] ->
      exists it, parse_row ZoneInfo TIMEZONE clock c row k = Return ([it], S k) /\
                 untyped_dated it)).
Proof.
  intros Hz. split.
  - intros html k.
    apply (parse_collection_table_spec ZoneInfo TIMEZONE clock find_table tz Hz).
    intros c values it. apply row_item_typed_or_dated.
  - intros c row k values Ht.
    rewrite (untyped_row ZoneInfo TIMEZONE clock tz c row k Hz Ht). fold values.
    split.
    + intros Hd. destruct (resolve_no_dates c values Hd) as [-> ->].
      reflexivity.
    + intros Hd. pose proof (resolve_next_some_date c values Hd) as Tn.
      destruct (resolve_next c values) as [d|] eqn:Hr; [|discriminate].
      cbv zeta.
      change (if_truthy (Some d)) with (if truthy (Some d) then Some d else None).
      rewrite Tn. cbn [item_empty].
      eexists. split; [reflexivity|].
      split; [reflexivity|]. split; [reflexivity|].
      exists d. split; [reflexivity|].
      now apply (resolve_next_is_date c values).
Qed.

Lemma items_typed_or_dated_witness :
  configured_zone Samples.tzdata "Europe/London" = Return "Europe/London" /\
  exists out k',
    parse_collection_table Samples.tzdata "Europe/London"
      (Samples.steady Samples.sunday_noon) Samples.find_table
      Samples.composite_html 0%nat = Return (out, k') /\
    Forall (fun it => typed it \/ untyped_dated it) out.
Proof.
  split; [reflexivity|].
  exact (proj1 (items_typed_or_dated Samples.tzdata "Europe/London"
                  (Samples.steady Samples.sunday_noon) Samples.find_table
                  "Europe/London" eq_refl) Samples.composite_html 0%nat).
Defined.

(** C1, the claim as stated fails: a row with one date cell and no
    label yields an item that has no collection type. *)
Lemma item_without_collection_type :
  run (parse_collection_table Samples.tzdata "Europe/London"
         (Samples.steady Samples.sunday_noon) Samples.find_table
         Samples.dates_only_html)
  = Return [mkitem None None (Some "Monday, 17 November 2025") None
              (mkdiffs (Some 0) (Some 1140) (Some "19 hours") None None)] /\
  ~ typed (mkitem None None (Some "Monday, 17 November 2025") None
              (mkdiffs (Some 0) (Some 1140) (Some "19 hours") None None)).
Proof.
  split; [vm_compute; reflexivity|].
  intros (s & Hs & _). discriminate.
Qed.

(** ** Time differences of an item *)

(** C5.  When the zone resolves, [calculate_time_differences] returns
    after one reading of the clock, and in its result: a next collection
    that parses to a time strictly before the reading gives 0 days,
    0 minutes and the text "Collection time has passed"; a last collection
    that parses to a time strictly after the reading gives 0 days and
    0 minutes; and, the reading being a valid datetime, none of the four
    day and minute fields is negative.  Hence no item of the table parser's
    result has a negative day or minute field. *)
Theorem time_differences_not_negative (ZoneInfo : string -> outcome zone)
    (TIMEZONE : string) (clock : nat -> datetime) (tz : zone) :
  configured_zone ZoneInfo TIMEZONE = Return tz ->
  (forall next_collection_str last_collection_str k, exists d,
     calculate_time_differences ZoneInfo TIMEZONE clock
       next_collection_str last_collection_str k = Return (d, S k) /\
     (forall next_dt,
        parse_collection_date ZoneInfo TIMEZONE next_collection_str
          = Return (Some next_dt) ->
        dt_compare next_dt (with_tz (clock k) tz) = Lt ->
        days_until_next d = Some 0 /\ minutes_until_next d = Some 0 /\
        time_until_next_text d = Some "Collection time has passed") /\
     (forall last_dt,
        parse_collection_date ZoneInfo TIMEZONE last_collection_str
          = Return (Some last_dt) ->
        dt_compare last_dt (with_tz (clock k) tz) = Gt ->
        days_since_last d = Some 0 /\ minutes_since_last d = Some 0) /\
     (valid_datetime (clock k) -> nonneg_diffs d)) /\
  (forall find_table html k,
     (forall j, valid_datetime (clock j)) ->
     exists out k',
       parse_collection_table ZoneInfo TIMEZONE clock find_table html k
         = Return (out, k') /\
       Forall (fun it => nonneg_diffs (diffs it)) out).
Proof.
  intros Hz.
  assert (Hvalid : forall s n,
            parsed_date ZoneInfo TIMEZONE s = Some n -> valid_datetime n).
  { intros s n H. apply (parse_collection_date_valid ZoneInfo TIMEZONE s).
    now rewrite (parse_collection_date_parsed ZoneInfo TIMEZONE tz Hz), H. }
  split.
  - intros next last k. eexists. split.
    { apply (calculate_time_differences_eq ZoneInfo TIMEZONE clock tz Hz). }
    split; [|split].
    + intros n Hn Hc.
      rewrite (parse_collection_date_parsed ZoneInfo TIMEZONE tz Hz) in Hn.
      injection Hn as ->. now apply diffs_at_past.
    + intros l Hl Hc.
      rewrite (parse_collection_date_parsed ZoneInfo TIMEZONE tz Hz) in Hl.
      injection Hl as ->. now apply diffs_at_future.
    + intros Hv. apply diffs_at_nonneg; [exact Hv | apply Hvalid | apply Hvalid].
  - intros find_table html k Hclock.
    apply (parse_collection_table_spec ZoneInfo TIMEZONE clock find_table tz Hz).
    intros c values it (_ & _ & (j & ->) & _).
    apply diffs_at_nonneg; [apply Hclock | apply Hvalid | apply Hvalid].
Qed.

Lemma time_differences_not_negative_witness :
  configured_zone Samples.tzdata "Europe/London" = Return "Europe/London" /\
  exists d,
    calculate_time_differences Samples.tzdata "Europe/London"
      (Samples.steady Samples.sunday_noon)
      (Some "Monday, 10 November 2025") (Some "Monday, 24 November 2025") 0%nat
    = Return (d, 1%nat) /\
    (days_until_next d = Some 0 /\ minutes_until_next d = Some 0 /\
     time_until_next_text d = Some "Collection time has passed") /\
    (days_since_last d = Some 0 /\ minutes_since_last d = Some 0) /\
    nonneg_diffs d.
Proof.
  split; [reflexivity|].
  destruct (proj1 (time_differences_not_negative Samples.tzdata "Europe/London"
                     (Samples.steady Samples.sunday_noon) "Europe/London" eq_refl)
              (Some "Monday, 10 November 2025") (Some "Monday, 24 November 2025")
              0%nat) as (d & Hd & Hpast & Hfuture & Hnonneg).
  exists d. split; [exact Hd|].
  split; [exact (Hpast (mkdt 2025 11 10 7 0 0 0 (Some "Europe/London"))
                   eq_refl eq_refl)|].
  split; [exact (Hfuture (mkdt 2025 11 24 7 0 0 0 (Some "Europe/London"))
                   eq_refl eq_refl)|].
  apply Hnonneg. unfold valid_datetime. cbn. lia.
Defined.

(** ** The parser does not raise *)

(** C9.  A date string that is absent, empty or rejected by [strptime]
    (wrong format, invalid date) makes [parse_collection_date] return
    [None]: the [ValueError] never reaches the caller.  When the
    configured zone (or the fall-back zone) resolves, the date parser
    returns for every input, and so does the table parser, for every
    page and every clock. *)
Theorem parse_collection_date_never_raises (ZoneInfo : string -> outcome zone)
    (TIMEZONE : string) :
  (forall date_str, unparseable date_str ->
     parse_collection_date ZoneInfo TIMEZONE date_str = Return None) /\
  (forall tz, configured_zone ZoneInfo TIMEZONE = Return tz ->
     (forall date_str, exists r,
        parse_collection_date ZoneInfo TIMEZONE date_str = Return r) /\
     (forall clock find_table html k, exists out k',
        parse_collection_table ZoneInfo TIMEZONE clock find_table html k
          = Return (out, k'))).
Proof.
  split; [apply parse_collection_date_unparseable|].
  intros tz Hz. split.
  - intros date_str. eexists.
    apply (parse_collection_date_parsed ZoneInfo TIMEZONE tz Hz).
  - intros clock find_table html k.
    destruct (parse_collection_table_spec ZoneInfo TIMEZONE clock find_table tz Hz
                (fun _ => True) html (fun _ _ _ _ => I) k)
      as (out & k' & H & _).
    now exists out, k'.
Qed.

Lemma parse_collection_date_never_raises_witness :
  parse_collection_date Samples.tzdata "Mars/Phobos" None = Return None /\
  parse_collection_date Samples.tzdata "Mars/Phobos" (Some "") = Return None /\
  parse_collection_date Samples.tzdata "Mars/Phobos" (Some "to be confirmed")
    = Return None /\
  parse_collection_date Samples.tzdata "Mars/Phobos" (Some "2025-11-17")
    = Return None /\
  parse_collection_date Samples.tzdata "Mars/Phobos"
    (Some "Monday, 31 February 2025") = Return None /\
  (exists r, parse_collection_date Samples.tzdata "Mars/Phobos"
               (Some "Monday, 17 November 2025") = Return r) /\
  (exists out k',
     parse_collection_table Samples.tzdata "Mars/Phobos"
       (Samples.steady Samples.sunday_noon) Samples.find_table
       Samples.composite_html 0%nat = Return (out, k')).
Proof.
  pose proof (parse_collection_date_never_raises Samples.tzdata "Mars/Phobos")
    as [Hbad Hgood].
  destruct (Hgood "Europe/London" eq_refl) as [Hdate Htable].
  split; [exact (Hbad None I)|].
  split; [exact (Hbad (Some "") (or_introl eq_refl))|].
  split; [exact (Hbad (Some "to be confirmed")
                   (or_intror (ex_intro _ ValueError eq_refl)))|].
  split; [exact (Hbad (Some "2025-11-17")
                   (or_intror (ex_intro _ ValueError eq_refl)))|].
  split; [exact (Hbad (Some "Monday, 31 February 2025")
                   (or_intror (ex_intro _ ValueError eq_refl)))|].
  split; [exact (Hdate (Some "Monday, 17 November 2025"))|].
  exact (Htable (Samples.steady Samples.sunday_noon) Samples.find_table
           Samples.composite_html 0%nat).
Defined.

(** ** Determinism *)



(** ** Seven o'clock *)

(** C6.  With the zone "Europe/London", "Monday, 17 November 2025" is
    parsed to 2025-11-17 07:00:00.000000 in that zone; whatever the date
    string, a parsed date has hour 7, minute 0, second 0 and microsecond
    0; and replacing the weekday name before the comma by any other
    weekday name does not change the result. *)
Theorem parse_collection_date_seven_o_clock (ZoneInfo : string -> outcome zone)
    (TIMEZONE : string) :
  (forall london, ZoneInfo "Europe/London" = Return london ->
     parse_collection_date ZoneInfo "Europe/London"
       (Some "Monday, 17 November 2025")
     = Return (Some (mkdt 2025 11 17 7 0 0 0 (Some london)))) /\
  (forall date_str dt,
     parse_collection_date ZoneInfo TIMEZONE date_str = Return (Some dt) ->
     hour dt = 7 /\ minute dt = 0 /\ second dt = 0 /\ microsecond dt = 0) /\
  (forall weekday1 weekday2 rest,
     In weekday1 weekdays -> In weekday2 weekdays ->
     parse_collection_date ZoneInfo TIMEZONE (Some (weekday1 ++ String "," rest))
     = parse_collection_date ZoneInfo TIMEZONE (Some (weekday2 ++ String "," rest))).
Proof.
  split; [intros london; apply parse_collection_date_sample|].
  split; [apply parse_collection_date_at_seven|].
  apply parse_collection_date_weekday.
Qed.

Lemma parse_collection_date_seven_o_clock_witness :
  parse_collection_date Samples.tzdata "Europe/London"
    (Some "Monday, 17 November 2025")
  = Return (Some (mkdt 2025 11 17 7 0 0 0 (Some "Europe/London"))) /\
  parse_collection_date Samples.tzdata "Europe/London"
    (Some "Friday, 17 November 2025")
  = parse_collection_date Samples.tzdata "Europe/London"
      (Some "Monday, 17 November 2025") /\
  hour (mkdt 2025 11 17 7 0 0 0 (Some "Europe/London")) = 7.
Proof.
  pose proof (parse_collection_date_seven_o_clock Samples.tzdata "Europe/London")
    as (Hsample & Hseven & Hweekday).
  split; [exact (Hsample "Europe/London" eq_refl)|].
  split.
  - apply (Hweekday "Friday" "Monday" " 17 November 2025"); cbn; tauto.
  - exact (proj1 (Hseven (Some "Monday, 17 November 2025") _
                    (Hsample "Europe/London" eq_refl))).
Defined.

(** ** The collection type of a row *)

Lemma raw_collection_type_header (c : columns) (row : tr) (values : list string)
    (nodes : text_nodes) :
  row_th row = Some nodes ->
  raw_collection_type c row values = Some (get_text " | " nodes).
Proof. intros H. unfold raw_collection_type. now rewrite H. Qed.

Lemma raw_collection_type_mapped (c : columns) (row : tr) (values : list string)
    (i : nat) (v : string) :
  row_th row = None -> collection_type_idx c = Some i ->
  nth_error values i = Some v ->
  raw_collection_type c row values = LabelSpec.usable (Some v).
Proof.
  intros Hth Hi Hv. unfold raw_collection_type. rewrite Hth, Hi.
  assert (Hlt : (i <? List.length values)%nat = true).
  { apply Nat.ltb_lt. apply nth_error_Some. congruence. }
  rewrite Hlt. unfold value_at. rewrite Hv. unfold LabelSpec.usable.
  destruct (nonempty v) eqn:Hn; cbn [truthy andb]; [|reflexivity].
  rewrite Hn. cbn [andb]. reflexivity.
Qed.

Lemma raw_collection_type_first (c : columns) (row : tr) (values : list string) :
  row_th row = None ->
  (collection_type_idx c = None \/
   exists i, collection_type_idx c = Some i /\ (List.length values <= i)%nat) ->
  raw_collection_type c row values = LabelSpec.usable (nth_error values 0).
Proof.
  intros Hth Hi. unfold raw_collection_type. rewrite Hth.
  assert (Hfirst :
    match values with
    | v0 :: _ => if nonempty v0 && negb (is_date (Some v0)) then Some v0 else None
    | [] => None
    end = LabelSpec.usable (nth_error values 0)).
  { destruct values; reflexivity. }
  destruct Hi as [->|(i & -> & Hle)]; [exact Hfirst|].
  apply Nat.ltb_ge in Hle. rewrite Hle. exact Hfirst.
Qed.

Lemma raw_collection_type_spec (c : columns) (row : tr) (values : list string) :
  (forall i v, row_th row = None -> collection_type_idx c = Some i ->
     nth_error values i = Some v -> LabelSpec.usable (Some v) <> None) ->
  raw_collection_type c row values = LabelSpec.resolve c row values.
Proof.
  intros H. unfold LabelSpec.resolve.
  destruct (row_th row) as [nodes|] eqn:Hth.
  { now apply raw_collection_type_header. }
  destruct (collection_type_idx c) as [i|] eqn:Hi.
  - destruct (nth_error values i) as [v|] eqn:Hv.
    + rewrite (raw_collection_type_mapped c row values i v Hth Hi Hv).
      specialize (H i v eq_refl eq_refl Hv).
      destruct (LabelSpec.usable (Some v)); [reflexivity | congruence].
    + cbn [LabelSpec.usable]. apply raw_collection_type_first; [exact Hth|].
      right. exists i. split; [exact Hi|]. now apply nth_error_None.
  - apply raw_collection_type_first; auto.
Qed.

(** C3 (as amended).  The label of a row is the white-space-collapsed
    form of: (a) the text of the row header, when the row has one;
    (b) otherwise, when the header row maps a type column and the row has
    a cell at that index, that cell if it is not empty and does not look
    like a date, and no label if it is empty or looks like a date (the
    first cell is not consulted then); (c) otherwise, when no type column
    is mapped or the row is too short for it, the first data cell under
    the same condition; (d) otherwise no label.  This agrees with the
    order of the specification on every row whose mapped cell, if it
    exists, is usable. *)
Theorem collection_type_resolution (c : columns) (row : tr) (values : list string) :
  resolve_collection_type c row values
    = collapse (raw_collection_type c row values) /\
  (forall nodes, row_th row = Some nodes ->
     raw_collection_type c row values = Some (get_text " | " nodes)) /\
  (forall i v, row_th row = None -> collection_type_idx c = Some i ->
     nth_error values i = Some v ->
     raw_collection_type c row values
       = if nonempty v && negb (is_date (Some v)) then Some v else None) /\
  (row_th row = None ->
   (collection_type_idx c = None \/
    exists i, collection_type_idx c = Some i /\ (List.length values <= i)%nat) ->
   raw_collection_type c row values
     = match nth_error values 0 with
       | Some v0 => if nonempty v0 && negb (is_date (Some v0)) then Some v0 else None
       | None => None
       end) /\
  ((forall i v, row_th row = None -> collection_type_idx c = Some i ->
      nth_error values i = Some v ->
      nonempty v && negb (is_date (Some v)) = true) ->
   raw_collection_type c row values = LabelSpec.resolve c row values).
Proof.
  split; [reflexivity|].
  split; [apply raw_collection_type_header|].
  split; [apply raw_collection_type_mapped|].
  split; [apply raw_collection_type_first|].
  intros H. apply raw_collection_type_spec.
  intros i v Hth Hi Hv. cbn [LabelSpec.usable].
  rewrite (H i v Hth Hi Hv). discriminate.
Qed.

Lemma collection_type_resolution_witness :
  raw_collection_type (mkcols None None (Some 1%nat))
    (mktr None [["Food Caddy"]; ["Garden Waste Bin"]])
    ["Food Caddy"; "Garden Waste Bin"] = Some "Garden Waste Bin" /\
  raw_collection_type (mkcols None None (Some 1%nat))
    (mktr None [["Food Caddy"]; ["Friday, 21 November 2025"]])
    ["Food Caddy"; "Friday, 21 November 2025"] = None /\
  raw_collection_type (mkcols None None (Some 5%nat))
    (mktr None [["Food Caddy"]; ["Garden Waste Bin"]])
    ["Food Caddy"; "Garden Waste Bin"] = Some "Food Caddy" /\
  raw_collection_type (mkcols None None (Some 1%nat))
    (mktr (Some ["Food"; "Caddy"]) [["Garden Waste Bin"]])
    ["Garden Waste Bin"] = Some "Food | Caddy".
Proof.
  split.
  { exact (proj1 (proj2 (proj2 (collection_type_resolution
             (mkcols None None (Some 1%nat))
             (mktr None [["Food Caddy"]; ["Garden Waste Bin"]])
             ["Food Caddy"; "Garden Waste Bin"])))
           1%nat "Garden Waste Bin" eq_refl eq_refl eq_refl). }
  split.
  { exact (proj1 (proj2 (proj2 (collection_type_resolution
             (mkcols None None (Some 1%nat))
             (mktr None [["Food Caddy"]; ["Friday, 21 November 2025"]])
             ["Food Caddy"; "Friday, 21 November 2025"])))
           1%nat "Friday, 21 November 2025" eq_refl eq_refl eq_refl). }
  split.
  { apply (proj1 (proj2 (proj2 (proj2 (collection_type_resolution
             (mkcols None None (Some 5%nat))
             (mktr None [["Food Caddy"]; ["Garden Waste Bin"]])
             ["Food Caddy"; "Garden Waste Bin"])))) eq_refl).
    right. exists 5%nat. split; [reflexivity | cbn; lia]. }
  exact (proj1 (proj2 (collection_type_resolution
           (mkcols None None (Some 1%nat))
           (mktr (Some ["Food"; "Caddy"]) [["Garden Waste Bin"]])
           ["Garden Waste Bin"])) ["Food"; "Caddy"] eq_refl).
Defined.

(** C3, the claim as stated fails: the mapped type cell exists and is
    empty, the first cell is a usable label, and no label is resolved (the
    row yields no item). *)
Lemma mapped_cell_empty_no_fall_through :
  let c := find_columns Samples.empty_type_table in
  let values := map (get_text "") (row_tds Samples.empty_type_row) in
  row_th Samples.empty_type_row = None /\
  collection_type_idx c = Some 1%nat /\
  nth_error values 1 = Some "" /\
  nth_error values 0 = Some "Black Rubbish Bin" /\
  is_date (Some "Black Rubbish Bin") = false /\
  resolve_collection_type c Samples.empty_type_row values = None /\
  LabelSpec.resolve c Samples.empty_type_row values = Some "Black Rubbish Bin" /\
  run (parse_collection_table Samples.tzdata "Europe/London"
         (Samples.steady Samples.sunday_noon) Samples.find_table
         Samples.empty_type_html) = Return [].
Proof. repeat split; vm_compute; reflexivity. Qed.

(** ** Composite labels *)

Lemma contains_nonempty (needle hay : string) :
  nonempty needle = true -> contains needle hay = true -> nonempty hay = true.
Proof. destruct needle, hay; cbn; congruence. Qed.

(** C8 (as amended).  For a row whose resolved label contains " | ",
    with [parts] the non-empty trimmed pieces of the label cut at " | ":
    the row yields exactly one item per part, in the order of the parts,
    each with that part as its collection type; all of them carry the
    row's next and last collection strings; the time fields of the [i]-th
    item are those [calculate_time_differences] computes from these two
    strings at the clock reading made for that item; and they are the
    same for all items when those readings are equal. *)
Theorem composite_label_items (ZoneInfo : string -> outcome zone)
    (TIMEZONE : string) (clock : nat -> datetime) (tz : zone)
    (c : columns) (row : tr) (k : nat) (label : string) :
  configured_zone ZoneInfo TIMEZONE = Return tz ->
  let values := map (get_text "") (row_tds row) in
  let parts := filter nonempty (individual_types label) in
  let next := resolve_next c values in
  let last := resolve_last c values in
  resolve_collection_type c row values = Some label ->
  contains " | " label = true ->
  exists items,
    parse_row ZoneInfo TIMEZONE clock c row k
      = Return (items, (k + List.length parts)%nat) /\
    map collection_type items = map Some parts /\
    Forall (fun it => next_collection it = if_truthy next /\
                      last_collection it = if_truthy last) items /\
    (forall i it, nth_error items i = Some it ->
       calculate_time_differences ZoneInfo TIMEZONE clock next last (k + i)%nat
       = Return (diffs it, S (k + i))) /\
    ((forall i, (i < List.length parts)%nat -> clock (k + i)%nat = clock k) ->
     forall it1 it2, In it1 items -> In it2 items -> diffs it1 = diffs it2).
Proof.
  intros Hz values parts next last Hlabel Hbar.
  assert (Hne : nonempty label = true)
    by (apply (contains_nonempty " | " label); [reflexivity | exact Hbar]).
  destruct (split_items_spec ZoneInfo TIMEZONE clock tz Hz next last
              (individual_types label) k) as (items & Hrun & Hmap & Hnth).
  exists items. split.
  { unfold parse_row. cbv zeta. fold values. rewrite Hlabel, Hne, Hbar.
    exact Hrun. }
  split; [exact Hmap|].
  split.
  { apply Forall_forall. intros it Hin.
    apply In_nth_error in Hin. destruct Hin as [i Hi].
    destruct (Hnth i it Hi) as (Hn & Hl & _). auto. }
  split.
  { intros i it Hi. destruct (Hnth i it Hi) as (_ & _ & _ & ->).
    apply (calculate_time_differences_eq ZoneInfo TIMEZONE clock tz Hz). }
  intros Hclock.
  assert (Hall : forall it, In it items ->
            diffs it = diffs_at (with_tz (clock k) tz)
                         (parsed_date ZoneInfo TIMEZONE next)
                         (parsed_date ZoneInfo TIMEZONE last)).
  { intros it Hin. apply In_nth_error in Hin. destruct Hin as [i Hi].
    destruct (Hnth i it Hi) as (_ & _ & _ & ->).
    rewrite Hclock; [reflexivity|].
    assert (Hlen : List.length items = List.length parts).
    { unfold parts. rewrite <- (length_map collection_type items), Hmap.
      apply length_map. }
    rewrite <- Hlen. apply nth_error_Some. congruence. }
  intros it1 it2 H1 H2. now rewrite (Hall it1 H1), (Hall it2 H2).
Qed.

Lemma composite_label_items_witness :
  exists items,
    parse_row Samples.tzdata "Europe/London" (Samples.steady Samples.sunday_noon)
      (find_columns Samples.composite_table) Samples.composite_row 0%nat
      = Return (items, 2%nat) /\
    map collection_type items
      = [Some "Black Rubbish Bin"; Some "Blue Cardboard Bag"] /\
    Forall (fun it => next_collection it = Some "Monday, 17 November 2025" /\
                      last_collection it = None) items /\
    forall it1 it2, In it1 items -> In it2 items -> diffs it1 = diffs it2.
Proof.
  destruct (composite_label_items Samples.tzdata "Europe/London"
              (Samples.steady Samples.sunday_noon) "Europe/London"
              (find_columns Samples.composite_table) Samples.composite_row 0%nat
              "Black Rubbish Bin | Blue Cardboard Bag" eq_refl eq_refl eq_refl)
    as (items & Hrun & Hmap & Hdates & _ & Hsame).
  exists items. split; [exact Hrun|]. split; [exact Hmap|].
  split; [exact Hdates|].
  apply Hsame. intros i _. reflexivity.
Defined.

(** C8, the claim as stated fails: the clock is read once per item, and
    when it passes 07:00 between the two readings the two items of one
    row get different time fields. *)
Lemma composite_items_differ_when_clock_moves :
  run (parse_collection_table Samples.tzdata "Europe/London" Samples.ticking
         Samples.find_table Samples.composite_html)
  = Return
      [mkitem (Some "Black Rubbish Bin") (Some (Group "General Rubbish (black bin)"))
         (Some "Monday, 17 November 2025") None
         (mkdiffs (Some 1) (Some 1440) (Some "1 day") None None);
       mkitem (Some "Blue Cardboard Bag") (Some (Group "Cardboard (blue bag/box)"))
         (Some "Monday, 17 November 2025") None
         (mkdiffs (Some 0) (Some 1439) (Some "23 hours and 59 minutes") None None)] /\
  mkdiffs (Some 1) (Some 1440) (Some "1 day") None None
  <> mkdiffs (Some 0) (Some 1439) (Some "23 hours and 59 minutes") None None.
Proof. split; [vm_compute; reflexivity | discriminate]. Qed.

(* ================================================================== *)
(** * Further properties *)

(** ** White space in labels *)

Lemma append_empty_r (s : string) : s ++ "" = s.
Proof. induction s as [|c s IH]; simpl; [reflexivity | now rewrite IH]. Qed.

Lemma is_word_snoc (cur : string) (c : ascii) :
  space_free cur = true -> is_space c = false ->
  is_word (cur ++ String c "") = true.
Proof.
  intros Hc Hs. unfold is_word.
  induction cur as [|x cur IH]; cbn in *.
  - now rewrite Hs.
  - apply andb_true_iff in Hc. destruct Hc as [Hx Hc].
    rewrite Hx. cbn. specialize (IH Hc).
    apply andb_true_iff in IH. tauto.
Qed.

Lemma is_word_space_free (w : string) : is_word w = true -> space_free w = true.
Proof. unfold is_word. intros H. apply andb_true_iff in H. tauto. Qed.

(** The pieces [split_ws] returns are words. *)
Lemma split_ws_aux_words (s cur : string) :
  space_free cur = true -> forallb is_word (split_ws_aux cur s) = true.
Proof.
  revert cur. induction s as [|c s IH]; intros cur Hcur; cbn [split_ws_aux].
  - destruct (nonempty cur) eqn:Hn; [|reflexivity].
    cbn. unfold is_word. now rewrite Hn, Hcur.
  - destruct (is_space c) eqn:Hc.
    + destruct (nonempty cur) eqn:Hn.
      * cbn [forallb]. unfold is_word at 1. rewrite Hn, Hcur. cbn. now apply IH.
      * now apply IH.
    + apply IH. apply is_word_space_free. now apply is_word_snoc.
Qed.

Lemma split_ws_words (s : string) : forallb is_word (split_ws s) = true.
Proof. now apply split_ws_aux_words. Qed.

Lemma split_ws_aux_word_prefix (w cur s : string) :
  space_free w = true ->
  split_ws_aux cur (w ++ s) = split_ws_aux (cur ++ w) s.
Proof.
  revert cur. induction w as [|c w IH]; intros cur Hw; cbn [append].
  - now rewrite append_empty_r.
  - cbn in Hw. apply andb_true_iff in Hw. destruct Hw as [Hc Hw].
    apply negb_true_iff in Hc. cbn [split_ws_aux]. rewrite Hc.
    rewrite IH by exact Hw. now rewrite append_assoc.
Qed.

(** Splitting the single-space join of words gives the words back. *)
Lemma split_ws_join (ws : list string) :
  forallb is_word ws = true -> split_ws (join " " ws) = ws.
Proof.
  unfold split_ws.
  induction ws as [|w ws IH]; intros H; [reflexivity|].
  cbn [forallb] in H. apply andb_true_iff in H. destruct H as [Hw Hws].
  unfold is_word in Hw. apply andb_true_iff in Hw. destruct Hw as [Hn Hf].
  destruct ws as [|w' ws].
  - cbn [join]. rewrite <- (append_empty_r w) at 1.
    rewrite split_ws_aux_word_prefix by exact Hf. cbn. now rewrite Hn.
  - change (join " " (w :: w' :: ws)) with (w ++ " " ++ join " " (w' :: ws)).
    rewrite split_ws_aux_word_prefix by exact Hf.
    cbn [append split_ws_aux]. change (is_space " ") with true. cbv iota.
    cbn [append]. rewrite Hn. now rewrite (IH Hws).
Qed.

Lemma collapse_text_idempotent (s : string) :
  join " " (split_ws (join " " (split_ws s))) = join " " (split_ws s).
Proof. now rewrite split_ws_join by apply split_ws_words. Qed.

Lemma word_begins (w s : string) :
  is_word w = true -> begins_nonspace (w ++ s) = true.
Proof.
  unfold is_word. destruct w as [|c w]; cbn; [discriminate|].
  intros H. apply andb_true_iff in H. tauto.
Qed.

Lemma well_spaced_word_app (w s : string) :
  space_free w = true -> well_spaced s = true -> well_spaced (w ++ s) = true.
Proof.
  intros Hw Hs. induction w as [|c w IH]; cbn [append]; [exact Hs|].
  cbn in Hw. apply andb_true_iff in Hw. destruct Hw as [Hc Hw].
  cbn [well_spaced]. apply negb_true_iff in Hc. rewrite Hc. cbn.
  now apply IH.
Qed.

Lemma ends_nonspace_app (a b : string) :
  nonempty b = true -> ends_nonspace (a ++ b) = ends_nonspace b.
Proof.
  intros Hb. induction a as [|c a IH]; cbn [append]; [reflexivity|].
  cbn [ends_nonspace]. destruct (a ++ b) eqn:E; [|exact IH].
  destruct a, b; discriminate.
Qed.

Lemma word_ends (w : string) : is_word w = true -> ends_nonspace w = true.
Proof.
  unfold is_word. induction w as [|c w IH]; [discriminate|].
  cbn. intros H. apply andb_true_iff in H. destruct H as [Hc Hw].
  destruct w as [|c' w]; [exact Hc|]. apply IH. exact Hw.
Qed.

Lemma join_words_shape (ws : list string) :
  forallb is_word ws = true ->
  well_spaced (join " " ws) = true /\
  (ws <> [] -> begins_nonspace (join " " ws) = true /\
               ends_nonspace (join " " ws) = true).
Proof.
  induction ws as [|w ws IH]; intros H.
  - split; [reflexivity | congruence].
  - cbn [forallb] in H. apply andb_true_iff in H. destruct H as [Hw Hws].
    specialize (IH Hws). destruct IH as [IHw IHb].
    pose proof (is_word_space_free w Hw) as Hf.
    destruct ws as [|w' ws].
    + cbn [join]. split.
      * rewrite <- (append_empty_r w). now apply well_spaced_word_app.
      * intros _. split.
        -- rewrite <- (append_empty_r w). now apply word_begins.
        -- now apply word_ends.
    + change (join " " (w :: w' :: ws)) with (w ++ " " ++ join " " (w' :: ws)).
      destruct (IHb ltac:(discriminate)) as [Hb He].
      split.
      * apply well_spaced_word_app; [exact Hf|].
        cbn [append well_spaced]. change (is_space " ") with true.
        cbv iota. rewrite Hb, IHw. reflexivity.
      * intros _. split; [now apply word_begins|].
        rewrite ends_nonspace_app by reflexivity.
        cbn [append ends_nonspace].
        destruct (join " " (w' :: ws)); [discriminate | exact He].
Qed.

Lemma begins_nonspace_snoc (cur : string) (c : ascii) (s : string) :
  begins_nonspace cur = true \/ (cur = "" /\ begins_nonspace (String c s) = true) ->
  begins_nonspace (cur ++ String c "") = true.
Proof.
  intros [H|[-> H]]; [|exact H].
  destruct cur; [discriminate | exact H].
Qed.

Lemma split_bar_aux_parts_bounded (n : nat) :
  forall s cur,
    (String.length s <= n)%nat ->
    well_spaced s = true ->
    begins_nonspace cur = true \/ (cur = "" /\ begins_nonspace s = true) ->
    forallb begins_nonspace (split_bar_aux cur s) = true.
Proof.
  induction n as [|n IH]; intros s cur Hlen Hs Hcur.
  - destruct s; [|cbn in Hlen; lia].
    cbn [split_bar_aux forallb].
    destruct Hcur as [H|[_ H]]; [now rewrite H | now cbn in H].
  - destruct s as [|c s].
    { cbn [split_bar_aux forallb].
      destruct Hcur as [H|[_ H]]; [now rewrite H | now cbn in H]. }
    cbn [split_bar_aux].
    destruct (startswith " | " (String c s)) eqn:Hsep.
    + destruct s as [|c1 [|c2 rest]].
      * cbn [startswith] in Hsep. rewrite andb_false_r in Hsep. discriminate.
      * cbn [startswith] in Hsep. rewrite !andb_false_r in Hsep. discriminate.
      * cbn [startswith] in Hsep.
        apply andb_true_iff in Hsep. destruct Hsep as [E0 Hsep].
        apply andb_true_iff in Hsep. destruct Hsep as [E1 Hsep].
        apply andb_true_iff in Hsep. destruct Hsep as [E2 _].
        apply Ascii.eqb_eq in E0, E1, E2. subst c c1 c2.
        assert (Hc : begins_nonspace cur = true).
        { destruct Hcur as [H|[_ H]]; [exact H | now vm_compute in H]. }
        cbn [forallb]. rewrite Hc. cbn [andb].
        cbn [well_spaced] in Hs.
        apply andb_true_iff in Hs. destruct Hs as [_ Hs].
        apply andb_true_iff in Hs. destruct Hs as [_ Hs].
        apply andb_true_iff in Hs. destruct Hs as [Hb Hrest].
        change (is_space " ") with true in Hb. cbv iota in Hb.
        apply andb_true_iff in Hb. destruct Hb as [_ Hb].
        apply IH; [cbn in Hlen; lia | exact Hrest |].
        right. split; [reflexivity | exact Hb].
    + apply IH.
      * cbn in Hlen. lia.
      * cbn [well_spaced] in Hs. apply andb_true_iff in Hs. tauto.
      * left. now apply (begins_nonspace_snoc cur c s).
Qed.

Lemma split_bar_parts (s : string) :
  well_spaced s = true -> begins_nonspace s = true ->
  forallb begins_nonspace (split_bar s) = true.
Proof.
  intros Hs Hb. apply (split_bar_aux_parts_bounded (String.length s)); auto.
Qed.

Lemma lstrip_begins (s : string) : begins_nonspace s = true -> lstrip s = s.
Proof.
  destruct s as [|c s]; [discriminate|]. cbn. intros H.
  apply negb_true_iff in H. now rewrite H.
Qed.

Lemma rstrip_begins (s : string) :
  begins_nonspace s = true -> begins_nonspace (rstrip s) = true.
Proof.
  destruct s as [|c s]; [discriminate|]. cbn. intros H.
  destruct (rstrip s); [|exact H].
  apply negb_true_iff in H. rewrite H. cbn. now rewrite H.
Qed.

Lemma strip_begins (s : string) :
  begins_nonspace s = true -> begins_nonspace (strip s) = true.
Proof.
  intros H. unfold strip. rewrite lstrip_begins by exact H. now apply rstrip_begins.
Qed.

Lemma begins_nonspace_nonempty (s : string) :
  begins_nonspace s = true -> nonempty s = true.
Proof. destruct s; [discriminate | reflexivity]. Qed.

Lemma split_bar_aux_some_bounded (n : nat) :
  forall s cur, (String.length s <= n)%nat ->
    (1 <= List.length (split_bar_aux cur s))%nat.
Proof.
  induction n as [|n IH]; intros s cur Hlen.
  - destruct s; [cbn; lia | cbn in Hlen; lia].
  - destruct s as [|c s]; [cbn; lia|].
    cbn [split_bar_aux].
    destruct (startswith " | " (String c s)).
    + destruct s as [|c1 [|c2 rest]]; cbn [List.length]; lia.
    + apply IH. cbn in Hlen. lia.
Qed.

Lemma split_bar_aux_length (s cur : string) :
  contains " | " s = true -> (2 <= List.length (split_bar_aux cur s))%nat.
Proof.
  revert cur. induction s as [|c s IH]; intros cur H; [discriminate|].
  cbn [split_bar_aux].
  destruct (startswith " | " (String c s)) eqn:Hsep.
  - destruct s as [|c1 [|c2 rest]].
    + cbn [startswith] in Hsep. rewrite andb_false_r in Hsep. discriminate.
    + cbn [startswith] in Hsep. rewrite !andb_false_r in Hsep. discriminate.
    + cbn [List.length].
      pose proof (split_bar_aux_some_bounded (String.length rest) rest ""
                    (Nat.le_refl _)).
      lia.
  - apply IH. cbn [contains] in H. rewrite Hsep in H. exact H.
Qed.

Lemma well_spaced_suffix (a b : string) :
  well_spaced (a ++ b) = true -> well_spaced b = true.
Proof.
  induction a as [|c a IH]; cbn [append well_spaced]; [auto|].
  intros H. apply andb_true_iff in H. tauto.
Qed.

Lemma begins_nonspace_app (a b : string) :
  nonempty a = true -> begins_nonspace (a ++ b) = begins_nonspace a.
Proof. destruct a; [discriminate | reflexivity]. Qed.

Lemma well_spaced_before_space (a b : string) :
  well_spaced (a ++ String " " b) = true -> well_spaced a = true.
Proof.
  induction a as [|c a IH]; cbn [append well_spaced]; [reflexivity|].
  intros H. apply andb_true_iff in H. destruct H as [Hc H].
  rewrite (IH H), andb_true_r.
  destruct (is_space c); [|reflexivity].
  apply andb_true_iff in Hc. destruct Hc as [Hc Hb]. rewrite Hc. cbn [andb].
  destruct a as [|c' a]; [now vm_compute in Hb | exact Hb].
Qed.

Lemma split_bar_aux_well_spaced_bounded (n : nat) :
  forall s cur, (String.length s <= n)%nat ->
    well_spaced (cur ++ s) = true ->
    forallb well_spaced (split_bar_aux cur s) = true.
Proof.
  induction n as [|n IH]; intros s cur Hlen Hs.
  - destruct s; [|cbn in Hlen; lia].
    rewrite append_empty_r in Hs. cbn. now rewrite Hs.
  - destruct s as [|c s].
    { rewrite append_empty_r in Hs. cbn. now rewrite Hs. }
    cbn [split_bar_aux].
    destruct (startswith " | " (String c s)) eqn:Hsep.
    + destruct s as [|c1 [|c2 rest]].
      * cbn [startswith] in Hsep. rewrite andb_false_r in Hsep. discriminate.
      * cbn [startswith] in Hsep. rewrite !andb_false_r in Hsep. discriminate.
      * cbn [startswith] in Hsep.
        apply andb_true_iff in Hsep. destruct Hsep as [E0 Hsep].
        apply andb_true_iff in Hsep. destruct Hsep as [E1 Hsep].
        apply andb_true_iff in Hsep. destruct Hsep as [E2 _].
        apply Ascii.eqb_eq in E0, E1, E2. subst c c1 c2.
        cbn [forallb]. rewrite (well_spaced_before_space _ _ Hs). cbn [andb].
        apply IH; [cbn in Hlen; lia|].
        apply well_spaced_suffix in Hs.
        cbn [well_spaced] in Hs. cbn [append].
        apply andb_true_iff in Hs. destruct Hs as [_ Hs].
        apply andb_true_iff in Hs. destruct Hs as [_ Hs].
        apply andb_true_iff in Hs. tauto.
    + apply IH; [cbn in Hlen; lia|].
      rewrite append_assoc. exact Hs.
Qed.

Lemma split_bar_well_spaced (s : string) :
  well_spaced s = true -> forallb well_spaced (split_bar s) = true.
Proof.
  intros H. apply (split_bar_aux_well_spaced_bounded (String.length s)); auto.
Qed.

Lemma well_spaced_ends (s : string) :
  well_spaced s = true -> nonempty s = true -> ends_nonspace s = true.
Proof.
  induction s as [|c s IH]; [discriminate|].
  cbn [well_spaced ends_nonspace]. intros H _.
  apply andb_true_iff in H. destruct H as [Hc Hs].
  destruct s as [|c' s].
  - destruct (is_space c); [|reflexivity].
    apply andb_true_iff in Hc. destruct Hc as [_ Hc]. discriminate.
  - now apply IH.
Qed.

Lemma rstrip_ends (s : string) : ends_nonspace s = true -> rstrip s = s.
Proof.
  induction s as [|c s IH]; [reflexivity|].
  cbn [ends_nonspace rstrip]. destruct s as [|c' s].
  - cbn. intros H. apply negb_true_iff in H. now rewrite H.
  - intros H. now rewrite (IH H).
Qed.

Lemma strip_collapsed (s : string) : collapsed s = true -> strip s = s.
Proof.
  unfold collapsed. intros H.
  apply andb_true_iff in H. destruct H as [H Hw].
  apply andb_true_iff in H. destruct H as [Hb He].
  unfold strip. rewrite (lstrip_begins s Hb). now apply rstrip_ends.
Qed.

Lemma collapsed_intro (s : string) :
  begins_nonspace s = true -> well_spaced s = true -> collapsed s = true.
Proof.
  intros Hb Hw. unfold collapsed. rewrite Hb, Hw.
  rewrite (well_spaced_ends s Hw (begins_nonspace_nonempty s Hb)). reflexivity.
Qed.

(** The pieces of a collapsed string cut at " | " are collapsed. *)
Lemma split_bar_collapsed (s : string) :
  collapsed s = true -> forallb collapsed (split_bar s) = true.
Proof.
  intros H. unfold collapsed in H.
  apply andb_true_iff in H. destruct H as [H Hw].
  apply andb_true_iff in H. destruct H as [Hb He].
  pose proof (split_bar_parts s Hw Hb) as H1.
  pose proof (split_bar_well_spaced s Hw) as H2.
  rewrite forallb_forall in *. intros p Hp.
  apply collapsed_intro; auto.
Qed.

Lemma join_split_ws_collapsed (s : string) :
  nonempty (join " " (split_ws s)) = true ->
  collapsed (join " " (split_ws s)) = true.
Proof.
  intros Hn.
  destruct (join_words_shape (split_ws s) (split_ws_words s)) as [Hw Hb].
  assert (Hne : split_ws s <> []).
  { intros E. rewrite E in Hn. discriminate. }
  destruct (Hb Hne) as [H1 H2]. unfold collapsed. now rewrite H1, H2, Hw.
Qed.

Lemma individual_types_collapsed (ct : string) :
  collapsed ct = true ->
  individual_types ct = split_bar ct /\
  filter nonempty (individual_types ct) = split_bar ct /\
  forallb collapsed (split_bar ct) = true.
Proof.
  intros H. pose proof (split_bar_collapsed ct H) as Hp.
  assert (E : individual_types ct = split_bar ct).
  { unfold individual_types.
    rewrite <- (map_id (split_bar ct)) at 2.
    apply map_ext_in. intros p Hin. apply strip_collapsed.
    rewrite forallb_forall in Hp. now apply Hp. }
  split; [exact E|]. split; [|exact Hp].
  rewrite E. apply forallb_filter_id.
  rewrite forallb_forall in *. intros p Hin. specialize (Hp p Hin).
  unfold collapsed in Hp. apply andb_true_iff in Hp. destruct Hp as [Hp _].
  apply andb_true_iff in Hp. destruct Hp as [Hp _].
  now apply begins_nonspace_nonempty.
Qed.

Lemma space_free_split_ws_aux (w cur : string) :
  space_free w = true -> split_ws_aux cur w = if nonempty (cur ++ w) then [cur ++ w] else [].
Proof.
  intros H. rewrite <- (append_empty_r w) at 1.
  rewrite split_ws_aux_word_prefix by exact H. reflexivity.
Qed.

(** A collapsed string is the single-space join of its words. *)
Lemma collapsed_join_split_bounded (n : nat) :
  forall s cur, (String.length s <= n)%nat ->
    space_free cur = true -> well_spaced s = true ->
    (nonempty s = true -> ends_nonspace s = true) ->
    (cur = "" -> s = "" \/ begins_nonspace s = true) ->
    join " " (split_ws_aux cur s) = cur ++ s.
Proof.
  induction n as [|n IH]; intros s cur Hlen Hcur Hw He Hb.
  - destruct s; [|cbn in Hlen; lia].
    cbn [split_ws_aux]. rewrite append_empty_r.
    destruct cur; reflexivity.
  - destruct s as [|c s].
    { cbn [split_ws_aux]. rewrite append_empty_r. destruct cur; reflexivity. }
    cbn [split_ws_aux]. cbn [well_spaced] in Hw.
    apply andb_true_iff in Hw. destruct Hw as [Hc Hw].
    destruct (is_space c) eqn:Hsp.
    + apply andb_true_iff in Hc. destruct Hc as [Hc Hnext].
      apply Ascii.eqb_eq in Hc. subst c.
      destruct cur as [|x cur].
      { destruct (Hb eq_refl) as [H|H]; [discriminate | now vm_compute in H]. }
      cbn [nonempty].
      destruct s as [|c' s]; [discriminate|].
      assert (Hrec : join " " (split_ws_aux "" (String c' s)) = String c' s).
      { apply (IH (String c' s) "").
        - cbn in Hlen |- *. lia.
        - reflexivity.
        - exact Hw.
        - intros _. apply (He eq_refl).
        - intros _. right. exact Hnext. }
      destruct (split_ws_aux "" (String c' s)) as [|w ws] eqn:E.
      { cbn in Hrec. discriminate. }
      change (join " " (String x cur :: w :: ws))
        with (String x cur ++ " " ++ join " " (w :: ws)).
      now rewrite Hrec.
    + rewrite (IH s (cur ++ String c "")).
      * now rewrite append_assoc.
      * cbn in Hlen. lia.
      * apply is_word_space_free. now apply is_word_snoc.
      * exact Hw.
      * intros Hn. destruct s; [discriminate|]. exact (He eq_refl).
      * intros E. destruct cur; discriminate.
Qed.

Lemma collapsed_join_split (s : string) :
  collapsed s = true -> join " " (split_ws s) = s.
Proof.
  unfold collapsed. intros H.
  apply andb_true_iff in H. destruct H as [H Hw].
  apply andb_true_iff in H. destruct H as [Hb He].
  apply (collapsed_join_split_bounded (String.length s) s ""); auto.
Qed.

(** ** Items and rows *)

Lemma resolve_collection_type_collapsed (c : columns) (row : tr)
    (values : list string) (ct : string) :
  resolve_collection_type c row values = Some ct ->
  nonempty ct = true -> collapsed ct = true.
Proof.
  unfold resolve_collection_type, collapse.
  destruct (raw_collection_type c row values) as [s|]; [|discriminate].
  destruct (nonempty s) eqn:Hs.
  - intros [= <-]. apply join_split_ws_collapsed.
  - intros [= <-]. congruence.
Qed.

Lemma resolve_last_is_date (c : columns) (values : list string) (d : string) :
  resolve_last c values = Some d ->
  nonempty d = true /\ is_date (Some d) = true.
Proof.
  unfold resolve_last.
  destruct (date_at (last_col_idx c) values) as [x|] eqn:Hx.
  - apply date_at_spec in Hx. destruct Hx as (_ & Hn & Hd).
    cbn [truthy]. rewrite Hn. cbn [negb]. now intros [= <-].
  - cbn [truthy negb].
    destruct (date_values_of values) as [|d0 [|d1 l]] eqn:Hl; try discriminate.
    intros [= <-].
    assert (Hin : In d1 (date_values_of values))
      by (rewrite Hl; right; now left).
    apply date_values_of_spec in Hin. tauto.
Qed.

Section ItemFacts.
Variable ZoneInfo : string -> outcome zone.
Variable TIMEZONE : string.
Variable clock : nat -> datetime.
Variable find_table : string -> option table.

Lemma parse_rows_lift (P : item -> Prop) (c : columns) (rows : list tr) :
  (forall row k, In row rows -> exists items k',
     parse_row ZoneInfo TIMEZONE clock c row k = Return (items, k') /\
     Forall P items) ->
  forall k, exists out k',
    parse_rows ZoneInfo TIMEZONE clock c rows k = Return (out, k') /\
    Forall P out.
Proof.
  induction rows as [|row rows IH]; intros HP k.
  - exists [], k. split; [reflexivity | constructor].
  - cbn [parse_rows]. unfold bind at 1.
    destruct (HP row k (or_introl eq_refl)) as (items & k1 & Hrow & Hitems).
    rewrite Hrow. unfold bind at 1.
    destruct (IH (fun r j Hin => HP r j (or_intror Hin)) k1)
      as (out & k2 & Hrest & Hout).
    rewrite Hrest. unfold ret.
    exists (List.app items out), k2. split; [reflexivity|].
    apply Forall_app. now split.
Qed.

Lemma parse_collection_table_lift (P : item -> Prop) (html : string) :
  (forall c row k, exists items k',
     parse_row ZoneInfo TIMEZONE clock c row k = Return (items, k') /\
     Forall P items) ->
  forall k, exists out k',
    parse_collection_table ZoneInfo TIMEZONE clock find_table html k
      = Return (out, k') /\
    Forall P out.
Proof.
  intros HP k. unfold parse_collection_table.
  destruct (find_table html) as [t|].
  - destruct (tbody t) as [rows|].
    + apply parse_rows_lift. intros row j _. apply HP.
    + exists [], k. split; [reflexivity | constructor].
  - exists [], k. split; [reflexivity | constructor].
Qed.

Variable tz : zone.
Hypothesis zone_ok : configured_zone ZoneInfo TIMEZONE = Return tz.

Lemma composite_row_items (c : columns) (row : tr) (k : nat) (ct : string) :
  resolve_collection_type c row (map (get_text "") (row_tds row)) = Some ct ->
  contains " | " ct = true ->
  exists items,
    parse_row ZoneInfo TIMEZONE clock c row k
      = Return (items, (k + List.length (split_bar ct))%nat) /\
    map collection_type items = map Some (split_bar ct) /\
    forallb collapsed (split_bar ct) = true /\
    (2 <= List.length items)%nat.
Proof.
  intros Hct Hbar.
  assert (Hne : nonempty ct = true)
    by (apply (contains_nonempty " | " ct); [reflexivity | exact Hbar]).
  pose proof (resolve_collection_type_collapsed c row _ ct Hct Hne) as Hc.
  destruct (individual_types_collapsed ct Hc) as (_ & Hf & Hparts).
  destruct (split_items_spec ZoneInfo TIMEZONE clock tz zone_ok
              (resolve_next c (map (get_text "") (row_tds row)))
              (resolve_last c (map (get_text "") (row_tds row)))
              (individual_types ct) k) as (items & Hrun & Hmap & _).
  rewrite Hf in Hrun, Hmap.
  exists items. split.
  { unfold parse_row. cbv zeta. rewrite Hct, Hne, Hbar. exact Hrun. }
  split; [exact Hmap|]. split; [exact Hparts|].
  rewrite <- (length_map collection_type items), Hmap, length_map.
  now apply split_bar_aux_length.
Qed.

Lemma parse_row_types (c : columns) (row : tr) (k : nat) :
  exists items k',
    parse_row ZoneInfo TIMEZONE clock c row k = Return (items, k') /\
    Forall (fun it => forall s, collection_type it = Some s -> collapsed s = true)
           items.
Proof.
  destruct (resolve_collection_type c row (map (get_text "") (row_tds row)))
    as [ct|] eqn:Hct.
  - destruct (nonempty ct && contains " | " ct) eqn:Hsplit.
    + apply andb_true_iff in Hsplit. destruct Hsplit as [Hne Hbar].
      destruct (composite_row_items c row k ct Hct Hbar)
        as (items & Hrun & Hmap & Hparts & _).
      exists items. eexists. split; [exact Hrun|].
      apply Forall_forall. intros it Hin s Hs.
      assert (Hin' : In (Some s) (map Some (split_bar ct))).
      { rewrite <- Hmap, <- Hs. now apply in_map. }
      apply in_map_iff in Hin'. destruct Hin' as (p & [= ->] & Hp).
      rewrite forallb_forall in Hparts. now apply Hparts.
    + unfold parse_row. cbv zeta. rewrite Hct, Hsplit.
      unfold bind. rewrite (calculate_time_differences_eq _ _ _ _ zone_ok).
      unfold ret. eexists. eexists. split; [reflexivity|].
      change (if_truthy (Some ct)) with (if nonempty ct then Some ct else None).
      match goal with
      | |- Forall _ (if item_empty ?i then _ else _) => destruct (item_empty i)
      end; constructor; [|constructor].
      cbn [collection_type]. intros s.
      destruct (nonempty ct) eqn:Hne; [|discriminate].
      intros [= <-].
      now apply (resolve_collection_type_collapsed c row _ ct Hct).
  - unfold parse_row. cbv zeta. rewrite Hct.
    unfold bind. rewrite (calculate_time_differences_eq _ _ _ _ zone_ok).
    unfold ret. eexists. eexists. split; [reflexivity|].
    match goal with
    | |- Forall _ (if item_empty ?i then _ else _) => destruct (item_empty i)
    end; constructor; [|constructor].
    cbn [collection_type]. discriminate.
Qed.

End ItemFacts.

(** X7.  Every collection type the table parser returns is in
    normal form: no white space at either end and only single plain spaces
    inside, so that stripping it or collapsing it again gives it back. *)
Theorem collection_types_collapsed (ZoneInfo : string -> outcome zone)
    (TIMEZONE : string) (clock : nat -> datetime)
    (find_table : string -> option table) (tz : zone) (html : string) (k : nat) :
  configured_zone ZoneInfo TIMEZONE = Return tz ->
  exists out k',
    parse_collection_table ZoneInfo TIMEZONE clock find_table html k
      = Return (out, k') /\
    Forall (fun it => forall s, collection_type it = Some s ->
                        collapsed s = true /\ strip s = s /\
                        join " " (split_ws s) = s) out.
Proof.
  intros Hz.
  destruct (parse_collection_table_lift ZoneInfo TIMEZONE clock find_table
              (fun it => forall s, collection_type it = Some s -> collapsed s = true)
              html (parse_row_types ZoneInfo TIMEZONE clock tz Hz) k)
    as (out & k' & Hrun & Hall).
  exists out, k'. split; [exact Hrun|].
  eapply Forall_impl; [|exact Hall].
  intros it H s Hs. specialize (H s Hs).
  split; [exact H|]. split; [now apply strip_collapsed|].
  now apply collapsed_join_split.
Qed.

(** ** Fields of an item *)

Lemma parsed_date_if_truthy (ZoneInfo : string -> outcome zone)
    (TIMEZONE : string) (o : option string) :
  parsed_date ZoneInfo TIMEZONE (if_truthy o) = parsed_date ZoneInfo TIMEZONE o.
Proof.
  unfold if_truthy. destruct (truthy o) eqn:H; [reflexivity|].
  now rewrite (parsed_date_falsy ZoneInfo TIMEZONE o H).
Qed.

Lemma diffs_at_presence (now : datetime) (next_dt last_dt : option datetime) :
  let d := diffs_at now next_dt last_dt in
  (days_until_next d = None <-> next_dt = None) /\
  (minutes_until_next d = None <-> next_dt = None) /\
  (time_until_next_text d = None <-> next_dt = None) /\
  (days_since_last d = None <-> last_dt = None) /\
  (minutes_since_last d = None <-> last_dt = None).
Proof.
  unfold diffs_at.
  destruct next_dt as [n|]; [destruct (dt_ge n now)|];
    (destruct last_dt as [l|]; [destruct (dt_le l now)|]);
    cbn; repeat split; congruence.
Qed.

(** X3.  In the result of [calculate_time_differences] the three
    fields about the next collection are present together, exactly when
    the next-collection string parses, and the two fields about the last
    collection likewise; in every item of the table parser's result the
    same holds with respect to the item's own [next_collection] and
    [last_collection]. *)
Theorem time_fields_present_iff_parsed (ZoneInfo : string -> outcome zone)
    (TIMEZONE : string) (clock : nat -> datetime) (tz : zone) :
  configured_zone ZoneInfo TIMEZONE = Return tz ->
  (forall next_collection_str last_collection_str k, exists d,
     calculate_time_differences ZoneInfo TIMEZONE clock
       next_collection_str last_collection_str k = Return (d, S k) /\
     (days_until_next d = None <->
        parse_collection_date ZoneInfo TIMEZONE next_collection_str = Return None) /\
     (minutes_until_next d = None <-> days_until_next d = None) /\
     (time_until_next_text d = None <-> days_until_next d = None) /\
     (days_since_last d = None <->
        parse_collection_date ZoneInfo TIMEZONE last_collection_str = Return None) /\
     (minutes_since_last d = None <-> days_since_last d = None)) /\
  (forall find_table html k, exists out k',
     parse_collection_table ZoneInfo TIMEZONE clock find_table html k
       = Return (out, k') /\
     Forall (fun it =>
       (days_until_next (diffs it) = None <->
          parse_collection_date ZoneInfo TIMEZONE (next_collection it) = Return None) /\
       (days_since_last (diffs it) = None <->
          parse_collection_date ZoneInfo TIMEZONE (last_collection it) = Return None))
       out).
Proof.
  intros Hz.
  assert (Hp : forall s,
            parse_collection_date ZoneInfo TIMEZONE s = Return None <->
            parsed_date ZoneInfo TIMEZONE s = None).
  { intros s. rewrite (parse_collection_date_parsed ZoneInfo TIMEZONE tz Hz).
    split; [now intros [= ->] | now intros ->]. }
  split.
  - intros next last k. eexists. split.
    { apply (calculate_time_differences_eq ZoneInfo TIMEZONE clock tz Hz). }
    rewrite !Hp.
    destruct (diffs_at_presence (with_tz (clock k) tz)
                (parsed_date ZoneInfo TIMEZONE next)
                (parsed_date ZoneInfo TIMEZONE last)) as (H1 & H2 & H3 & H4 & H5).
    repeat split; tauto.
  - intros find_table html k.
    apply (parse_collection_table_spec ZoneInfo TIMEZONE clock find_table tz Hz).
    intros c values it (Hn & Hl & (j & Hd) & _).
    rewrite !Hp, Hn, Hl, !parsed_date_if_truthy, Hd.
    destruct (diffs_at_presence (with_tz (clock j) tz)
                (parsed_date ZoneInfo TIMEZONE (resolve_next c values))
                (parsed_date ZoneInfo TIMEZONE (resolve_last c values)))
      as (H1 & _ & _ & H4 & _).
    split; assumption.
Qed.

Lemma time_fields_present_iff_parsed_witness :
  exists d,
    calculate_time_differences Samples.tzdata "Europe/London"
      (Samples.steady Samples.sunday_noon)
      (Some "Monday, 17 November 2025") (Some "last week") 0%nat
    = Return (d, 1%nat) /\
    days_until_next d <> None /\ days_since_last d = None.
Proof.
  destruct (proj1 (time_fields_present_iff_parsed Samples.tzdata "Europe/London"
                     (Samples.steady Samples.sunday_noon) "Europe/London" eq_refl)
              (Some "Monday, 17 November 2025") (Some "last week") 0%nat)
    as (d & Hd & Hnext & _ & _ & Hlast & _).
  exists d. split; [exact Hd|]. split.
  - intros H. apply Hnext in H. discriminate.
  - apply Hlast. reflexivity.
Defined.

(** X6.  In every item the table parser returns, the waste group
    is the one [get_waste_group] gives for the item's collection type (and
    absent when there is no type), a next or last collection is a
    non-empty text that looks like a date, and there is no last
    collection without a next collection. *)
Theorem items_consistent (ZoneInfo : string -> outcome zone)
    (TIMEZONE : string) (clock : nat -> datetime)
    (find_table : string -> option table) (tz : zone) (html : string) (k : nat) :
  configured_zone ZoneInfo TIMEZONE = Return tz ->
  exists out k',
    parse_collection_table ZoneInfo TIMEZONE clock find_table html k
      = Return (out, k') /\
    Forall (fun it =>
      waste_group_of it
        = match collection_type it with
          | Some s => get_waste_group s
          | None => None
          end /\
      (forall d, next_collection it = Some d ->
         d <> "" /\ is_date (Some d) = true) /\
      (forall d, last_collection it = Some d ->
         d <> "" /\ is_date (Some d) = true) /\
      (last_collection it <> None -> next_collection it <> None)) out.
Proof.
  intros Hz.
  apply (parse_collection_table_spec ZoneInfo TIMEZONE clock find_table tz Hz).
  intros c values it (Hn & Hl & _ & Ht).
  split.
  { destruct Ht as [(s & -> & _ & Hg)|(-> & Hg & _)]; exact Hg. }
  unfold if_truthy in Hn, Hl.
  split; [|split].
  - intros d Hd. rewrite Hd in Hn.
    destruct (truthy (resolve_next c values)); [|discriminate].
    symmetry in Hn. apply resolve_next_is_date in Hn.
    split; [now apply nonempty_true_iff | tauto].
  - intros d Hd. rewrite Hd in Hl.
    destruct (truthy (resolve_last c values)); [|discriminate].
    symmetry in Hl. apply resolve_last_is_date in Hl.
    split; [now apply nonempty_true_iff | tauto].
  - intros Hlast.
    destruct (truthy (resolve_next c values)) eqn:Tn.
    + rewrite Hn. destruct (resolve_next c values); [discriminate | discriminate].
    + rewrite (resolve_last_needs_next c values Tn) in Hl. congruence.
Qed.

Lemma items_consistent_witness :
  exists out k',
    parse_collection_table Samples.tzdata "Europe/London"
      (Samples.steady Samples.sunday_noon) Samples.find_table
      Samples.composite_html 0%nat = Return (out, k') /\
    Forall (fun it =>
      waste_group_of it
        = match collection_type it with
          | Some s => get_waste_group s
          | None => None
          end /\
      (forall d, next_collection it = Some d ->
         d <> "" /\ is_date (Some d) = true) /\
      (forall d, last_collection it = Some d ->
         d <> "" /\ is_date (Some d) = true) /\
      (last_collection it <> None -> next_collection it <> None)) out.
Proof.
  exact (items_consistent Samples.tzdata "Europe/London"
           (Samples.steady Samples.sunday_noon) Samples.find_table
           "Europe/London" Samples.composite_html 0%nat eq_refl).
Defined.

(** ** Days, minutes and text *)

Lemma timedelta_days_minutes (d s u : Z) :
  0 <= (d * 86400 + s) * 1000000 + u ->
  let td := mk_timedelta d s u in
  0 <= total_minutes td /\
  td_days td = total_minutes td / 1440 /\
  0 <= total_minutes td / 60 - td_days td * 24 < 24.
Proof.
  intros H td. unfold total_minutes. subst td.
  rewrite mk_timedelta_total. unfold mk_timedelta. cbn [td_days].
  set (T := (d * 86400 + s) * 1000000 + u) in *.
  rewrite Z.quot_div_nonneg by lia.
  rewrite !Z.div_div by lia.
  change (60000000 * 1440) with 86400000000.
  change (60000000 * 60) with 3600000000.
  split; [apply Z.div_pos; lia|]. split; [reflexivity|].
  Z.div_mod_to_equations. lia.
Qed.

Lemma dt_sub_days_minutes (a b : datetime) :
  valid_datetime a -> valid_datetime b -> dt_compare a b <> Lt ->
  0 <= total_minutes (dt_sub a b) /\
  td_days (dt_sub a b) = total_minutes (dt_sub a b) / 1440 /\
  0 <= total_minutes (dt_sub a b) / 60 - td_days (dt_sub a b) * 24 < 24.
Proof.
  intros Ha Hb Hc. pose proof (dt_sub_nonneg a b Ha Hb Hc) as H.
  unfold dt_sub in *. rewrite mk_timedelta_total in H.
  now apply timedelta_days_minutes.
Qed.

Lemma lex_compare_eq (a b : list Z) : lex_compare a b = Eq -> a = b.
Proof.
  revert b. induction a as [|x a IH]; intros [|y b]; cbn; try discriminate.
  - reflexivity.
  - destruct (Z.compare_spec x y) as [E|L|G]; try discriminate.
    intros Hrest. subst. now rewrite (IH b Hrest).
Qed.

Lemma dt_sub_equal (a b : datetime) :
  dt_compare a b = Eq -> dt_sub a b = mktd 0 0 0.
Proof.
  intros H. apply lex_compare_eq in H. unfold fields in H.
  injection H as Hy Hm Hd Hh Hmi Hs Hu.
  unfold dt_sub, toordinal. rewrite Hy, Hm, Hd, Hh, Hmi, Hs, Hu.
  rewrite !Z.sub_diag. reflexivity.
Qed.



(** X5.  The boundary of [>=] and [<=]: a date that parses to
    exactly the clock reading counts as neither past nor future: all four
    numbers are 0 and the text is "Less than 1 minute". *)
Theorem collection_exactly_now (ZoneInfo : string -> outcome zone)
    (TIMEZONE : string) (clock : nat -> datetime) (tz : zone)
    (date_str : option string) (dt : datetime) (k : nat) :
  configured_zone ZoneInfo TIMEZONE = Return tz ->
  parse_collection_date ZoneInfo TIMEZONE date_str = Return (Some dt) ->
  dt_compare dt (with_tz (clock k) tz) = Eq ->
  calculate_time_differences ZoneInfo TIMEZONE clock date_str date_str k
  = Return (mkdiffs (Some 0) (Some 0) (Some "Less than 1 minute")
                    (Some 0) (Some 0), S k).
Proof.
  intros Hz Hp Hc.
  rewrite (calculate_time_differences_eq ZoneInfo TIMEZONE clock tz Hz).
  rewrite (parse_collection_date_parsed ZoneInfo TIMEZONE tz Hz) in Hp.
  injection Hp as ->.
  unfold diffs_at, dt_ge, dt_le. rewrite Hc.
  assert (Hc' : dt_compare (with_tz (clock k) tz) dt = Eq)
    by (rewrite dt_compare_antisym, Hc; reflexivity).
  rewrite (dt_sub_equal _ _ Hc), (dt_sub_equal _ _ Hc'). reflexivity.
Qed.

Lemma collection_exactly_now_witness :
  calculate_time_differences Samples.tzdata "Europe/London"
    (Samples.steady (mkdt 2025 11 17 7 0 0 0 None))
    (Some "Monday, 17 November 2025") (Some "Monday, 17 November 2025") 0%nat
  = Return (mkdiffs (Some 0) (Some 0) (Some "Less than 1 minute")
                    (Some 0) (Some 0), 1%nat).
Proof.
  apply (collection_exactly_now Samples.tzdata "Europe/London"
           (Samples.steady (mkdt 2025 11 17 7 0 0 0 None)) "Europe/London"
           (Some "Monday, 17 November 2025")
           (mkdt 2025 11 17 7 0 0 0 (Some "Europe/London")) 0%nat);
    reflexivity.
Defined.

(** ** Dates the parser accepts *)

Lemma digit_char_spec (digit : Z) : 0 <= digit <= 9 ->
  is_digit (digit_char digit) = true /\ digit_val (digit_char digit) = digit /\
  is_space (digit_char digit) = false.
Proof.
  intros H.
  assert (Hin : In digit [0; 1; 2; 3; 4; 5; 6; 7; 8; 9]) by (cbn [In]; lia).
  cbn [In] in Hin.
  repeat (destruct Hin as [<-|Hin]; [vm_compute; auto|]). contradiction.
Qed.

Lemma match_year_four_digits (y : Z) :
  0 <= y <= 9999 -> match_year (four_digits y) = Some (y, "").
Proof.
  intros H. unfold four_digits, match_year.
  destruct (digit_char_spec (y / 1000)) as (A1 & B1 & _);
    [Z.div_mod_to_equations; lia|].
  destruct (digit_char_spec (y / 100 mod 10)) as (A2 & B2 & _);
    [Z.div_mod_to_equations; lia|].
  destruct (digit_char_spec (y / 10 mod 10)) as (A3 & B3 & _);
    [Z.div_mod_to_equations; lia|].
  destruct (digit_char_spec (y mod 10)) as (A4 & B4 & _);
    [Z.div_mod_to_equations; lia|].
  rewrite A1, A2, A3, A4, B1, B2, B3, B4. cbn [andb].
  f_equal. f_equal. Z.div_mod_to_equations. lia.
Qed.

Lemma four_digits_shape (y : Z) :
  0 <= y <= 9999 ->
  begins_nonspace (four_digits y) = true /\ ends_nonspace (four_digits y) = true.
Proof.
  intros H. unfold four_digits. cbn [begins_nonspace ends_nonspace].
  destruct (digit_char_spec (y / 1000)) as (_ & _ & C1);
    [Z.div_mod_to_equations; lia|].
  destruct (digit_char_spec (y mod 10)) as (_ & _ & C4);
    [Z.div_mod_to_equations; lia|].
  now rewrite C1, C4.
Qed.

Lemma month_title_cases (m : Z) : 1 <= m <= 12 ->
  exists title, nth (Z.to_nat (m - 1)) month_titles "" = title /\
    begins_nonspace title = true /\
    forall rest, match_month (title ++ rest) = Some (m, rest).
Proof.
  intros H. apply month_cases in H.
  repeat (destruct H as [->|H];
          [eexists; split; [vm_compute; reflexivity|];
           split; [reflexivity | intros rest; reflexivity]|]).
  subst. eexists. split; [vm_compute; reflexivity|].
  split; [reflexivity | intros rest; reflexivity].
Qed.

Lemma day_cases (d : Z) : 1 <= d <= 31 ->
  d = 1 \/ d = 2 \/ d = 3 \/ d = 4 \/ d = 5 \/ d = 6 \/ d = 7 \/ d = 8 \/
  d = 9 \/ d = 10 \/ d = 11 \/ d = 12 \/ d = 13 \/ d = 14 \/ d = 15 \/ d = 16 \/
  d = 17 \/ d = 18 \/ d = 19 \/ d = 20 \/ d = 21 \/ d = 22 \/ d = 23 \/ d = 24 \/
  d = 25 \/ d = 26 \/ d = 27 \/ d = 28 \/ d = 29 \/ d = 30 \/ d = 31.
Proof. lia. Qed.

Ltac eval_day :=
  match goal with
  | |- context [str_of_int ?d] =>
      let v := eval vm_compute in (str_of_int d) in change (str_of_int d) with v
  end;
  cbn [append regex_match day_alts day_alt_3x day_alt_12x day_alt_0x
       day_alt_x day_alt_sp_x];
  repeat match goal with
  | |- context [if ?b then _ else _] =>
      let v := eval vm_compute in b in change b with v; cbv iota
  end.

Lemma regex_match_day (d : Z) (tail : string) (m y : Z) (rest : string) :
  1 <= d <= 31 ->
  match_after_day (String " " tail) = Some (m, y, rest) ->
  regex_match day_alts (str_of_int d ++ String " " tail) = Some (d, m, y, rest) /\
  begins_nonspace (str_of_int d ++ String " " tail) = true.
Proof.
  intros H Hafter. apply day_cases in H.
  repeat (destruct H as [->|H];
          [split; [eval_day; rewrite Hafter; reflexivity | reflexivity]|]).
  subst. split; [eval_day; rewrite Hafter; reflexivity | reflexivity].
Qed.

Lemma nonempty_app_cons (a b : string) (c : ascii) :
  nonempty (a ++ String c b) = true.
Proof. destruct a; reflexivity. Qed.

Lemma days_in_month_le_31 (y m : Z) : days_in_month y m <= 31.
Proof.
  unfold days_in_month.
  destruct (m =? 2); [destruct (is_leap y); lia|].
  destruct ((m =? 4) || (m =? 6) || (m =? 9) || (m =? 11)); lia.
Qed.

Lemma strptime_rendered (y m d : Z) :
  1 <= y <= 9999 -> 1 <= m <= 12 -> 1 <= d <= days_in_month y m ->
  let body := str_of_int d ++ " "
              ++ nth (Z.to_nat (m - 1)) month_titles "" ++ " " ++ four_digits y in
  strptime body = Return (mkdt y m d 0 0 0 0 None) /\
  begins_nonspace body = true /\ ends_nonspace body = true.
Proof.
  intros Hy Hm Hd body.
  destruct (month_title_cases m Hm) as (title & Ht & Hb & Hmatch).
  subst body. rewrite Ht.
  destruct (four_digits_shape y ltac:(lia)) as [Fb Fe].
  assert (Hafter : match_after_day (String " " (title ++ " " ++ four_digits y))
                   = Some (m, y, "")).
  { unfold match_after_day. cbn [skip_spaces1].
    change (is_space " ") with true. cbv iota.
    rewrite lstrip_begins
      by (rewrite begins_nonspace_app; [exact Hb | now apply begins_nonspace_nonempty]).
    rewrite Hmatch. cbn [append skip_spaces1].
    change (is_space " ") with true. cbv iota.
    rewrite (lstrip_begins _ Fb).
    now rewrite match_year_four_digits by lia. }
  pose proof (days_in_month_le_31 y m) as Hle.
  destruct (regex_match_day d (title ++ " " ++ four_digits y) m y ""
              ltac:(lia) Hafter) as [Hr Hbegin].
  change (str_of_int d ++ " " ++ title ++ " " ++ four_digits y)
    with (str_of_int d ++ String " " (title ++ " " ++ four_digits y)).
  split; [|split; [exact Hbegin|]].
  - unfold strptime. rewrite Hr. cbn [nonempty].
    replace ((1 <=? y) && (y <=? 9999) && (1 <=? d) && (d <=? days_in_month y m))
      with true; [reflexivity|].
    symmetry. rewrite !andb_true_iff, !Z.leb_le. lia.
  - rewrite ends_nonspace_app by reflexivity.
    change (String " " (title ++ " " ++ four_digits y))
      with (String " " title ++ String " " (four_digits y)).
    rewrite ends_nonspace_app by reflexivity.
    cbn [ends_nonspace].
    destruct (four_digits y) eqn:E; [discriminate | exact Fe].
Qed.

(** X2.  Every calendar date is accepted in the page's format: for a
    valid year, month and day, the text "<prefix>, <day> <Month> <yyyy>",
    with any prefix that has no comma, parses to that date at 07:00 in
    the resolved zone. *)
Theorem parse_collection_date_accepts (ZoneInfo : string -> outcome zone)
    (TIMEZONE : string) (tz : zone) (prefix : string) (y m d : Z) :
  configured_zone ZoneInfo TIMEZONE = Return tz ->
  contains "," prefix = false ->
  1 <= y <= 9999 -> 1 <= m <= 12 -> 1 <= d <= days_in_month y m ->
  parse_collection_date ZoneInfo TIMEZONE (Some (render_date prefix y m d))
  = Return (Some (mkdt y m d 7 0 0 0 (Some tz))).
Proof.
  intros Hz Hp Hy Hm Hd.
  pose proof (strptime_rendered y m d Hy Hm Hd) as H. cbv zeta in H.
  unfold parse_collection_date, render_date.
  set (body := str_of_int d ++ " "
               ++ nth (Z.to_nat (m - 1)) month_titles "" ++ " " ++ four_digits y) in *.
  destruct H as (Hs & Hb & He).
  change (prefix ++ ", " ++ body) with (prefix ++ String "," (String " " body)).
  rewrite nonempty_app_cons. cbn [negb]. cbv zeta.
  rewrite (after_first_comma_app prefix _ Hp).
  unfold strip. cbn [lstrip]. change (is_space " ") with true. cbv iota.
  rewrite (lstrip_begins _ Hb), (rstrip_ends _ He), Hs, Hz. reflexivity.
Qed.

Lemma parse_collection_date_accepts_witness :
  parse_collection_date Samples.tzdata "Europe/London"
    (Some (render_date "Thursday" 2024 2 29))
  = Return (Some (mkdt 2024 2 29 7 0 0 0 (Some "Europe/London"))) /\
  render_date "Thursday" 2024 2 29 = "Thursday, 29 February 2024".
Proof.
  split; [|reflexivity].
  apply (parse_collection_date_accepts Samples.tzdata "Europe/London"
           "Europe/London" "Thursday" 2024 2 29);
    try reflexivity; try lia.
  vm_compute. split; discriminate.
Defined.

(** X1.  Whatever [parse_collection_date] returns as a date is a valid
    calendar date (year 1 to 9999, month 1 to 12, a day that exists in
    that month, leap years included) that came from a non-empty string,
    and it carries the zone object the configuration resolves to. *)
Theorem parse_collection_date_valid_date (ZoneInfo : string -> outcome zone)
    (TIMEZONE : string) (date_str : option string) (dt : datetime) :
  parse_collection_date ZoneInfo TIMEZONE date_str = Return (Some dt) ->
  valid_datetime dt /\
  (exists s, date_str = Some s /\ s <> "") /\
  (exists tz, configured_zone ZoneInfo TIMEZONE = Return tz /\
              tzinfo dt = Some tz).
Proof.
  intros H.
  split; [exact (parse_collection_date_valid ZoneInfo TIMEZONE date_str dt H)|].
  apply parse_collection_date_sound in H.
  destruct H as (s & d0 & tz & -> & Hn & _ & Hz & ->).
  split; [exists s; split; [reflexivity | now apply nonempty_true_iff]|].
  exists tz. split; [exact Hz | reflexivity].
Qed.

Lemma parse_collection_date_valid_date_witness :
  valid_datetime (mkdt 2025 11 17 7 0 0 0 (Some "Europe/London")).
Proof.
  exact (proj1 (parse_collection_date_valid_date Samples.tzdata "Mars/Phobos"
                  (Some "Monday, 17 November 2025")
                  (mkdt 2025 11 17 7 0 0 0 (Some "Europe/London")) eq_refl)).
Defined.

(** ** Header columns and rows in sequence *)

Lemma scan_headers_spec (headers : list string) :
  forall i c,
    scan_headers i headers c
    = mkcols (shift i (last_index_where is_next_header headers) (next_col_idx c))
             (shift i (last_index_where is_last_header headers) (last_col_idx c))
             (shift i (last_index_where is_type_header headers)
                    (collection_type_idx c)).
Proof.
  induction headers as [|h headers IH]; intros i c.
  - destruct c; reflexivity.
  - cbn [scan_headers last_index_where]. rewrite IH.
    set (N := last_index_where is_next_header headers).
    set (L := last_index_where is_last_header headers).
    set (T := last_index_where is_type_header headers).
    unfold is_next_header, is_last_header, is_type_header.
    assert (Hne : contains "Collection" h = true -> nonempty h = true)
      by (apply contains_nonempty; reflexivity).
    destruct N, L, T;
      unfold shift; rewrite ?Nat.add_succ_r, ?Nat.add_0_r;
      destruct (contains "Next collection" h);
      cbn [negb andb next_col_idx last_col_idx collection_type_idx];
      rewrite ?Nat.add_0_r; try reflexivity;
      destruct (contains "Last collection" h);
      cbn [negb andb next_col_idx last_col_idx collection_type_idx];
      rewrite ?Nat.add_0_r; try reflexivity;
      destruct (contains "Collection" h);
      cbn [negb andb next_col_idx last_col_idx collection_type_idx];
      rewrite ?Nat.add_0_r; try reflexivity;
      rewrite (Hne eq_refl); reflexivity.
Qed.

Lemma last_index_where_some (p : string -> bool) (l : list string) (j : nat) :
  last_index_where p l = Some j ->
  exists h, nth_error l j = Some h /\ p h = true /\
    forall j' h', (j < j')%nat -> nth_error l j' = Some h' -> p h' = false.
Proof.
  revert j. induction l as [|x l IH]; intros j; cbn [last_index_where];
    [discriminate|].
  destruct (last_index_where p l) as [i|] eqn:E.
  - intros [= <-]. destruct (IH i eq_refl) as (h & Hh & Hp & Hlater).
    exists h. split; [exact Hh|]. split; [exact Hp|].
    intros [|j'] h' Hlt; [lia|]. cbn. apply Hlater. lia.
  - destruct (p x) eqn:Hx; [|discriminate]. intros [= <-].
    exists x. split; [reflexivity|]. split; [exact Hx|].
    intros [|j'] h' Hlt; [lia|]. cbn. clear -E.
    revert j'. induction l as [|y l IHl]; intros j' H; [destruct j'; discriminate|].
    cbn [last_index_where] in E.
    destruct (last_index_where p l) eqn:E'; [discriminate|].
    destruct (p y) eqn:Hy; [discriminate|].
    destruct j' as [|j']; cbn in H; [now injection H as <-|].
    now apply (IHl eq_refl j').
Qed.

Lemma last_index_where_none (p : string -> bool) (l : list string) :
  last_index_where p l = None -> forall h, In h l -> p h = false.
Proof.
  induction l as [|x l IH]; cbn [last_index_where]; [intros _ h []|].
  destruct (last_index_where p l) eqn:E; [discriminate|].
  destruct (p x) eqn:Hx; [discriminate|].
  intros _ h [<-|Hin]; [exact Hx | now apply IH].
Qed.

(** X10.  The column scan gives each role the index of the last
    header of that kind (a header with "Next collection"; else one with
    "Last collection"; else one with "Collection"), so every index found
    points at a header with the matching text, no header gets two roles,
    and a header with "Next collection" is never missed. *)
Theorem find_columns_last_match (t : table) :
  find_columns t
  = mkcols (last_index_where is_next_header (header_texts t))
           (last_index_where is_last_header (header_texts t))
           (last_index_where is_type_header (header_texts t)) /\
  (forall i, next_col_idx (find_columns t) = Some i ->
     exists h, nth_error (header_texts t) i = Some h /\
               contains "Next collection" h = true /\
               last_col_idx (find_columns t) <> Some i /\
               collection_type_idx (find_columns t) <> Some i) /\
  (forall i, last_col_idx (find_columns t) = Some i ->
     exists h, nth_error (header_texts t) i = Some h /\
               contains "Last collection" h = true /\
               collection_type_idx (find_columns t) <> Some i) /\
  (forall i, collection_type_idx (find_columns t) = Some i ->
     exists h, nth_error (header_texts t) i = Some h /\
               contains "Collection" h = true) /\
  (forall h, In h (header_texts t) -> contains "Next collection" h = true ->
     next_col_idx (find_columns t) <> None).
Proof.
  assert (E : find_columns t
    = mkcols (last_index_where is_next_header (header_texts t))
             (last_index_where is_last_header (header_texts t))
             (last_index_where is_type_header (header_texts t))).
  { unfold find_columns. fold (header_texts t). rewrite scan_headers_spec.
    unfold shift. cbn.
    destruct (last_index_where is_next_header (header_texts t)),
      (last_index_where is_last_header (header_texts t)),
      (last_index_where is_type_header (header_texts t)); reflexivity. }
  split; [exact E|]. rewrite E. cbn [next_col_idx last_col_idx collection_type_idx].
  split; [|split; [|split]].
  - intros i Hi. apply last_index_where_some in Hi.
    destruct Hi as (h & Hh & Hp & _). exists h.
    split; [exact Hh|]. split; [exact Hp|]. unfold is_next_header in Hp.
    split; intros Hj; apply last_index_where_some in Hj;
      destruct Hj as (h' & Hh' & Hp' & _);
      rewrite Hh in Hh'; injection Hh' as <-;
      unfold is_last_header, is_type_header in Hp'; rewrite Hp in Hp';
      discriminate.
  - intros i Hi. apply last_index_where_some in Hi.
    destruct Hi as (h & Hh & Hp & _). exists h.
    unfold is_last_header in Hp. apply andb_true_iff in Hp.
    destruct Hp as [Hn Hl].
    split; [exact Hh|]. split; [exact Hl|].
    intros Hj. apply last_index_where_some in Hj.
    destruct Hj as (h' & Hh' & Hp' & _).
    rewrite Hh in Hh'. injection Hh' as <-.
    unfold is_type_header in Hp'. rewrite Hl in Hp'.
    rewrite andb_false_r in Hp'. discriminate.
  - intros i Hi. apply last_index_where_some in Hi.
    destruct Hi as (h & Hh & Hp & _). exists h.
    unfold is_type_header in Hp. apply andb_true_iff in Hp.
    split; [exact Hh | tauto].
  - intros h Hin Hh Hnone.
    pose proof (last_index_where_none _ _ Hnone h Hin) as Hp.
    unfold is_next_header in Hp. congruence.
Qed.

Section Sequence.
Variable ZoneInfo : string -> outcome zone.
Variable TIMEZONE : string.
Variable clock : nat -> datetime.

Lemma parse_rows_app_eq (c : columns) (rows1 rows2 : list tr) (k : nat) :
  parse_rows ZoneInfo TIMEZONE clock c (List.app rows1 rows2) k
  = bind (parse_rows ZoneInfo TIMEZONE clock c rows1)
      (fun items1 =>
         bind (parse_rows ZoneInfo TIMEZONE clock c rows2)
           (fun items2 => ret (List.app items1 items2))) k.
Proof.
  revert k. induction rows1 as [|row rows1 IH]; intros k.
  - cbn [List.app parse_rows]. unfold bind, ret.
    destruct (parse_rows ZoneInfo TIMEZONE clock c rows2 k) as [[o k']|e];
      reflexivity.
  - cbn [List.app parse_rows]. unfold bind at 1 3 4.
    destruct (parse_row ZoneInfo TIMEZONE clock c row k) as [[items k1]|e];
      [|reflexivity].
    unfold bind at 1. rewrite IH. unfold bind, ret.
    destruct (parse_rows ZoneInfo TIMEZONE clock c rows1 k1) as [[o1 k2]|e];
      [|reflexivity].
    destruct (parse_rows ZoneInfo TIMEZONE clock c rows2 k2) as [[o2 k3]|e];
      [|reflexivity].
    now rewrite app_assoc.
Qed.

End Sequence.

(** X11.  Rows are handled one after the other: the items of a list
    of rows followed by another are the items of the first followed by
    the items of the second, the second being read with the clock where
    the first left it. *)
Theorem parse_rows_app (ZoneInfo : string -> outcome zone) (TIMEZONE : string)
    (clock : nat -> datetime) (c : columns) (rows1 rows2 : list tr)
    (k k1 k2 : nat) (items1 items2 : list item) :
  parse_rows ZoneInfo TIMEZONE clock c rows1 k = Return (items1, k1) ->
  parse_rows ZoneInfo TIMEZONE clock c rows2 k1 = Return (items2, k2) ->
  parse_rows ZoneInfo TIMEZONE clock c (List.app rows1 rows2) k
  = Return (List.app items1 items2, k2).
Proof.
  intros H1 H2. rewrite parse_rows_app_eq. unfold bind, ret.
  now rewrite H1, H2.
Qed.

(** ** Labels in context *)

Lemma lower_app (a b : string) : lower (a ++ b) = lower a ++ lower b.
Proof. induction a as [|c a IH]; cbn; [reflexivity | now rewrite IH]. Qed.

Lemma startswith_app (n s b : string) :
  startswith n s = true -> startswith n (s ++ b) = true.
Proof.
  revert s. induction n as [|x n IH]; intros s; [reflexivity|].
  destruct s as [|y s]; cbn; [discriminate|].
  intros H. apply andb_true_iff in H. destruct H as [H1 H2].
  now rewrite H1, (IH s H2).
Qed.

Lemma contains_app_l (n s b : string) :
  contains n s = true -> contains n (s ++ b) = true.
Proof.
  induction s as [|y s IH]; cbn [contains append]; intros H.
  - rewrite orb_false_r in H. destruct n; [|discriminate].
    destruct b; reflexivity.
  - apply orb_true_iff in H. destruct H as [H|H].
    + change (String y (s ++ b)) with (String y s ++ b).
      now rewrite (startswith_app n (String y s) b H).
    + rewrite (IH H). apply orb_true_r.
Qed.

Lemma contains_app_r (n a s : string) :
  contains n s = true -> contains n (a ++ s) = true.
Proof.
  intros H. induction a as [|y a IH]; cbn [append]; [exact H|].
  cbn [contains]. rewrite IH. apply orb_true_r.
Qed.

Lemma contains_within (n a s b : string) :
  contains n s = true -> contains n (a ++ s ++ b) = true.
Proof. intros H. apply contains_app_r. now apply contains_app_l. Qed.

Lemma recognised_within (a s b : string) :
  recognised s = true -> recognised (a ++ s ++ b) = true.
Proof.
  unfold recognised, RuleTable.rules. cbn [existsb RuleTable.applies
    RuleTable.black_rubbish RuleTable.blue_cardboard RuleTable.food_caddy
    RuleTable.green_recycling RuleTable.garden_waste].
  intros H.
  assert (M : forall n, contains n s = true -> contains n (a ++ s ++ b) = true)
    by (intros n; apply contains_within).
  repeat (apply orb_true_iff in H; destruct H as [H|H]);
    try discriminate H;
    repeat match goal with
    | H : (_ && _) = true |- _ =>
        let H1 := fresh in let H2 := fresh in
        apply andb_true_iff in H; destruct H as [H1 H2]
    | H : (_ || _) = true |- _ => apply orb_true_iff in H; destruct H as [H|H]
    | H : contains ?n s = true |- _ => apply M in H; rewrite H; clear H
    end;
    cbn [andb orb]; rewrite ?orb_true_r; reflexivity.
Qed.

Lemma get_waste_group_recognised (label : string) :
  get_waste_group label <> None <-> recognised (lower label) = true.
Proof.
  unfold get_waste_group, recognised, RuleTable.rules.
  cbn [existsb RuleTable.applies
    RuleTable.black_rubbish RuleTable.blue_cardboard RuleTable.food_caddy
    RuleTable.green_recycling RuleTable.garden_waste].
  destruct label as [|c t]; [cbn; split; [congruence | discriminate]|].
  cbn [nonempty negb]. set (l := lower (String c t)).
  destruct (contains "black" l && contains "rubbish" l);
    [cbn; split; [reflexivity | discriminate]|].
  destruct (contains "blue" l && (contains "cardboard" l || contains "bag" l));
    [cbn; split; [reflexivity | discriminate]|].
  destruct (contains "food" l || contains "caddy" l);
    [cbn; split; [reflexivity | discriminate]|].
  destruct (contains "green" l && contains "recycling" l);
    [cbn; split; [reflexivity | discriminate]|].
  destruct (contains "garden" l && contains "waste" l);
    cbn; split; congruence || discriminate.
Qed.

Lemma get_bin_type_column_prefix_recognised (label : string) :
  get_bin_type_column_prefix label <> None <-> recognised (lower label) = true.
Proof.
  unfold get_bin_type_column_prefix, recognised, RuleTable.rules.
  cbn [existsb RuleTable.applies
    RuleTable.black_rubbish RuleTable.blue_cardboard RuleTable.food_caddy
    RuleTable.green_recycling RuleTable.garden_waste].
  destruct label as [|c t]; [cbn; split; [congruence | discriminate]|].
  cbn [nonempty negb]. set (l := lower (String c t)).
  destruct (contains "black" l && contains "rubbish" l);
    [cbn; split; [reflexivity | discriminate]|].
  destruct (contains "blue" l && (contains "cardboard" l || contains "bag" l));
    [cbn; split; [reflexivity | discriminate]|].
  destruct (contains "food" l || contains "caddy" l);
    [cbn; split; [reflexivity | discriminate]|].
  destruct (contains "garden" l && contains "waste" l);
    [cbn; rewrite ?orb_true_r; split; [reflexivity | discriminate]|].
  destruct (contains "green" l && contains "recycling" l);
    cbn; split; congruence || discriminate.
Qed.

(** X12.  Text around a recognised label never makes it
    unrecognised, for either classifier; and a label classified as black
    rubbish stays black rubbish, with the matching column prefix, whatever
    is written before or after it. *)
Theorem recognised_in_context (before label after : string) :
  get_waste_group label <> None ->
  get_waste_group (before ++ label ++ after) <> None /\
  get_bin_type_column_prefix (before ++ label ++ after) <> None /\
  (get_waste_group label = Some (Group "General Rubbish (black bin)") ->
   get_waste_group (before ++ label ++ after)
     = Some (Group "General Rubbish (black bin)") /\
   get_bin_type_column_prefix (before ++ label ++ after)
     = Some "black_rubbish_140l").
Proof.
  intros H. apply get_waste_group_recognised in H.
  assert (Hctx : recognised (lower (before ++ label ++ after)) = true).
  { rewrite !lower_app. now apply recognised_within. }
  split; [now apply get_waste_group_recognised|].
  split; [now apply get_bin_type_column_prefix_recognised|].
  intros Hblack.
  assert (Hb : contains "black" (lower label) && contains "rubbish" (lower label)
               = true).
  { revert Hblack. unfold get_waste_group.
    destruct (negb (nonempty label)); [discriminate|]. cbv zeta.
    destruct (contains "black" (lower label) && contains "rubbish" (lower label));
      [reflexivity|].
    repeat match goal with
    | |- context [if ?b then _ else _] => destruct b
    end; discriminate. }
  apply andb_true_iff in Hb. destruct Hb as [H1 H2].
  apply (contains_within _ (lower before) _ (lower after)) in H1, H2.
  unfold get_waste_group, get_bin_type_column_prefix.
  assert (Hn : nonempty (before ++ label ++ after) = true).
  { destruct label; [discriminate Hblack|]. destruct before; reflexivity. }
  rewrite Hn. cbn [negb]. cbv zeta. rewrite !lower_app, H1, H2. auto.
Qed.

Lemma recognised_in_context_witness :
  get_waste_group "Your Black Rubbish Bin (140L)" <> None /\
  get_bin_type_column_prefix "Your Black Rubbish Bin (140L)"
    = Some "black_rubbish_140l".
Proof.
  destruct (recognised_in_context "Your " "Black Rubbish Bin" " (140L)")
    as (H1 & _ & H3); [discriminate|].
  split; [exact H1|]. exact (proj2 (H3 eq_refl)).
Defined.

(** ** Storing *)

Lemma dict_get_set_same {V : Type} (d : dict (option V)) (k : string)
    (v : option V) :
  dict_get (dict_set d k v) k = v.
Proof.
  induction d as [|[k' v'] d IH]; cbn.
  - now rewrite String.eqb_refl.
  - destruct (String.eqb k' k) eqn:E; cbn.
    + now rewrite String.eqb_refl.
    + now rewrite E.
Qed.

Lemma dict_get_set_other {V : Type} (d : dict (option V)) (k k' : string)
    (v : option V) :
  String.eqb k k' = false ->
  dict_get (dict_set d k v) k' = dict_get d k'.
Proof.
  intros H. induction d as [|[k0 v0] d IH]; cbn.
  - now rewrite H.
  - destruct (String.eqb k0 k) eqn:E; cbn.
    + apply String.eqb_eq in E. subst k0. now rewrite H.
    + destruct (String.eqb k0 k'); [reflexivity | exact IH].
Qed.

Lemma get_bin_type_column_prefix_range (label prefix : string) :
  get_bin_type_column_prefix label = Some prefix ->
  In prefix bin_prefixes /\ nonempty prefix = true /\ nonempty label = true.
Proof.
  unfold get_bin_type_column_prefix, bin_prefixes.
  destruct (nonempty label); cbn [negb]; [|discriminate].
  cbv zeta.
  repeat match goal with
  | |- context [if ?b then _ else _] => destruct b
  end; intros [= <-]; cbn; tauto.
Qed.

Lemma column_keys_distinct (p q : string) :
  In p bin_prefixes -> In q bin_prefixes ->
  String.eqb (last_col_of q) (last_col_of p) = String.eqb q p /\
  String.eqb (next_col_of q) (next_col_of p) = String.eqb q p /\
  String.eqb (next_col_of q) (last_col_of p) = false /\
  String.eqb (last_col_of q) (next_col_of p) = false.
Proof.
  unfold bin_prefixes. cbn [In]. intros Hp Hq.
  repeat (destruct Hp as [<-|Hp]);
    try contradiction;
    repeat (destruct Hq as [<-|Hq]); try contradiction;
    vm_compute; auto.
Qed.

Section StoreFacts.
Variable ZoneInfo : string -> outcome zone.
Variable TIMEZONE : string.
Variable clock : nat -> datetime.
Variable tz : zone.
Hypothesis zone_ok : configured_zone ZoneInfo TIMEZONE = Return tz.

Lemma stored_date_value (date_str : option string) :
  stored_date ZoneInfo TIMEZONE date_str
  = Return (stored_value ZoneInfo TIMEZONE date_str).
Proof.
  unfold stored_value, stored_date.
  destruct date_str as [str|]; [|reflexivity].
  destruct (nonempty str && negb (str_in (lower str) ["unknown"; "n/a"; ""]));
    [|reflexivity].
  now rewrite (parse_collection_date_parsed ZoneInfo TIMEZONE tz zone_ok).
Qed.

Lemma store_step_holds (update_fields : dict (option datetime))
    (seen : string -> option item) (it : item) :
  holds ZoneInfo TIMEZONE update_fields seen ->
  exists update_fields',
    store_step ZoneInfo TIMEZONE update_fields it = Return update_fields' /\
    holds ZoneInfo TIMEZONE update_fields'
      (fun p => if recognised_as p it then Some it else seen p).
Proof.
  intros H. unfold store_step, recognised_as.
  destruct (collection_type it) as [name|]; [|exists update_fields; now split].
  destruct (nonempty name) eqn:Hn; cbn [negb andb];
    [|exists update_fields; now split].
  destruct (get_bin_type_column_prefix name) as [q|] eqn:Hq;
    [|exists update_fields; now split].
  destruct (get_bin_type_column_prefix_range name q Hq) as (Hin & Hqn & _).
  rewrite Hqn. cbn [negb]. rewrite !stored_date_value.
  eexists. split; [reflexivity|].
  intros p Hp. destruct (column_keys_distinct p q Hp Hin) as (K1 & K2 & K3 & K4).
  destruct (String.eqb q p) eqn:E.
  - apply String.eqb_eq in E. subst p. split.
    + rewrite dict_get_set_other by exact K3. apply dict_get_set_same.
    + apply dict_get_set_same.
  - split.
    + rewrite dict_get_set_other by exact K3.
      rewrite dict_get_set_other by exact K1.
      apply (H p Hp).
    + rewrite dict_get_set_other by exact K2.
      rewrite dict_get_set_other by exact K4.
      apply (H p Hp).
Qed.

Lemma store_loop_holds (items : list item) :
  forall update_fields seen,
    holds ZoneInfo TIMEZONE update_fields seen ->
    exists update_fields',
      store_loop ZoneInfo TIMEZONE update_fields items = Return update_fields' /\
      holds ZoneInfo TIMEZONE update_fields'
        (fun p => fold_left
                    (fun acc it => if recognised_as p it then Some it else acc)
                    items (seen p)).
Proof.
  induction items as [|it items IH]; intros uf seen H.
  - exists uf. now split.
  - cbn [store_loop fold_left].
    destruct (store_step_holds uf seen it H) as (uf1 & Hstep & H1).
    rewrite Hstep. apply (IH uf1 _ H1).
Qed.

End StoreFacts.

(** X13.  When the zone resolves, [store_collections] reads the
    clock once and sends twelve columns with as many placeholders and
    values: the address, the reading, and for each of the five bin types
    the parsed last and next collection of the last item recognised as
    that type, or two NULLs when there is none.  Items with no collection
    type or an unrecognised one change nothing. *)
Theorem store_collections_statement (ZoneInfo : string -> outcome zone)
    (TIMEZONE : string) (clock : nat -> datetime) (tz : zone)
    (address : string) (collections_data : list item) (k : nat) :
  configured_zone ZoneInfo TIMEZONE = Return tz ->
  exists st,
    store_collections ZoneInfo TIMEZONE clock address collections_data k
      = Return (st, S k) /\
    st_columns st
      = "address" :: "site_last_checked"
        :: flat_map (fun p => [last_col_of p; next_col_of p]) bin_prefixes /\
    st_values st
      = SqlText address :: SqlTimestamp (with_tz (clock k) tz)
        :: flat_map (sent_pair ZoneInfo TIMEZONE collections_data) bin_prefixes /\
    List.length (st_placeholders st) = List.length (st_values st) /\
    List.length (st_columns st) = 12%nat.
Proof.
  intros Hz. unfold store_collections, bind, lift, datetime_now, ret.
  rewrite Hz.
  destruct (store_loop_holds ZoneInfo TIMEZONE tz Hz collections_data []
              (fun _ => None)) as (uf & Hloop & Hholds).
  { intros p _. split; reflexivity. }
  rewrite Hloop. eexists. split; [reflexivity|].
  split; [reflexivity|]. split; [|split; reflexivity].
  cbn [add_bin_columns bin_prefixes st_values list_append List.app flat_map].
  unfold sent_pair, last_recognised.
  repeat match goal with
  | |- context [dict_get uf (last_col_of ?p)] =>
      let Hl := fresh in let Hn := fresh in
      destruct (Hholds p ltac:(cbn; tauto)) as [Hl Hn];
      rewrite Hl, Hn; clear Hl Hn
  end.
  repeat match goal with
  | |- context [fold_left ?f collections_data None] =>
      destruct (fold_left f collections_data None)
  end; reflexivity.
Qed.

(** ** When no zone resolves *)

Section ZoneFailure.
Variable ZoneInfo : string -> outcome zone.
Variable TIMEZONE : string.
Variable clock : nat -> datetime.
Variable e : exn.
Hypothesis zone_fails : configured_zone ZoneInfo TIMEZONE = Raise e.

Lemma calculate_time_differences_raises (next last : option string) (k : nat) :
  calculate_time_differences ZoneInfo TIMEZONE clock next last k = Raise e.
Proof.
  unfold calculate_time_differences, bind, lift. now rewrite zone_fails.
Qed.

Lemma parse_row_raises (c : columns) (row : tr) (k : nat) :
  parse_row ZoneInfo TIMEZONE clock c row k = Raise e.
Proof.
  unfold parse_row. cbv zeta.
  destruct (resolve_collection_type c row (map (get_text "") (row_tds row)))
    as [ct|] eqn:Hct.
  - destruct (nonempty ct && contains " | " ct) eqn:Hsplit.
    + apply andb_true_iff in Hsplit. destruct Hsplit as [Hne Hbar].
      pose proof (resolve_collection_type_collapsed c row _ ct Hct Hne) as Hc.
      destruct (individual_types_collapsed ct Hc) as (E & _ & Hparts).
      rewrite E. unfold split_bar in *.
      pose proof (split_bar_aux_length ct "" Hbar) as Hlen.
      destruct (split_bar_aux "" ct) as [|p ps]; [cbn in Hlen; lia|].
      cbn [forallb] in Hparts. apply andb_true_iff in Hparts.
      destruct Hparts as [Hp _].
      unfold collapsed in Hp. apply andb_true_iff in Hp. destruct Hp as [Hp _].
      apply andb_true_iff in Hp. destruct Hp as [Hp _].
      cbn [split_items]. rewrite (begins_nonspace_nonempty p Hp).
      unfold bind. now rewrite calculate_time_differences_raises.
    + unfold bind. now rewrite calculate_time_differences_raises.
  - unfold bind. now rewrite calculate_time_differences_raises.
Qed.

End ZoneFailure.

(** X14.  When neither the configured zone nor the fall-back
    resolves, [calculate_time_differences] and [store_collections] raise
    that exception, and so does the table parser as soon as the table has
    one row; [parse_collection_date] raises it only for a string that
    [strptime] accepts, and returns [None] instead when the exception is a
    [ValueError] or [AttributeError]. *)
Theorem zone_failure_propagates (ZoneInfo : string -> outcome zone)
    (TIMEZONE : string) (clock : nat -> datetime) (e : exn) :
  configured_zone ZoneInfo TIMEZONE = Raise e ->
  (forall next_collection_str last_collection_str k,
     calculate_time_differences ZoneInfo TIMEZONE clock
       next_collection_str last_collection_str k = Raise e) /\
  (forall c row rows k,
     parse_rows ZoneInfo TIMEZONE clock c (row :: rows) k = Raise e) /\
  (forall address collections_data k,
     store_collections ZoneInfo TIMEZONE clock address collections_data k
     = Raise e) /\
  (forall date_str,
     parse_collection_date ZoneInfo TIMEZONE date_str
     = if ValueError_or_AttributeError e then Return None
       else match date_str with
            | Some s =>
                if nonempty s then
                  match strptime (strip (after_first_comma s)) with
                  | Return _ => Raise e
                  | Raise _ => Return None
                  end
                else Return None
            | None => Return None
            end).
Proof.
  intros Hz. split; [|split; [|split]].
  - intros. now apply calculate_time_differences_raises.
  - intros c row rows k. cbn [parse_rows]. unfold bind.
    now rewrite (parse_row_raises ZoneInfo TIMEZONE clock e Hz).
  - intros. unfold store_collections, bind, lift. now rewrite Hz.
  - intros [s|]; unfold parse_collection_date;
      [|destruct (ValueError_or_AttributeError e); reflexivity].
    destruct (nonempty s); cbn [negb];
      [|destruct (ValueError_or_AttributeError e); reflexivity].
    cbv zeta. rewrite Hz.
    destruct (strptime (strip (after_first_comma s))) as [dt|e'] eqn:Hp; cbn.
    + destruct (ValueError_or_AttributeError e); reflexivity.
    + apply strptime_raises_ValueError in Hp. subst e'. cbn.
      destruct (ValueError_or_AttributeError e); reflexivity.
Qed.

Lemma zone_failure_propagates_witness :
  parse_rows no_tzdata "Europe/London" (Samples.steady Samples.sunday_noon)
    (mkcols None None None) [Samples.composite_row] 0%nat
  = Raise ZoneInfoNotFoundError.
Proof.
  apply (proj1 (proj2 (zone_failure_propagates no_tzdata "Europe/London"
           (Samples.steady Samples.sunday_noon) ZoneInfoNotFoundError eq_refl))).
Defined.

(** ** Composite rows and normal forms *)

(** X8.  A composite label is already collapsed when it is split,
    so cutting it at " | " gives at least two pieces, none of them empty
    and none changed by [strip]: the row yields exactly one item per piece
    and the test for empty pieces never skips one. *)
Theorem composite_row_never_drops (ZoneInfo : string -> outcome zone)
    (TIMEZONE : string) (clock : nat -> datetime) (tz : zone)
    (c : columns) (row : tr) (k : nat) (label : string) :
  configured_zone ZoneInfo TIMEZONE = Return tz ->
  resolve_collection_type c row (map (get_text "") (row_tds row)) = Some label ->
  contains " | " label = true ->
  exists items,
    parse_row ZoneInfo TIMEZONE clock c row k
      = Return (items, (k + List.length (split_bar label))%nat) /\
    map collection_type items = map Some (split_bar label) /\
    individual_types label = split_bar label /\
    forallb collapsed (split_bar label) = true /\
    (2 <= List.length items)%nat.
Proof.
  intros Hz Hlabel Hbar.
  destruct (composite_row_items ZoneInfo TIMEZONE clock tz Hz c row k label
              Hlabel Hbar) as (items & Hrun & Hmap & Hparts & Hlen).
  exists items. split; [exact Hrun|]. split; [exact Hmap|].
  split; [|split; assumption].
  apply individual_types_collapsed.
  apply (resolve_collection_type_collapsed c row _ label Hlabel).
  apply (contains_nonempty " | " label); [reflexivity | exact Hbar].
Qed.

Lemma composite_row_never_drops_witness :
  exists items,
    parse_row Samples.tzdata "Europe/London" (Samples.steady Samples.sunday_noon)
      (find_columns Samples.composite_table) Samples.composite_row 0%nat
      = Return (items, 2%nat) /\
    map collection_type items
      = [Some "Black Rubbish Bin"; Some "Blue Cardboard Bag"].
Proof.
  destruct (composite_row_never_drops Samples.tzdata "Europe/London"
              (Samples.steady Samples.sunday_noon) "Europe/London"
              (find_columns Samples.composite_table) Samples.composite_row 0%nat
              "Black Rubbish Bin | Blue Cardboard Bag" eq_refl eq_refl eq_refl)
    as (items & Hrun & Hmap & _).
  exists items. split; [exact Hrun | exact Hmap].
Defined.

(** X9.  Collapsing white space is idempotent, its non-empty results
    are in normal form, and splitting the single-space join of words gives
    the words back. *)
Theorem collapse_idempotent (o : option string) :
  collapse (collapse o) = collapse o /\
  (forall s, collapse o = Some s -> s <> "" -> collapsed s = true) /\
  (forall ws, forallb is_word ws = true -> split_ws (join " " ws) = ws).
Proof.
  split; [|split].
  - destruct o as [s|]; [|reflexivity]. cbn [collapse].
    destruct (nonempty s) eqn:Hs; cbn [collapse]; [|now rewrite Hs].
    destruct (nonempty (join " " (split_ws s))); [|reflexivity].
    now rewrite collapse_text_idempotent.
  - intros s H Hne. apply nonempty_true_iff in Hne.
    destruct o as [x|]; [|discriminate]. cbn [collapse] in H.
    destruct (nonempty x) eqn:Hx.
    + injection H as <-. now apply join_split_ws_collapsed.
    + injection H as <-. congruence.
  - apply split_ws_join.
Qed.

Lemma collapse_idempotent_witness :
  collapse (Some "  Black   Rubbish Bin ") = Some "Black Rubbish Bin" /\
  collapsed "Black Rubbish Bin" = true /\
  split_ws "Black Rubbish Bin" = ["Black"; "Rubbish"; "Bin"].
Proof.
  destruct (collapse_idempotent (Some "  Black   Rubbish Bin "))
    as (_ & Hshape & Hwords).
  split; [reflexivity|]. split.
  - apply (Hshape "Black Rubbish Bin"); [reflexivity | discriminate].
  - apply (Hwords ["Black"; "Rubbish"; "Bin"]). reflexivity.
Defined.

Lemma store_collections_statement_witness :
  exists st,
    store_collections Samples.tzdata "Europe/London"
      (Samples.steady Samples.sunday_noon) "1 High Street"
      [mkitem (Some "Food Caddy") None (Some "Monday, 17 November 2025")
         (Some "Monday, 10 November 2025") empty_diffs;
       mkitem (Some "Special Collection") None
         (Some "Monday, 17 November 2025") None empty_diffs;
       mkitem (Some "Food Waste") None (Some "Tuesday, 18 November 2025")
         (Some "unknown") empty_diffs] 0%nat
    = Return (st, 1%nat) /\
    st_values st
    = [SqlText "1 High Street";
       SqlTimestamp (mkdt 2025 11 16 12 0 0 0 (Some "Europe/London"));
       SqlNull; SqlNull; SqlNull; SqlNull;
       SqlNull; SqlTimestamp (mkdt 2025 11 18 7 0 0 0 (Some "Europe/London"));
       SqlNull; SqlNull; SqlNull; SqlNull].
Proof.
  destruct (store_collections_statement Samples.tzdata "Europe/London"
              (Samples.steady Samples.sunday_noon) "Europe/London"
              "1 High Street"
              [mkitem (Some "Food Caddy") None (Some "Monday, 17 November 2025")
                 (Some "Monday, 10 November 2025") empty_diffs;
               mkitem (Some "Special Collection") None
                 (Some "Monday, 17 November 2025") None empty_diffs;
               mkitem (Some "Food Waste") None (Some "Tuesday, 18 November 2025")
                 (Some "unknown") empty_diffs] 0%nat eq_refl)
    as (st & Hrun & _ & Hvalues & _).
  exists st. split; [exact Hrun|]. rewrite Hvalues. reflexivity.
Defined.

Lemma parse_rows_app_witness :
  parse_rows Samples.tzdata "Europe/London" (Samples.steady Samples.sunday_noon)
    (mkcols None None None)
    (List.app [Samples.composite_row] [Samples.empty_type_row]) 0%nat
  = Return
      (List.app
         [mkitem (Some "Black Rubbish Bin")
            (Some (Group "General Rubbish (black bin)"))
            (Some "Monday, 17 November 2025") None
            (mkdiffs (Some 0) (Some 1140) (Some "19 hours") None None);
          mkitem (Some "Blue Cardboard Bag")
            (Some (Group "Cardboard (blue bag/box)"))
            (Some "Monday, 17 November 2025") None
            (mkdiffs (Some 0) (Some 1140) (Some "19 hours") None None)]
         [mkitem (Some "Black Rubbish Bin")
            (Some (Group "General Rubbish (black bin)")) None None empty_diffs],
       3%nat).
Proof.
  apply (parse_rows_app Samples.tzdata "Europe/London"
           (Samples.steady Samples.sunday_noon) (mkcols None None None)
           [Samples.composite_row] [Samples.empty_type_row] 0%nat 2%nat 3%nat);
    reflexivity.
Defined.

Lemma collection_types_collapsed_witness :
  exists out k',
    parse_collection_table Samples.tzdata "Europe/London"
      (Samples.steady Samples.sunday_noon) Samples.find_table
      Samples.composite_html 0%nat = Return (out, k') /\
    Forall (fun it => forall s, collection_type it = Some s ->
                        collapsed s = true /\ strip s = s /\
                        join " " (split_ws s) = s) out.
Proof.
  exact (collection_types_collapsed Samples.tzdata "Europe/London"
           (Samples.steady Samples.sunday_noon) Samples.find_table
           "Europe/London" Samples.composite_html 0%nat eq_refl).
Defined.

(** ** Strings that are not dates *)


Lemma lower_char_inv (c x : ascii) :
  lower_char c = x ->
  c = x \/ c = ascii_of_nat (nat_of_ascii x - 32).
Proof.
  intros <-.
  destruct c as [[] [] [] [] [] [] [] []]; vm_compute; auto.
Qed.

Lemma lower_inv_cons (s : string) (x : ascii) (t : string) :
  lower s = String x t ->
  exists c s', s = String c s' /\ lower s' = t /\
    (c = x \/ c = ascii_of_nat (nat_of_ascii x - 32)).
Proof.
  destruct s as [|c s']; cbn; [discriminate|].
  intros [= Hc Ht]. exists c, s'. split; [reflexivity|]. split; [exact Ht|].
  now apply lower_char_inv.
Qed.

Lemma lower_inv_empty (s : string) : lower s = "" -> s = "".
Proof. destruct s; cbn; [reflexivity | discriminate]. Qed.

Ltac invert_lower H :=
  repeat match type of H with
  | lower ?s = String _ _ =>
      let c := fresh "c" in let r := fresh "r" in
      let E := fresh "E" in let Hc := fresh "Hc" in let Hr := fresh "Hr" in
      apply lower_inv_cons in H; destruct H as [c [r [E [Hr Hc]]]];
      subst s; destruct Hc as [Hc|Hc]; subst c; rename Hr into H
  | lower ?s = EmptyString => apply lower_inv_empty in H; subst s
  end.

Lemma skipped_strings_do_not_parse (ZoneInfo : string -> outcome zone)
    (TIMEZONE : string) (str : string) :
  str_in (lower str) ["unknown"; "n/a"; ""] = true ->
  parse_collection_date ZoneInfo TIMEZONE (Some str) = Return None.
Proof.
  unfold str_in. cbn [existsb]. intros H.
  repeat (apply orb_true_iff in H; destruct H as [H|H]);
    try discriminate H; apply String.eqb_eq in H.
  - invert_lower H; vm_compute; reflexivity.
  - invert_lower H; vm_compute; reflexivity.
  - invert_lower H. reflexivity.
Qed.

(** X15.  The test that skips "unknown" and "n/a" in [store_collections]
    never changes the outcome: such strings, in any letter case, do not
    parse, so the date kept for a raw string is in every case what
    [parse_collection_date] returns for it (an exception included). *)
Theorem skip_test_is_redundant (ZoneInfo : string -> outcome zone)
    (TIMEZONE : string) (date_str : option string) :
  stored_date ZoneInfo TIMEZONE date_str
  = parse_collection_date ZoneInfo TIMEZONE date_str.
Proof.
  unfold stored_date. destruct date_str as [str|]; [|reflexivity].
  destruct (nonempty str) eqn:Hn; cbn [andb].
  - destruct (str_in (lower str) ["unknown"; "n/a"; ""]) eqn:Hs; cbn [negb];
      [|reflexivity].
    symmetry. now apply skipped_strings_do_not_parse.
  - destruct str; [reflexivity | discriminate].
Qed.
